(** * SystemInfoTool: a shallow embedding of [sys_info_tool.py]

    The development follows the source file top to bottom:
    - [get_size], the byte-size formatter (module level);
    - the collector methods of [SystemInfoGUI] ([get_cpu_info], ...), over an
      explicit record [Host] of what the ambient queries answer;
    - the presenter: the tab widgets, [update_tab], [start_scan],
      [scan_system], [scan_complete] and [export_to_text], as transitions
      of an explicit GUI state.

    Text is a [string] (the UTF-8 bytes of the Python [str]); Python [int]
    is [Z]; an exception is a value [Raise e] of the result type [res]. *)

From Stdlib Require Import ZArith List String Ascii Bool Lia.
From Stdlib Require Import Numbers.DecimalString.
Import ListNotations.

Open Scope string_scope.
Open Scope Z_scope.

(** ** Exceptions and results *)

(** The exception classes the source tells apart: [except json.JSONDecodeError]
    catches only the first, [except Exception] and a bare [except] both. *)
Inductive exn_class : Type :=
| JSONDecodeError
| OtherError.

(** An exception: its class and [str(e)]. *)
Record exn : Type := mkExn { exn_cls : exn_class; exn_msg : string }.

Inductive res (A : Type) : Type :=
| Ok (a : A)
| Raise (e : exn).
Arguments Ok {A} a.
Arguments Raise {A} e.

Definition res_bind {A B : Type} (r : res A) (k : A -> res B) : res B :=
  match r with
  | Ok a => k a
  | Raise e => Raise e
  end.

Definition is_ok {A : Type} (r : res A) : bool :=
  match r with Ok _ => true | Raise _ => false end.

Definition OverflowError (msg : string) : exn := mkExn OtherError msg.
Definition AttributeError (msg : string) : exn := mkExn OtherError msg.
Definition TypeError (msg : string) : exn := mkExn OtherError msg.
Definition ValueError (msg : string) : exn := mkExn OtherError msg.
Definition KeyError (msg : string) : exn := mkExn OtherError msg.
Definition NameError (msg : string) : exn := mkExn OtherError msg.

(** ** Text helpers *)

(** [s * n] on Python strings. *)
Fixpoint str_mul (s : string) (n : nat) : string :=
  match n with
  | O => ""
  | S n' => s ++ str_mul s n'
  end.

(** [str(z)] for an [int]. *)
Definition str_int (z : Z) : string := NilZero.string_of_int (Z.to_int z).

(** [m] is a prefix of [s]. *)
Fixpoint prefixb (m s : string) : bool :=
  match m, s with
  | EmptyString, _ => true
  | String a m', String b s' => Ascii.eqb a b && prefixb m' s'
  | String _ _, EmptyString => false
  end.

(** [m in s] on Python strings: [m] occurs in [s] as a contiguous run. *)
Fixpoint contains (m s : string) : bool :=
  prefixb m s ||
  match s with
  | EmptyString => false
  | String _ s' => contains m s'
  end.

(** [s[n:]]. *)
Fixpoint drop (n : nat) (s : string) : string :=
  match n, s with
  | O, _ => s
  | S n', String _ s' => drop n' s'
  | S _, EmptyString => EmptyString
  end.

(** [s.partition(m)] when [m] occurs in [s]: the text before the first
    occurrence of [m] and the text after it; [None] when [m] does not
    occur. *)
Fixpoint split_at (m s : string) : option (string * string) :=
  if prefixb m s then Some (EmptyString, drop (String.length m) s)
  else match s with
       | EmptyString => None
       | String c s' =>
           match split_at m s' with
           | Some (before, after) => Some (String c before, after)
           | None => None
           end
       end.

(** ** [get_size] (source lines 15-21)

    [bytes_val] starts as the [int] argument.  [bytes_val /= factor] is true
    division: on an [int] it yields the correctly rounded [float] quotient
    (and raises [OverflowError] past the largest float), on a [float] it
    divides by a power of two, which is exact here since the value is at
    least [1024].  A float is kept as [SFloat m sh], the double [m / 2^sh]. *)

Inductive size_val : Type :=
| SInt (z : Z)
| SFloat (m : Z) (sh : Z).

(** Round a natural number to the 53 significant bits of a double
    (round to nearest, ties to even). *)
Definition rnd53 (n : Z) : Z :=
  let bits := Z.log2 n + 1 in
  if bits <=? 53 then n
  else
    let s := bits - 53 in
    let q := n / 2 ^ s in
    let r := n mod 2 ^ s in
    let half := 2 ^ (s - 1) in
    let q' := if r <? half then q
              else if half <? r then q + 1
              else if Z.even q then q else q + 1 in
    q' * 2 ^ s.

Definition factor : Z := 1024.

Definition units : list string := [""; "K"; "M"; "G"; "T"; "P"].

(** [bytes_val < factor]. *)
Definition lt_factor (v : size_val) : bool :=
  match v with
  | SInt z => z <? factor
  | SFloat m sh => m <? factor * 2 ^ sh
  end.

(** [bytes_val /= factor]. *)
Definition div_factor (v : size_val) : res size_val :=
  match v with
  | SInt z =>
      if 2 ^ 1034 <=? rnd53 z
      then Raise (OverflowError "integer division result too large for a float")
      else Ok (SFloat (rnd53 z) 10)
  | SFloat m sh => Ok (SFloat m (sh + 10))
  end.

(** Nearest integer to [num / den], ties to even ([den > 0]). *)
Definition round_half_even (num den : Z) : Z :=
  let q := num / den in
  let r := num mod den in
  if 2 * r <? den then q
  else if den <? 2 * r then q + 1
  else if Z.even q then q else q + 1.

(** The value times one hundred, rounded: the digits [.2f] prints. *)
Definition hundredths (v : size_val) : Z :=
  match v with
  | SInt z => 100 * rnd53 (Z.abs z)
  | SFloat m sh => round_half_even (100 * m) (2 ^ sh)
  end.

Definition two_digits (d : Z) : string :=
  if d <? 10 then "0" ++ str_int d else str_int d.

Definition render_hundredths (h : Z) : string :=
  str_int (h / 100) ++ "." ++ two_digits (h mod 100).

(** [f"{bytes_val:.2f}"]: an [int] is converted to [float] first. *)
Definition format_2f (v : size_val) : res string :=
  match v with
  | SInt z =>
      if 2 ^ 1024 <=? rnd53 (Z.abs z)
      then Raise (OverflowError "int too large to convert to float")
      else Ok ((if z <? 0 then "-" else "") ++ render_hundredths (hundredths v))
  | SFloat _ _ => Ok (render_hundredths (hundredths v))
  end.

(** The [for unit in ...] loop: the value and unit at the [return], or
    [None] when the loop runs off the end of the list. *)
Fixpoint size_loop (us : list string) (v : size_val)
  : res (option (size_val * string)) :=
  match us with
  | [] => Ok None
  | unit :: rest =>
      if lt_factor v then Ok (Some (v, unit))
      else res_bind (div_factor v) (size_loop rest)
  end.

Definition get_size (bytes_val : Z) (suffix : string) : res (option string) :=
  res_bind (size_loop units (SInt bytes_val)) (fun r =>
    match r with
    | None => Ok None
    | Some (v, unit) =>
        res_bind (format_2f v) (fun s => Ok (Some (s ++ unit ++ suffix)))
    end).

(** [f"{get_size(x)}"]: a [None] result prints as the text [None]. *)
Definition size_text (bytes_val : Z) : res string :=
  res_bind (get_size bytes_val "B") (fun o =>
    Ok (match o with Some s => s | None => "None" end)).

(** ** Python text operations used by the collectors

    A text is the UTF-8 encoding of the Python [str]: a character is one to
    four bytes.  Python's whitespace (the characters [str.isspace] accepts,
    which [strip] and [split] remove) is the ASCII characters 9-13 and
    28-32 and the characters U+0085, U+00A0, U+1680, U+2000-U+200A, U+2028,
    U+2029, U+202F, U+205F and U+3000: the operations below recognise them
    by their encodings, which no other character's encoding contains.
    Searching and splitting at an ASCII character are the same on the bytes
    as on the characters.  The digits of [str.isdigit] are a table of the
    Unicode database: it is left to the library ([PyLib] below). *)

Definition newline : ascii := ascii_of_nat 10.
Definition nl : string := String newline "".

(** An ASCII whitespace character. *)
Definition is_space (a : ascii) : bool :=
  let n := nat_of_ascii a in
  ((9 <=? n) && (n <=? 13) || (28 <=? n) && (n <=? 32))%nat.

(** The number of bytes of the whitespace character [s] starts with, [0]
    when it starts with none: one byte for the ASCII ones, [C2 85] and
    [C2 A0] for U+0085 and U+00A0, [E1 9A 80] for U+1680, [E2 80 80] to
    [E2 80 8A], [E2 80 A8], [E2 80 A9] and [E2 80 AF] for U+2000-U+200A,
    U+2028, U+2029 and U+202F, [E2 81 9F] for U+205F and [E3 80 80] for
    U+3000. *)
Definition space_width (s : string) : nat :=
  match s with
  | EmptyString => 0
  | String a rest =>
      if is_space a then 1
      else
        let x := nat_of_ascii a in
        match rest with
        | EmptyString => 0
        | String b rest' =>
            let y := nat_of_ascii b in
            if ((x =? 194) && ((y =? 133) || (y =? 160)))%nat then 2
            else
              match rest' with
              | EmptyString => 0
              | String c _ =>
                  let z := nat_of_ascii c in
                  if ((x =? 225) && (y =? 154) && (z =? 128))%nat then 3
                  else if ((x =? 226) && (y =? 128)
                           && ((128 <=? z) && (z <=? 138) || (z =? 168)
                               || (z =? 169) || (z =? 175)))%nat then 3
                  else if ((x =? 226) && (y =? 129) && (z =? 159))%nat then 3
                  else if ((x =? 227) && (y =? 128) && (z =? 128))%nat then 3
                  else 0
              end
        end
  end%nat.

(** Drop the leading whitespace; [pending] counts the bytes still to drop
    of the whitespace character being dropped. *)
Fixpoint lstrip_from (pending : nat) (s : string) : string :=
  match s with
  | EmptyString => EmptyString
  | String a s' =>
      match pending with
      | S p => lstrip_from p s'
      | O =>
          match space_width s with
          | O => s
          | S w => lstrip_from w s'
          end
      end
  end.

(** [s.lstrip()]. *)
Definition lstrip (s : string) : string := lstrip_from 0 s.

(** [s] is made of whitespace only. *)
Definition all_space (s : string) : bool :=
  match lstrip s with
  | EmptyString => true
  | String _ _ => false
  end.

(** [s.rstrip()]: the text up to the point from where only whitespace
    follows. *)
Fixpoint rstrip (s : string) : string :=
  match s with
  | EmptyString => EmptyString
  | String a s' => if all_space s then EmptyString else String a (rstrip s')
  end.

(** [s.strip()]. *)
Definition strip (s : string) : string := rstrip (lstrip s).

(** [bool(s)] for a string. *)
Definition nonempty (s : string) : bool :=
  match s with EmptyString => false | String _ _ => true end.

(** [s.split(c)] for a one-character separator. *)
Fixpoint split_on (c : ascii) (s : string) : list string :=
  match s with
  | EmptyString => [EmptyString]
  | String a s' =>
      let r := split_on c s' in
      if Ascii.eqb a c then EmptyString :: r
      else match r with
           | x :: xs => String a x :: xs
           | [] => [String a EmptyString]
           end
  end.

(** [s.split(c, 1)] when [c in s]: the text before the first [c] and the
    text after it. *)
Fixpoint split_first (c : ascii) (s : string) : string * string :=
  match s with
  | EmptyString => (EmptyString, EmptyString)
  | String a s' =>
      if Ascii.eqb a c then (EmptyString, s')
      else let (k, v) := split_first c s' in (String a k, v)
  end.

(** [s.split()]: the maximal runs of non-whitespace.  [cur] is the run
    being read, [pending] the bytes still to skip of a whitespace
    character. *)
Fixpoint split_ws_aux (pending : nat) (s : string) (cur : string)
  : list string :=
  match s with
  | EmptyString => if nonempty cur then [cur] else []
  | String a s' =>
      match pending with
      | S p => split_ws_aux p s' cur
      | O =>
          match space_width s with
          | S w =>
              if nonempty cur then cur :: split_ws_aux w s' ""
              else split_ws_aux w s' ""
          | O => split_ws_aux 0 s' (cur ++ String a "")
          end
      end
  end.

Definition split_ws (s : string) : list string := split_ws_aux 0 s "".

(** [sep.join(xs)]. *)
Fixpoint join (sep : string) (xs : list string) : string :=
  match xs with
  | [] => ""
  | [x] => x
  | x :: rest => x ++ sep ++ join sep rest
  end.

Definition is_digit (a : ascii) : bool :=
  let n := nat_of_ascii a in ((48 <=? n) && (n <=? 57))%nat.

Fixpoint all_digits (s : string) : bool :=
  match s with
  | EmptyString => true
  | String a s' => is_digit a && all_digits s'
  end.

(** A non-empty run of ASCII digits. *)
Definition ascii_isdigit (s : string) : bool := nonempty s && all_digits s.

(** The number a run of decimal digits denotes. *)
Fixpoint digits_value (s : string) (acc : Z) : Z :=
  match s with
  | EmptyString => acc
  | String a s' => digits_value s' (10 * acc + (Z.of_nat (nat_of_ascii a) - 48))
  end.

(** [c in s] for a character. *)
Fixpoint has_char (c : ascii) (s : string) : bool :=
  match s with
  | EmptyString => false
  | String a s' => Ascii.eqb a c || has_char c s'
  end.

(** [s.replace(c, t)] for a one-character [c]. *)
Fixpoint replace_char (c : ascii) (t : string) (s : string) : string :=
  match s with
  | EmptyString => EmptyString
  | String a s' =>
      if Ascii.eqb a c then t ++ replace_char c t s'
      else String a (replace_char c t s')
  end.

Definition upper_ascii (a : ascii) : ascii :=
  let n := nat_of_ascii a in
  if ((97 <=? n) && (n <=? 122))%nat then ascii_of_nat (n - 32) else a.

(** [s.upper()]. *)
Fixpoint upper (s : string) : string :=
  match s with
  | EmptyString => EmptyString
  | String a s' => String (upper_ascii a) (upper s')
  end.

(** [str(x)] of an optional value: [None] prints as such. *)
Definition str_opt {A : Type} (f : A -> string) (o : option A) : string :=
  match o with Some a => f a | None => "None" end.

(** A [dict] with string keys, in insertion order. *)
Fixpoint dict_get {V : Type} (k : string) (d : list (string * V)) : option V :=
  match d with
  | [] => None
  | (k', v) :: rest => if String.eqb k k' then Some v else dict_get k rest
  end.

Definition dict_has {V : Type} (k : string) (d : list (string * V)) : bool :=
  match dict_get k d with Some _ => true | None => false end.

(** [d[k] = v]: an existing key keeps its place. *)
Fixpoint dict_set {V : Type} (k : string) (v : V) (d : list (string * V))
  : list (string * V) :=
  match d with
  | [] => [(k, v)]
  | (k', v') :: rest =>
      if String.eqb k k' then (k, v) :: rest else (k', v') :: dict_set k v rest
  end.

(** ** Values the host and the Python library hand to the collectors

    Python [float]s reach the collectors only from psutil and from parsed
    JSON and are only printed, tested for truth or fed to library
    arithmetic, so their type [F] is a parameter and [PyLib] lists the
    library operations applied to them.  The library functions whose
    grammar is not reproduced here ([json.loads], [int(str)], the datetime
    conversions) are fields of [PyLib] too. *)

#[local] Set Warnings "-register-all".

Inductive json (F : Type) : Type :=
| JNull
| JBool (b : bool)
| JInt (z : Z)
| JFloat (f : F)
| JStr (s : string)
| JList (l : list (json F))
| JDict (d : list (string * json F)).
Arguments JNull {F}.
Arguments JBool {F} b.
Arguments JInt {F} z.
Arguments JFloat {F} f.
Arguments JStr {F} s.
Arguments JList {F} l.
Arguments JDict {F} d.

(** A number that is an [int] on some platforms and a [float] on others. *)
Inductive pynum (F : Type) : Type :=
| PInt (z : Z)
| PFloat (f : F).
Arguments PInt {F} z.
Arguments PFloat {F} f.

Class PyLib (F : Type) : Type := {
  (** [str(x)], also [f"{x}"] *)
  float_str : F -> string;
  (** [f"{x:.Nf}"] *)
  float_fixed : nat -> F -> string;
  (** [bool(x)] *)
  float_truth : F -> bool;
  (** [int(x)] of a float: raises on infinities and NaN *)
  float_trunc : F -> res Z;
  (** [s.isdigit()]: every character is a digit of the Unicode database,
      and there is one *)
  str_isdigit : string -> bool;
  (** [int(s)] of a string *)
  int_of_str : string -> res Z;
  (** [json.loads(s)]: raises [JSONDecodeError] on malformed text *)
  json_loads : string -> res (json F);
  (** [str(x)] of a JSON list or object *)
  json_repr : json F -> string;
  (** [x / 10 - 273.15] *)
  celsius_of_decikelvin : pynum F -> res F;
  (** [datetime.fromtimestamp(t).strftime('%Y-%m-%d %H:%M:%S')] *)
  fromtimestamp_strftime : F -> res string;
  (** [datetime.fromisoformat(s).strftime('%Y-%m-%d')] *)
  fromisoformat_strftime : string -> res string
}.

(** *** psutil's named tuples *)

Record scpufreq (F : Type) : Type :=
  { freq_current : F; freq_min : F; freq_max : F }.
Arguments freq_current {F} _.
Arguments freq_min {F} _.
Arguments freq_max {F} _.

Record svmem (F : Type) : Type :=
  { vm_total : Z; vm_available : Z; vm_percent : F; vm_used : Z; vm_free : Z }.
Arguments vm_total {F} _.
Arguments vm_available {F} _.
Arguments vm_percent {F} _.
Arguments vm_used {F} _.
Arguments vm_free {F} _.

Record sswap (F : Type) : Type :=
  { sw_total : Z; sw_used : Z; sw_free : Z; sw_percent : F }.
Arguments sw_total {F} _.
Arguments sw_used {F} _.
Arguments sw_free {F} _.
Arguments sw_percent {F} _.

Record sdiskpart : Type :=
  { device : string; mountpoint : string; fstype : string }.

Record sdiskusage (F : Type) : Type :=
  { du_total : Z; du_used : Z; du_free : Z; du_percent : F }.
Arguments du_total {F} _.
Arguments du_used {F} _.
Arguments du_free {F} _.
Arguments du_percent {F} _.

Record sdiskio : Type := { read_bytes : Z; write_bytes : Z }.

Record shwtemp (F : Type) : Type :=
  { temp_label : string; temp_current : F;
    temp_high : option F; temp_critical : option F }.
Arguments temp_label {F} _.
Arguments temp_current {F} _.
Arguments temp_high {F} _.
Arguments temp_critical {F} _.

Record sbattery (F : Type) : Type :=
  { bat_percent : pynum F; bat_secsleft : Z; bat_power_plugged : option bool }.
Arguments bat_percent {F} _.
Arguments bat_secsleft {F} _.
Arguments bat_power_plugged {F} _.

(** [addr.family.name] raises [AttributeError] where psutil gives the family
    as a plain [int]; [netmask] may be [None]. *)
Record snicaddr : Type :=
  { family_name : res string; address : string; netmask : option string }.

Record snetio : Type := { bytes_sent : Z; bytes_recv : Z }.

Record uname_result : Type :=
  { u_system : string; u_node : string; u_release : string;
    u_version : string; u_machine : string; u_processor : string }.

(** [subprocess.run(..., capture_output=True, text=True)] *)
Record CompletedProcess : Type := { returncode : Z; stdout : string }.

(** ** The host

    What each ambient query answers when the collectors run.  A psutil,
    winreg, subprocess or file call may raise; the [platform] functions
    return text. *)
Record Host (F : Type) : Type := {
  platform_system : string;
  platform_release : string;
  platform_processor : string;
  platform_machine : string;
  platform_uname : uname_result;
  (** [import winreg] and [winreg.OpenKey(HKEY_LOCAL_MACHINE, ...)] *)
  winreg_OpenKey : res unit;
  (** [winreg.QueryValueEx(key, "ProcessorNameString")[0]], a string *)
  winreg_QueryValueEx : res string;
  winreg_CloseKey : res unit;
  (** [subprocess.run(argv, ...)]: raises when the program is missing or
      the timeout expires *)
  subprocess_run : list string -> res CompletedProcess;
  (** [open(path)] followed by [f.read()] *)
  read_file : string -> res string;
  (** [datetime.now().strftime(fmt)] *)
  now_strftime : string -> string;
  psutil_cpu_count : bool -> res (option Z);
  psutil_cpu_freq : res (option (scpufreq F));
  (** [psutil.cpu_percent(percpu=True, interval=1)] *)
  psutil_cpu_percent_percpu : res (list F);
  psutil_cpu_percent : res F;
  psutil_virtual_memory : res (svmem F);
  psutil_swap_memory : res (sswap F);
  psutil_disk_partitions : res (list sdiskpart);
  psutil_disk_usage : string -> res (sdiskusage F);
  psutil_disk_io_counters : res (option sdiskio);
  psutil_sensors_temperatures : res (list (string * list (shwtemp F)));
  psutil_sensors_battery : res (option (sbattery F));
  psutil_net_if_addrs : res (list (string * list snicaddr));
  psutil_net_io_counters : res (option snetio);
  psutil_boot_time : res F
}.
Arguments platform_system {F} _.
Arguments platform_release {F} _.
Arguments platform_processor {F} _.
Arguments platform_machine {F} _.
Arguments platform_uname {F} _.
Arguments winreg_OpenKey {F} _.
Arguments winreg_QueryValueEx {F} _.
Arguments winreg_CloseKey {F} _.
Arguments subprocess_run {F} _ _.
Arguments read_file {F} _ _.
Arguments now_strftime {F} _ _.
Arguments psutil_cpu_count {F} _ _.
Arguments psutil_cpu_freq {F} _.
Arguments psutil_cpu_percent_percpu {F} _.
Arguments psutil_cpu_percent {F} _.
Arguments psutil_virtual_memory {F} _.
Arguments psutil_swap_memory {F} _.
Arguments psutil_disk_partitions {F} _.
Arguments psutil_disk_usage {F} _ _.
Arguments psutil_disk_io_counters {F} _.
Arguments psutil_sensors_temperatures {F} _.
Arguments psutil_sensors_battery {F} _.
Arguments psutil_net_if_addrs {F} _.
Arguments psutil_net_io_counters {F} _.
Arguments psutil_boot_time {F} _.

(** [psutil.POWER_TIME_UNLIMITED] and [psutil.POWER_TIME_UNKNOWN]. *)
Definition POWER_TIME_UNLIMITED : Z := -2.
Definition POWER_TIME_UNKNOWN : Z := -1.

(** ** Function bodies: local variables and exceptions

    A method body is a computation over its mutable locals that may raise.
    The locals written before an exception keep their values in the
    handler, as in Python: [info += ...] made inside a [try] stays when a
    later statement of the block raises. *)

Record frame : Type := mkFrame {
  info : string;
  cpu_name : string;
  gpu_found : bool;
  temp_found : bool;
  (** [json] is bound: the function's [import json] has run *)
  json_bound : bool;
  (** [current_gpu] / [current_disk] *)
  current : list (string * string);
  module_num : Z
}.

Definition frame0 : frame :=
  mkFrame "" "" false false false [] 0.

Definition M (A : Type) : Type := frame -> res A * frame.

Definition ret {A : Type} (a : A) : M A := fun s => (Ok a, s).

Definition bind {A B : Type} (m : M A) (k : A -> M B) : M B :=
  fun s =>
    match m s with
    | (Ok a, s') => k a s'
    | (Raise e, s') => (Raise e, s')
    end.

Definition raise {A : Type} (e : exn) : M A := fun s => (Raise e, s).

Definition lift {A : Type} (r : res A) : M A := fun s => (r, s).

Definition gets {A : Type} (f : frame -> A) : M A := fun s => (Ok (f s), s).

Definition modify (f : frame -> frame) : M unit := fun s => (Ok tt, f s).

Notation "x <- m ;; k" := (bind m (fun x => k))
  (at level 61, m at next level, right associativity).
Notation "m ;; k" := (bind m (fun _ => k))
  (at level 61, right associativity).

(** [try: body  except: handler] and [except Exception as e]. *)
Definition try_except (body : M unit) (handler : exn -> M unit) : M unit :=
  fun s =>
    match body s with
    | (Ok a, s') => (Ok a, s')
    | (Raise e, s') => handler e s'
    end.

(** [try: body  except json.JSONDecodeError: handler]. *)
Definition try_except_json (body : M unit) (handler : M unit) : M unit :=
  fun s =>
    match body s with
    | (Ok a, s') => (Ok a, s')
    | (Raise e, s') =>
        match exn_cls e with
        | JSONDecodeError => handler s'
        | OtherError => (Raise e, s')
        end
    end.

(** [pass]. *)
Definition pass : M unit := ret tt.

Fixpoint for_each {A : Type} (xs : list A) (body : A -> M unit) : M unit :=
  match xs with
  | [] => ret tt
  | x :: rest => body x ;; for_each rest body
  end.

(** [for i, x in enumerate(xs, start)]. *)
Fixpoint for_enumerate {A : Type} (start : Z) (xs : list A)
  (body : Z -> A -> M unit) : M unit :=
  match xs with
  | [] => ret tt
  | x :: rest => body start x ;; for_enumerate (start + 1) rest body
  end.

(** [if c: body]. *)
Definition when (c : bool) (body : M unit) : M unit :=
  if c then body else ret tt.

(** [info += s]. *)
Definition emit (s : string) : M unit :=
  modify (fun f => mkFrame (info f ++ s) (cpu_name f) (gpu_found f)
                     (temp_found f) (json_bound f) (current f)
                     (module_num f)).

Definition set_cpu_name (v : string) : M unit :=
  modify (fun f => mkFrame (info f) v (gpu_found f) (temp_found f)
                     (json_bound f) (current f) (module_num f)).

Definition set_gpu_found (v : bool) : M unit :=
  modify (fun f => mkFrame (info f) (cpu_name f) v (temp_found f)
                     (json_bound f) (current f) (module_num f)).

Definition set_temp_found (v : bool) : M unit :=
  modify (fun f => mkFrame (info f) (cpu_name f) (gpu_found f) v
                     (json_bound f) (current f) (module_num f)).

(** [import json]. *)
Definition import_json : M unit :=
  modify (fun f => mkFrame (info f) (cpu_name f) (gpu_found f) (temp_found f)
                     true (current f) (module_num f)).

Definition set_current (v : list (string * string)) : M unit :=
  modify (fun f => mkFrame (info f) (cpu_name f) (gpu_found f) (temp_found f)
                     (json_bound f) v (module_num f)).

Definition set_module_num (v : Z) : M unit :=
  modify (fun f => mkFrame (info f) (cpu_name f) (gpu_found f) (temp_found f)
                     (json_bound f) (current f) v).

(** Run a method body from fresh locals; [return info]. *)
Definition returning_info (body : M unit) : res string :=
  match body frame0 with
  | (Ok _, s) => Ok (info s)
  | (Raise e, _) => Raise e
  end.

(** ** The collectors (methods of [SystemInfoGUI], source lines 170-902) *)

Section Collector.

Context {F : Type} {L : PyLib F}.
Variable h : Host F.

(** *** Operations on parsed JSON values *)

(** [bool(x)]. *)
Definition json_truth (j : json F) : bool :=
  match j with
  | JNull => false
  | JBool b => b
  | JInt z => negb (z =? 0)
  | JFloat f => float_truth f
  | JStr s => nonempty s
  | JList l => match l with [] => false | _ :: _ => true end
  | JDict d => match d with [] => false | _ :: _ => true end
  end.

(** [x.get(key, default)]: only a dict has [get]. *)
Definition json_get (j : json F) (key : string) (default : json F)
  : res (json F) :=
  match j with
  | JDict d => Ok (match dict_get key d with Some v => v | None => default end)
  | _ => Raise (AttributeError "object has no attribute 'get'")
  end.

(** [x.strip()]: only a string has [strip]. *)
Definition json_strip (j : json F) : res string :=
  match j with
  | JStr s => Ok (strip s)
  | _ => Raise (AttributeError "object has no attribute 'strip'")
  end.

(** [x.get(key, '').strip()]. *)
Definition json_get_strip (j : json F) (key : string) : res string :=
  res_bind (json_get j key (JStr "")) json_strip.

(** [if isinstance(x, dict): x = [x]]. *)
Definition wrap_dict (j : json F) : json F :=
  match j with
  | JDict _ => JList [j]
  | _ => j
  end.

(** The items [for x in j] visits. *)
Definition json_iter (j : json F) : res (list (json F)) :=
  match j with
  | JList l => Ok l
  | JStr s => Ok (map (fun c => JStr (String c "")) (list_ascii_of_string s))
  | JDict d => Ok (map (fun kv => JStr (fst kv)) d)
  | _ => Raise (TypeError "object is not iterable")
  end.

(** [int(x)]. *)
Definition json_int (j : json F) : res Z :=
  match j with
  | JInt z => Ok z
  | JBool b => Ok (if b then 1 else 0)
  | JFloat f => float_trunc f
  | JStr s => int_of_str s
  | _ => Raise (TypeError "int() argument must be a string or a number")
  end.

(** [f"{x}"]. *)
Definition json_str (j : json F) : string :=
  match j with
  | JNull => "None"
  | JBool b => if b then "True" else "False"
  | JInt z => str_int z
  | JFloat f => float_str f
  | JStr s => s
  | _ => json_repr j
  end.

(** [key in x]. *)
Definition json_has (key : string) (j : json F) : res bool :=
  match j with
  | JDict d => Ok (dict_has key d)
  | JStr s => Ok (contains key s)
  | JList l =>
      Ok (existsb (fun x => match x with
                            | JStr s => String.eqb s key
                            | _ => false
                            end) l)
  | _ => Raise (TypeError "argument is not iterable")
  end.

(** [x[key]] for a string key. *)
Definition json_item (j : json F) (key : string) : res (json F) :=
  match j with
  | JDict d =>
      match dict_get key d with
      | Some v => Ok v
      | None => Raise (KeyError key)
      end
  | _ => Raise (TypeError "indices must be integers")
  end.

(** A JSON value as the operand of arithmetic. *)
Definition json_num (j : json F) : res (pynum F) :=
  match j with
  | JInt z => Ok (PInt z)
  | JBool b => Ok (PInt (if b then 1 else 0))
  | JFloat f => Ok (PFloat f)
  | _ => Raise (TypeError "unsupported operand type(s) for /")
  end.

Definition num_str (n : pynum F) : string :=
  match n with
  | PInt z => str_int z
  | PFloat f => float_str f
  end.

(** *** Shared queries *)

(** [platform.system() == "Windows"] and [== "Linux"]. *)
Definition is_windows : bool := String.eqb (platform_system h) "Windows".
Definition is_linux : bool := String.eqb (platform_system h) "Linux".

(** [subprocess.run(['powershell', '-Command', ps_command], ...)]. *)
Definition powershell (ps_command : string) : res CompletedProcess :=
  subprocess_run h ["powershell"; "-Command"; ps_command].

(** [result.returncode == 0 and result.stdout.strip()]. *)
Definition has_output (r : CompletedProcess) : bool :=
  (returncode r =? 0) && nonempty (strip (stdout r)).

(** [info += f"...{get_size(x)}..."]. *)
Definition emit_size (before : string) (x : Z) (after : string) : M unit :=
  t <- lift (size_text x) ;; emit (before ++ t ++ after).

(** The registry read of the processor name, shared by the summary and
    the CPU tab: [cpu_name] is assigned before [CloseKey] runs. *)
Definition registry_cpu_name : M unit :=
  lift (winreg_OpenKey h) ;;
  v <- lift (winreg_QueryValueEx h) ;;
  set_cpu_name (strip v) ;;
  lift (winreg_CloseKey h).

(** *** [get_components_summary] (source lines 170-384) *)

Definition summary_gpu_windows : M unit :=
  try_except
    (r <- lift (powershell
         "Get-CimInstance Win32_VideoController | Select-Object Name | ConvertTo-Json") ;;
     when (has_output r)
       (import_json ;;
        try_except
          (gpu_data <- lift (json_loads (stdout r)) ;;
           gpus <- lift (json_iter (wrap_dict gpu_data)) ;;
           for_each gpus (fun gpu =>
             name <- lift (json_get_strip gpu "Name") ;;
             when (nonempty name)
               (emit ("└─ " ++ name ++ nl) ;; set_gpu_found true)))
          (fun _ => pass)))
    (fun _ => pass).

Definition summary_ram_module (i : Z) (module : json F) : M unit :=
  manufacturer <- lift (json_get_strip module "Manufacturer") ;;
  part_number <- lift (json_get_strip module "PartNumber") ;;
  capacity <- lift (json_get module "Capacity" JNull) ;;
  speed <- lift (json_get module "Speed" JNull) ;;
  when (json_truth capacity)
    (c <- lift (json_int capacity) ;;
     sz <- lift (size_text c) ;;
     let module_str := "   • Module " ++ str_int i ++ ": " ++ sz in
     let module_str :=
       if json_truth speed
       then module_str ++ " @ " ++ json_str speed ++ "MHz"
       else module_str in
     let module_str :=
       if nonempty manufacturer && negb (String.eqb manufacturer "Unknown")
       then (module_str ++ " (" ++ manufacturer)
              ++ (if nonempty part_number then " " ++ part_number else "")
              ++ ")"
       else module_str in
     emit (module_str ++ nl)).

Definition summary_ram_windows : M unit :=
  try_except
    (r <- lift (powershell
         "Get-CimInstance Win32_PhysicalMemory | Select-Object Manufacturer, PartNumber, Capacity, Speed | ConvertTo-Json") ;;
     when (has_output r)
       (import_json ;;
        try_except
          (ram_data <- lift (json_loads (stdout r)) ;;
           modules <- lift (json_iter (wrap_dict ram_data)) ;;
           for_enumerate 1 modules summary_ram_module)
          (fun _ => pass)))
    (fun _ => pass).

Definition summary_mobo_windows : M unit :=
  try_except
    (r <- lift (powershell
         "Get-CimInstance Win32_BaseBoard | Select-Object Manufacturer, Product | ConvertTo-Json") ;;
     if has_output r then
       import_json ;;
       try_except
         (mobo_data <- lift (json_loads (stdout r)) ;;
          manufacturer <- lift (json_get_strip mobo_data "Manufacturer") ;;
          product <- lift (json_get_strip mobo_data "Product") ;;
          if nonempty manufacturer || nonempty product
          then emit ("└─ " ++ strip (manufacturer ++ " " ++ product) ++ nl)
          else emit ("└─ Unknown motherboard" ++ nl))
         (fun _ => emit ("└─ Unknown motherboard" ++ nl))
     else emit ("└─ Unknown motherboard" ++ nl))
    (fun _ => emit ("└─ Unknown motherboard" ++ nl)).

Definition summary_disk (disk : json F) : M unit :=
  model <- lift (json_get_strip disk "Model") ;;
  size <- lift (json_get disk "Size" JNull) ;;
  when (nonempty model)
    (let disk_str := "└─ " ++ model in
     if json_truth size then
       z <- lift (json_int size) ;;
       sz <- lift (size_text z) ;;
       emit ((disk_str ++ " (" ++ sz ++ ")") ++ nl)
     else emit (disk_str ++ nl)).

Definition summary_storage_windows : M unit :=
  try_except
    (r <- lift (powershell
         "Get-CimInstance Win32_DiskDrive | Select-Object Model, Size | ConvertTo-Json") ;;
     when (has_output r)
       (import_json ;;
        try_except
          (disk_data <- lift (json_loads (stdout r)) ;;
           disks <- lift (json_iter (wrap_dict disk_data)) ;;
           for_each disks summary_disk)
          (fun _ => pass)))
    (fun _ => pass).

(** Lines 361-367: [total_storage] after the loop over the partitions; a
    partition whose [psutil.disk_usage] raises adds nothing. *)
Definition total_storage (partitions : list sdiskpart) : Z :=
  fold_left (fun total partition =>
               match psutil_disk_usage h (mountpoint partition) with
               | Ok usage => total + du_total usage
               | Raise _ => total
               end) partitions 0.

Definition get_components_summary_body : M unit :=
  emit ("ALL COMPONENTS - QUICK OVERVIEW" ++ nl) ;;
  emit (str_mul "=" 60 ++ nl ++ nl) ;;
  (* CPU *)
  emit ("┌─ PROCESSOR" ++ nl) ;;
  emit ("│" ++ nl) ;;
  set_cpu_name "Unknown" ;;
  (if is_windows
   then try_except registry_cpu_name
          (fun _ => set_cpu_name (platform_processor h))
   else set_cpu_name (platform_processor h)) ;;
  name <- gets cpu_name ;;
  emit ("└─ " ++ name ++ nl) ;;
  physical <- lift (psutil_cpu_count h false) ;;
  logical <- lift (psutil_cpu_count h true) ;;
  emit ("   • Cores: " ++ str_opt str_int physical ++ " Physical / "
          ++ str_opt str_int logical ++ " Logical" ++ nl) ;;
  cpu_freq <- lift (psutil_cpu_freq h) ;;
  match cpu_freq with
  | Some f => emit ("   • Frequency: " ++ float_fixed 0 (freq_max f)
                      ++ " MHz" ++ nl)
  | None => pass
  end ;;
  emit nl ;;
  (* GPU *)
  emit ("┌─ GRAPHICS CARD(S)" ++ nl) ;;
  emit ("│" ++ nl) ;;
  set_gpu_found false ;;
  try_except
    (r <- lift (subprocess_run h
         ["nvidia-smi"; "--query-gpu=name"; "--format=csv,noheader"]) ;;
     when (has_output r)
       (for_each (split_on newline (strip (stdout r))) (fun line =>
          emit ("└─ " ++ strip line ++ nl) ;; set_gpu_found true)))
    (fun _ => pass) ;;
  when is_windows summary_gpu_windows ;;
  found <- gets gpu_found ;;
  when (negb found) (emit ("└─ No GPU detected" ++ nl)) ;;
  emit nl ;;
  (* RAM *)
  emit ("┌─ MEMORY (RAM)" ++ nl) ;;
  emit ("│" ++ nl) ;;
  svmem <- lift (psutil_virtual_memory h) ;;
  emit_size "└─ Total: " (vm_total svmem) nl ;;
  when is_windows summary_ram_windows ;;
  emit nl ;;
  (* Motherboard *)
  emit ("┌─ MOTHERBOARD" ++ nl) ;;
  emit ("│" ++ nl) ;;
  (if is_windows then summary_mobo_windows
   else emit ("└─ Motherboard info not available" ++ nl)) ;;
  emit nl ;;
  (* Storage *)
  emit ("┌─ STORAGE DEVICES" ++ nl) ;;
  emit ("│" ++ nl) ;;
  when is_windows summary_storage_windows ;;
  partitions <- lift (psutil_disk_partitions h) ;;
  let total := total_storage partitions in
  when (0 <? total) (emit_size "   • Total Storage: " total nl) ;;
  emit nl ;;
  (* OS *)
  emit ("┌─ OPERATING SYSTEM" ++ nl) ;;
  emit ("│" ++ nl) ;;
  let uname := platform_uname h in
  emit ("└─ " ++ u_system uname ++ " " ++ u_release uname ++ nl) ;;
  emit ("   • Version: " ++ u_version uname ++ nl) ;;
  emit (nl ++ str_mul "=" 60 ++ nl) ;;
  emit (nl ++ "💡 Click other tabs for detailed specifications").

Definition get_components_summary : res string :=
  returning_info get_components_summary_body.

(** *** [get_cpu_info] (source lines 386-436) *)

(** Lines 394-417: the processor name.  Method 2 (WMIC) runs in the handler
    of method 1, method 3 ([platform.processor()]) in the handler of
    method 2. *)
Definition cpu_name_windows : M unit :=
  try_except registry_cpu_name
    (fun _ =>
       try_except
         (result <- lift (subprocess_run h ["wmic"; "cpu"; "get"; "name"]) ;;
          when (returncode result =? 0)
            (let lines := split_on newline (strip (stdout result)) in
             when (1 <? Z.of_nat (List.length lines))
               (set_cpu_name (strip (nth 1 lines "")))))
         (fun _ => set_cpu_name (platform_processor h))).

Definition cpu_name_body : M unit :=
  set_cpu_name "Unknown CPU" ;;
  (if is_windows then cpu_name_windows
   else set_cpu_name (platform_processor h)).

(** The value of [cpu_name] at line 419. *)
Definition cpu_model_name : string := cpu_name (snd (cpu_name_body frame0)).

(** Lines 420-434: architecture, core counts, frequency and load. *)
Definition cpu_details : M unit :=
  emit ("Architecture: " ++ platform_machine h ++ nl) ;;
  physical <- lift (psutil_cpu_count h false) ;;
  emit ("Physical Cores: " ++ str_opt str_int physical ++ nl) ;;
  logical <- lift (psutil_cpu_count h true) ;;
  emit ("Total Cores: " ++ str_opt str_int logical ++ nl ++ nl) ;;
  cpu_freq <- lift (psutil_cpu_freq h) ;;
  match cpu_freq with
  | Some f =>
      emit ("Max Frequency: " ++ float_fixed 2 (freq_max f) ++ " MHz" ++ nl) ;;
      emit ("Min Frequency: " ++ float_fixed 2 (freq_min f) ++ " MHz" ++ nl) ;;
      emit ("Current Frequency: " ++ float_fixed 2 (freq_current f)
              ++ " MHz" ++ nl ++ nl)
  | None => pass
  end ;;
  emit ("CPU Usage Per Core:" ++ nl) ;;
  percents <- lift (psutil_cpu_percent_percpu h) ;;
  for_enumerate 0 percents (fun i percentage =>
    emit ("  Core " ++ str_int i ++ ": " ++ float_str percentage ++ "%" ++ nl)) ;;
  total <- lift (psutil_cpu_percent h) ;;
  emit (nl ++ "Total CPU Usage: " ++ float_str total ++ "%" ++ nl).

Definition get_cpu_info_body : M unit :=
  emit ("CPU INFORMATION" ++ nl) ;;
  emit (str_mul "=" 50 ++ nl ++ nl) ;;
  cpu_name_body ;;
  name <- gets cpu_name ;;
  emit ("Processor: " ++ name ++ nl) ;;
  cpu_details.

Definition get_cpu_info : res string := returning_info get_cpu_info_body.

(** *** [get_memory_info] (source lines 438-547) *)

Definition memory_module (i : Z) (module : json F) : M unit :=
  emit ("Module " ++ str_int i ++ ":" ++ nl) ;;
  capacity <- lift (json_get module "Capacity" JNull) ;;
  when (json_truth capacity)
    (c <- lift (json_int capacity) ;;
     emit_size "  Capacity: " c nl) ;;
  manufacturer <- lift (json_get_strip module "Manufacturer") ;;
  when (nonempty manufacturer)
    (emit ("  Manufacturer: " ++ manufacturer ++ nl)) ;;
  part_number <- lift (json_get_strip module "PartNumber") ;;
  when (nonempty part_number)
    (emit ("  Part Number: " ++ part_number ++ nl)) ;;
  speed <- lift (json_get module "Speed" JNull) ;;
  when (json_truth speed)
    (emit ("  Speed: " ++ json_str speed ++ " MHz" ++ nl)) ;;
  device_locator <- lift (json_get_strip module "DeviceLocator") ;;
  when (nonempty device_locator)
    (emit ("  Slot: " ++ device_locator ++ nl)) ;;
  emit nl.

(** One line of the WMIC table (lines 515-532). *)
Definition memory_wmic_line (line : string) : M unit :=
  let line := strip line in
  when (nonempty line)
    (let parts := split_ws line in
     let n := Z.of_nat (List.length parts) in
     when ((2 <=? n) && str_isdigit (nth 0 parts ""))
       (capacity <- lift (int_of_str (nth 0 parts "")) ;;
        when (0 <? capacity)
          (num <- gets module_num ;;
           emit ("Module " ++ str_int num ++ ":" ++ nl) ;;
           emit_size "  Capacity: " capacity nl ;;
           when (2 <=? n) (emit ("  Speed: " ++ nth 1 parts "" ++ " MHz" ++ nl)) ;;
           when (3 <=? n) (emit ("  Manufacturer: " ++ nth 2 parts "" ++ nl)) ;;
           when (4 <=? n)
             (emit ("  Part Number: " ++ join " " (skipn 3 parts) ++ nl)) ;;
           emit nl ;;
           set_module_num (num + 1)))).

Definition memory_wmic : M unit :=
  try_except
    (result <- lift (subprocess_run h
         ["wmic"; "memorychip"; "get";
          "capacity,speed,manufacturer,partnumber,devicelocator"]) ;;
     if has_output result then
       let lines := split_on newline (strip (stdout result)) in
       when (1 <? Z.of_nat (List.length lines))
         (set_module_num 1 ;;
          for_each (tl lines) memory_wmic_line)
     else emit ("RAM module details unavailable" ++ nl ++ nl))
    (fun e => emit ("RAM module details unavailable: " ++ exn_msg e
                      ++ nl ++ nl)).

Definition memory_windows : M unit :=
  emit (nl ++ str_mul "=" 50 ++ nl) ;;
  emit ("RAM MODULES:" ++ nl) ;;
  emit (str_mul "=" 50 ++ nl ++ nl) ;;
  try_except
    (result <- lift (powershell
         "Get-CimInstance Win32_PhysicalMemory | Select-Object Manufacturer, PartNumber, Capacity, Speed, DeviceLocator | ConvertTo-Json") ;;
     if has_output result then
       import_json ;;
       try_except_json
         (ram_data <- lift (json_loads (stdout result)) ;;
          modules <- lift (json_iter (wrap_dict ram_data)) ;;
          for_enumerate 1 modules memory_module)
         (emit ("Could not parse RAM module information" ++ nl ++ nl))
     else memory_wmic)
    (fun e => emit ("Detailed RAM info unavailable: " ++ exn_msg e
                      ++ nl ++ nl)).

Definition get_memory_info_body : M unit :=
  emit ("MEMORY INFORMATION" ++ nl) ;;
  emit (str_mul "=" 50 ++ nl ++ nl) ;;
  svmem <- lift (psutil_virtual_memory h) ;;
  emit_size "Total RAM: " (vm_total svmem) nl ;;
  emit_size "Available: " (vm_available svmem) nl ;;
  emit_size "Used: " (vm_used svmem)
    (" (" ++ float_str (vm_percent svmem) ++ "%)" ++ nl) ;;
  emit_size "Free: " (vm_free svmem) nl ;;
  when is_windows memory_windows ;;
  swap <- lift (psutil_swap_memory h) ;;
  emit (nl ++ "Swap Memory:" ++ nl) ;;
  emit_size "  Total: " (sw_total swap) nl ;;
  emit_size "  Used: " (sw_used swap)
    (" (" ++ float_str (sw_percent swap) ++ "%)" ++ nl) ;;
  emit_size "  Free: " (sw_free swap) nl.

Definition get_memory_info : res string := returning_info get_memory_info_body.

(** *** [get_gpu_info] (source lines 549-617) *)

(** One line of [nvidia-smi]'s CSV output (lines 567-575). *)
Definition gpu_nvidia_line (i : Z) (line : string) : M unit :=
  let parts := map strip (split_on "," line) in
  when (7 <=? Z.of_nat (List.length parts))
    (emit ("GPU " ++ str_int i ++ ": " ++ nth 0 parts "" ++ nl) ;;
     emit ("  Driver Version: " ++ nth 1 parts "" ++ nl) ;;
     emit ("  Temperature: " ++ nth 2 parts "" ++ "°C" ++ nl) ;;
     emit ("  Memory Total: " ++ nth 3 parts "" ++ " MB" ++ nl) ;;
     emit ("  Memory Used: " ++ nth 4 parts "" ++ " MB" ++ nl) ;;
     emit ("  Memory Free: " ++ nth 5 parts "" ++ " MB" ++ nl) ;;
     emit ("  GPU Utilization: " ++ nth 6 parts "" ++ "%" ++ nl ++ nl)).

Definition gpu_nvidia : M unit :=
  try_except
    (result <- lift (subprocess_run h
         ["nvidia-smi";
          "--query-gpu=name,driver_version,temperature.gpu,memory.total,memory.used,memory.free,utilization.gpu";
          "--format=csv,noheader,nounits"]) ;;
     when (has_output result)
       (set_gpu_found true ;;
        emit ("NVIDIA GPU(s):" ++ nl ++ nl) ;;
        for_enumerate 0 (split_on newline (strip (stdout result)))
          gpu_nvidia_line))
    (fun _ => pass).

(** One line of WMIC's [/format:list] output (lines 593-610). *)
Definition gpu_wmic_line (line : string) : M unit :=
  let line := strip line in
  current_gpu <- gets current ;;
  if has_char "=" line then
    let (key, value) := split_first "=" line in
    when (nonempty value) (set_current (dict_set key value current_gpu))
  else
    when (match current_gpu with [] => false | _ :: _ => true end
          && dict_has "Name" current_gpu)
      (emit (match dict_get "Name" current_gpu with
             | Some v => v
             | None => "Unknown"
             end ++ nl) ;;
       match dict_get "DriverVersion" current_gpu with
       | Some v => emit ("  Driver: " ++ v ++ nl)
       | None => pass
       end ;;
       match dict_get "AdapterRAM" current_gpu with
       | Some v =>
           try_except
             (ram <- lift (int_of_str v) ;;
              emit_size "  Memory: " ram nl)
             (fun _ => pass)
       | None => pass
       end ;;
       emit nl ;;
       set_current [] ;;
       set_gpu_found true).

Definition gpu_windows : M unit :=
  try_except
    (result <- lift (subprocess_run h
         ["wmic"; "path"; "win32_videocontroller"; "get";
          "name,driverversion,adapterram"; "/format:list"]) ;;
     when (has_output result)
       (found <- gets gpu_found ;;
        when (negb found) (emit ("Detected GPU(s):" ++ nl ++ nl)) ;;
        set_current [] ;;
        for_each (split_on newline (stdout result)) gpu_wmic_line))
    (fun _ => pass).

Definition get_gpu_info_body : M unit :=
  emit ("GPU INFORMATION" ++ nl) ;;
  emit (str_mul "=" 50 ++ nl ++ nl) ;;
  set_gpu_found false ;;
  gpu_nvidia ;;
  when is_windows gpu_windows ;;
  found <- gets gpu_found ;;
  when (negb found) (emit ("No GPU information available" ++ nl)).

Definition get_gpu_info : res string := returning_info get_gpu_info_body.

(** *** [get_disk_info] (source lines 619-675) *)

Definition disk_partition (partition : sdiskpart) : M unit :=
  emit ("Device: " ++ device partition ++ nl) ;;
  emit ("  Mountpoint: " ++ mountpoint partition ++ nl) ;;
  emit ("  File System: " ++ fstype partition ++ nl) ;;
  try_except
    (usage <- lift (psutil_disk_usage h (mountpoint partition)) ;;
     emit_size "  Total: " (du_total usage) nl ;;
     emit_size "  Used: " (du_used usage)
       (" (" ++ float_str (du_percent usage) ++ "%)" ++ nl) ;;
     emit_size "  Free: " (du_free usage) nl)
    (fun _ => emit ("  (Permission denied)" ++ nl)) ;;
  emit nl.

(** One line of WMIC's disk list (lines 656-671). *)
Definition disk_wmic_line (line : string) : M unit :=
  let line := strip line in
  current_disk <- gets current ;;
  if has_char "=" line then
    let (key, value) := split_first "=" line in
    when (nonempty value) (set_current (dict_set key value current_disk))
  else
    when (match current_disk with [] => false | _ :: _ => true end
          && dict_has "Model" current_disk)
      (emit (nl ++ "  " ++ match dict_get "Model" current_disk with
                             | Some v => v
                             | None => "Unknown"
                             end ++ nl) ;;
       match dict_get "Size" current_disk with
       | Some v =>
           try_except
             (size <- lift (int_of_str v) ;;
              emit_size "    Capacity: " size nl)
             (fun _ => pass)
       | None => pass
       end ;;
       match dict_get "InterfaceType" current_disk with
       | Some v => emit ("    Interface: " ++ v ++ nl)
       | None => pass
       end ;;
       set_current []).

Definition disk_windows : M unit :=
  try_except
    (result <- lift (subprocess_run h
         ["wmic"; "diskdrive"; "get"; "model,size,interfacetype";
          "/format:list"]) ;;
     when (returncode result =? 0)
       (emit ("Physical Disks:" ++ nl) ;;
        set_current [] ;;
        for_each (split_on newline (stdout result)) disk_wmic_line))
    (fun _ => pass).

Definition get_disk_info_body : M unit :=
  emit ("STORAGE INFORMATION" ++ nl) ;;
  emit (str_mul "=" 50 ++ nl ++ nl) ;;
  partitions <- lift (psutil_disk_partitions h) ;;
  for_each partitions disk_partition ;;
  disk_io <- lift (psutil_disk_io_counters h) ;;
  match disk_io with
  | Some io =>
      emit ("Total Disk I/O:" ++ nl) ;;
      emit_size "  Read: " (read_bytes io) nl ;;
      emit_size "  Written: " (write_bytes io) (nl ++ nl)
  | None => pass
  end ;;
  when is_windows disk_windows.

Definition get_disk_info : res string := returning_info get_disk_info_body.

(** *** [get_motherboard_info] (source lines 677-857) *)

(** Lines 693-710: the board fields. *)
Definition mobo_board_fields (result : CompletedProcess) : M unit :=
  mobo_data <- lift (json_loads (stdout result)) ;;
  manufacturer <- lift (json_get_strip mobo_data "Manufacturer") ;;
  when (nonempty manufacturer)
    (emit ("Manufacturer: " ++ manufacturer ++ nl)) ;;
  product <- lift (json_get_strip mobo_data "Product") ;;
  when (nonempty product) (emit ("Model: " ++ product ++ nl)) ;;
  version <- lift (json_get_strip mobo_data "Version") ;;
  when (nonempty version) (emit ("Version: " ++ version ++ nl)) ;;
  serial <- lift (json_get_strip mobo_data "SerialNumber") ;;
  when (nonempty serial && negb (String.eqb serial "Default string"))
    (emit ("Serial Number: " ++ serial ++ nl)).

(** Lines 729-752: the BIOS fields. *)
Definition mobo_bios_fields (result : CompletedProcess) : M unit :=
  bios_data <- lift (json_loads (stdout result)) ;;
  manufacturer <- lift (json_get_strip bios_data "Manufacturer") ;;
  when (nonempty manufacturer)
    (emit ("Manufacturer: " ++ manufacturer ++ nl)) ;;
  name <- lift (json_get_strip bios_data "Name") ;;
  when (nonempty name) (emit ("Name: " ++ name ++ nl)) ;;
  version <- lift (json_get_strip bios_data "Version") ;;
  when (nonempty version) (emit ("Version: " ++ version ++ nl)) ;;
  release_date <- lift (json_get_strip bios_data "ReleaseDate") ;;
  when (nonempty release_date)
    (try_except
       (d <- lift (fromisoformat_strftime
                     (replace_char "Z" "+00:00" release_date)) ;;
        emit ("Release Date: " ++ d ++ nl))
       (fun _ => emit ("Release Date: " ++ release_date ++ nl))).

(** Lines 683-760.  [json] is a local of the method, bound by the
    [import json] of line 692 only: when the board query gave no output the
    BIOS block reaches [json.loads] with [json] unbound, and the
    [UnboundLocalError] (raised again while the [except] clause evaluates
    [json.JSONDecodeError]) goes to the outer handler. *)
Definition mobo_windows : M unit :=
  try_except
    (result <- lift (powershell
         "Get-CimInstance Win32_BaseBoard | Select-Object Manufacturer, Product, Version, SerialNumber | ConvertTo-Json") ;;
     (if has_output result then
        import_json ;;
        try_except_json (mobo_board_fields result)
          (emit ("Could not parse motherboard information" ++ nl))
      else emit ("Motherboard information unavailable" ++ nl)) ;;
     emit (nl ++ str_mul "-" 50 ++ nl) ;;
     emit ("BIOS Information:" ++ nl) ;;
     emit (str_mul "-" 50 ++ nl ++ nl) ;;
     result <- lift (powershell
         "Get-CimInstance Win32_BIOS | Select-Object Manufacturer, Name, Version, ReleaseDate | ConvertTo-Json") ;;
     if has_output result then
       bound <- gets json_bound ;;
       if bound then
         try_except_json (mobo_bios_fields result)
           (emit ("Could not parse BIOS information" ++ nl))
       else raise (NameError
         "cannot access local variable 'json' where it is not associated with a value")
     else emit ("BIOS information unavailable" ++ nl))
    (fun e => emit ("Unavailable: " ++ exn_msg e ++ nl)).

Definition mobo_linux : M unit :=
  try_except
    (vendor <- lift (read_file h "/sys/devices/virtual/dmi/id/board_vendor") ;;
     emit ("Manufacturer: " ++ strip vendor ++ nl) ;;
     name <- lift (read_file h "/sys/devices/virtual/dmi/id/board_name") ;;
     emit ("Product: " ++ strip name ++ nl) ;;
     version <- lift (read_file h "/sys/devices/virtual/dmi/id/board_version") ;;
     emit ("Version: " ++ strip version ++ nl))
    (fun _ => emit ("Unavailable (may need root)" ++ nl)).

(** [if x:] for an optional float. *)
Definition opt_float_truth (o : option F) : bool :=
  match o with Some f => float_truth f | None => false end.

Definition temp_entry (entry : shwtemp F) : M unit :=
  let label := if nonempty (temp_label entry) then temp_label entry
               else "Sensor" in
  emit ("  " ++ label ++ ": " ++ float_str (temp_current entry) ++ "°C") ;;
  when (opt_float_truth (temp_high entry))
    (emit (" (High: " ++ str_opt float_str (temp_high entry) ++ "°C)")) ;;
  when (opt_float_truth (temp_critical entry))
    (emit (" (Critical: " ++ str_opt float_str (temp_critical entry) ++ "°C)")) ;;
  emit nl.

(** Lines 782-798. *)
Definition temps_psutil : M unit :=
  try_except
    (temps <- lift (psutil_sensors_temperatures h) ;;
     when (match temps with [] => false | _ :: _ => true end)
       (set_temp_found true ;;
        for_each temps (fun item =>
          emit (fst item ++ ":" ++ nl) ;;
          for_each (snd item) temp_entry ;;
          emit nl)))
    (fun _ => pass).

(** Lines 801-826. *)
Definition temps_windows : M unit :=
  try_except
    (result <- lift (powershell
         "Get-CimInstance -Namespace root/wmi -ClassName MSAcpi_ThermalZoneTemperature | Select-Object CurrentTemperature | ConvertTo-Json") ;;
     when (has_output result && contains "CurrentTemperature" (stdout result))
       (import_json ;;
        try_except
          (temp_data <- lift (json_loads (stdout result)) ;;
           let temp_data :=
             match temp_data with
             | JList (first :: _) => first
             | JList [] => JDict []
             | other => other
             end in
           present <- lift (json_has "CurrentTemperature" temp_data) ;;
           when present
             (raw <- lift (json_item temp_data "CurrentTemperature") ;;
              num <- lift (json_num raw) ;;
              temp_celsius <- lift (celsius_of_decikelvin num) ;;
              emit ("CPU Temperature: " ++ float_fixed 1 temp_celsius
                      ++ "°C" ++ nl ++ nl) ;;
              set_temp_found true))
          (fun _ => pass)))
    (fun _ => pass).

(** Lines 841-855. *)
Definition battery_block : M unit :=
  try_except
    (battery <- lift (psutil_sensors_battery h) ;;
     match battery with
     | Some b =>
         let plugged := match bat_power_plugged b with
                        | Some true => true
                        | _ => false
                        end in
         emit ("Battery: " ++ num_str (bat_percent b) ++ "%" ++ nl) ;;
         emit ("Power Plugged: " ++ (if plugged then "Yes" else "No") ++ nl) ;;
         when (negb plugged)
           (let secs := bat_secsleft b in
            when (negb ((secs =? POWER_TIME_UNLIMITED)
                        || (secs =? POWER_TIME_UNKNOWN)))
              (let hh := secs / 3600 in
               let mm := (secs mod 3600) / 60 in
               emit ("Time Remaining: " ++ str_int hh ++ "h "
                       ++ str_int mm ++ "m" ++ nl)))
     | None => emit ("No battery (desktop system)" ++ nl)
     end)
    (fun _ => emit ("Battery info unavailable" ++ nl)).

(** Lines 682-772: the board, by platform. *)
Definition mobo_platform_block : M unit :=
  if is_windows then mobo_windows
  else if is_linux then mobo_linux
  else emit ("Not available on this platform" ++ nl).

(** Lines 774-834: the temperature sensors. *)
Definition temperature_section : M unit :=
  emit (nl ++ str_mul "=" 50 ++ nl) ;;
  emit ("TEMPERATURE SENSORS" ++ nl) ;;
  emit (str_mul "=" 50 ++ nl ++ nl) ;;
  set_temp_found false ;;
  temps_psutil ;;
  found <- gets temp_found ;;
  when (is_windows && negb found) temps_windows ;;
  found <- gets temp_found ;;
  when (negb found)
    (emit ("Temperature sensors not available." ++ nl) ;;
     emit (nl ++ "Note: Windows does not expose temperature sensors through standard APIs." ++ nl) ;;
     emit ("For temperature monitoring on Windows, use:" ++ nl) ;;
     emit ("  - HWMonitor (https://www.cpuid.com/softwares/hwmonitor.html)" ++ nl) ;;
     emit ("  - Core Temp (https://www.alcpu.com/CoreTemp/)" ++ nl) ;;
     emit ("  - Open Hardware Monitor (https://openhardwaremonitor.org/)"
             ++ nl ++ nl)).

(** Lines 836-855: the battery. *)
Definition battery_section : M unit :=
  emit (nl ++ str_mul "=" 50 ++ nl) ;;
  emit ("POWER / BATTERY" ++ nl) ;;
  emit (str_mul "=" 50 ++ nl ++ nl) ;;
  battery_block.

Definition get_motherboard_info_body : M unit :=
  emit ("MOTHERBOARD INFORMATION" ++ nl) ;;
  emit (str_mul "=" 50 ++ nl ++ nl) ;;
  mobo_platform_block ;;
  temperature_section ;;
  battery_section.

Definition get_motherboard_info : res string :=
  returning_info get_motherboard_info_body.

(** *** [get_network_info] (source lines 859-883) *)

Definition network_addr (addr : snicaddr) : M unit :=
  try_except
    (family <- lift (family_name addr) ;;
     if String.eqb family "AF_INET" then
       emit ("  IPv4: " ++ address addr ++ nl) ;;
       emit ("  Netmask: " ++ str_opt (fun x => x) (netmask addr) ++ nl)
     else if String.eqb family "AF_INET6" then
       emit ("  IPv6: " ++ address addr ++ nl)
     else pass)
    (fun _ => pass).

(** [psutil.net_io_counters()] is [None] on a host without interfaces;
    [net_io.bytes_sent] then raises [AttributeError]. *)
Definition get_network_info_body : M unit :=
  emit ("NETWORK INFORMATION" ++ nl) ;;
  emit (str_mul "=" 50 ++ nl ++ nl) ;;
  if_addrs <- lift (psutil_net_if_addrs h) ;;
  for_each if_addrs (fun item =>
    emit (fst item ++ ":" ++ nl) ;;
    for_each (snd item) network_addr ;;
    emit nl) ;;
  net_io <- lift (psutil_net_io_counters h) ;;
  emit ("Total Network I/O:" ++ nl) ;;
  match net_io with
  | Some io =>
      emit_size "  Sent: " (bytes_sent io) nl ;;
      emit_size "  Received: " (bytes_recv io) nl
  | None =>
      raise (AttributeError "'NoneType' object has no attribute 'bytes_sent'")
  end.

Definition get_network_info : res string :=
  returning_info get_network_info_body.

(** *** [get_os_info] (source lines 885-902) *)

Definition get_os_info_body : M unit :=
  emit ("OPERATING SYSTEM" ++ nl) ;;
  emit (str_mul "=" 50 ++ nl ++ nl) ;;
  let uname := platform_uname h in
  emit ("System: " ++ u_system uname ++ nl) ;;
  emit ("Node Name: " ++ u_node uname ++ nl) ;;
  emit ("Release: " ++ u_release uname ++ nl) ;;
  emit ("Version: " ++ u_version uname ++ nl) ;;
  emit ("Machine: " ++ u_machine uname ++ nl) ;;
  emit ("Processor: " ++ u_processor uname ++ nl ++ nl) ;;
  boot_time <- lift (psutil_boot_time h) ;;
  boot_dt <- lift (fromtimestamp_strftime boot_time) ;;
  emit ("Boot Time: " ++ boot_dt ++ nl).

Definition get_os_info : res string := returning_info get_os_info_body.

End Collector.

(** ** The presenter (class [SystemInfoGUI], source lines 23-168, 904-921) *)

(** [tk.NORMAL] and [tk.DISABLED]. *)
Inductive tk_state : Type :=
| NORMAL
| DISABLED.

(** A [ScrolledText]: the text before Tk's final newline, and its state.
    A disabled text widget ignores [insert] and [delete]. *)
Record ScrolledText : Type := mkText { st_text : string; st_state : tk_state }.

(** [widget.config(state=v)]. *)
Definition config_state (v : tk_state) (w : ScrolledText) : ScrolledText :=
  mkText (st_text w) v.

(** [widget.delete(1.0, tk.END)]. *)
Definition delete_all (w : ScrolledText) : ScrolledText :=
  match st_state w with
  | NORMAL => mkText "" NORMAL
  | DISABLED => w
  end.

(** [widget.insert(1.0, content)]. *)
Definition insert_start (content : string) (w : ScrolledText) : ScrolledText :=
  match st_state w with
  | NORMAL => mkText (content ++ st_text w) NORMAL
  | DISABLED => w
  end.

(** [widget.get(1.0, tk.END)]: the text and Tk's final newline. *)
Definition get_all (w : ScrolledText) : string := st_text w ++ nl.

(** A call queued with [root.after(0, f, *args)]. *)
Inductive callback : Type :=
| CallUpdateTab (tab_name content : string)
| CallScanComplete
| CallStatusConfig (text foreground : string)
| CallButtonConfig (state : tk_state).

(** A scan thread: inside [scan_system] before its first [root.after], or
    with the [root.after] calls it still has to make. *)
Inductive worker : Type :=
| Scanning
| Posting (pending : list callback).

Record GUI : Type := mkGUI {
  (** [self.text_widgets], in insertion order *)
  text_widgets : list (string * ScrolledText);
  (** the state of [self.scan_button] *)
  scan_button : tk_state;
  (** [text] and [foreground] of [self.status_label] *)
  status_label : string * string;
  (** the calls queued with [root.after] and not yet run, oldest first *)
  after_queue : list callback;
  (** the scan threads that have not finished *)
  threads : list worker
}.

Definition set_text_widgets (v : list (string * ScrolledText)) (g : GUI) : GUI :=
  mkGUI v (scan_button g) (status_label g) (after_queue g) (threads g).

Definition set_scan_button (v : tk_state) (g : GUI) : GUI :=
  mkGUI (text_widgets g) v (status_label g) (after_queue g) (threads g).

Definition set_status_label (text foreground : string) (g : GUI) : GUI :=
  mkGUI (text_widgets g) (scan_button g) (text, foreground) (after_queue g)
    (threads g).

Definition set_after_queue (v : list callback) (g : GUI) : GUI :=
  mkGUI (text_widgets g) (scan_button g) (status_label g) v (threads g).

Definition set_threads (v : list worker) (g : GUI) : GUI :=
  mkGUI (text_widgets g) (scan_button g) (status_label g) (after_queue g) v.

(** [create_tab] (lines 81-90). *)
Definition create_tab (name : string) (g : GUI) : GUI :=
  set_text_widgets (dict_set name (mkText "" NORMAL) (text_widgets g)) g.

(** The tabs in the order [__init__] creates them (lines 52-60). *)
Definition tab_names : list string :=
  ["Summary"; "All Components"; "CPU"; "Memory"; "GPU"; "Storage";
   "Motherboard"; "Network"; "OS"].

(** [__init__] (lines 24-79). *)
Definition init_gui : GUI :=
  fold_left (fun g name => create_tab name g) tab_names
    (mkGUI [] NORMAL ("Ready to scan", "blue") [] []).

(** [update_tab] (lines 92-99). *)
Definition update_tab (tab_name content : string) (g : GUI) : GUI :=
  match dict_get tab_name (text_widgets g) with
  | Some widget =>
      let widget := config_state NORMAL widget in
      let widget := delete_all widget in
      let widget := insert_start content widget in
      let widget := config_state DISABLED widget in
      set_text_widgets (dict_set tab_name widget (text_widgets g)) g
  | None => g
  end.

(** [start_scan] (lines 101-114). *)
Definition start_scan (g : GUI) : GUI :=
  let g := set_scan_button DISABLED g in
  let g := set_status_label "Scanning system..." "orange" g in
  let g := set_text_widgets
             (map (fun kv => (fst kv,
                     config_state DISABLED
                       (delete_all (config_state NORMAL (snd kv)))))
                (text_widgets g)) g in
  set_threads (threads g ++ [Scanning]) g.

(** [scan_complete] (lines 165-168). *)
Definition scan_complete (g : GUI) : GUI :=
  set_scan_button NORMAL (set_status_label "Scan complete!" "green" g).

Section Presenter.

Context {F : Type} {L : PyLib F}.

(** Lines 120-144 of [scan_system]: the nine texts, in the order they are
    computed. *)
Definition scan_texts (h : Host F)
  : res (string * string * string * string * string * string * string
         * string * string) :=
  res_bind (get_os_info h) (fun os_info =>
  res_bind (get_cpu_info h) (fun cpu_info =>
  res_bind (get_memory_info h) (fun memory_info =>
  res_bind (get_gpu_info h) (fun gpu_info =>
  res_bind (get_disk_info h) (fun storage_info =>
  res_bind (get_motherboard_info h) (fun motherboard_info =>
  res_bind (get_network_info h) (fun network_info =>
  res_bind (get_components_summary h) (fun components_summary =>
  let summary := "Scan Date: " ++ now_strftime h "%Y-%m-%d %H:%M:%S"
                   ++ nl ++ nl in
  let summary := summary ++ "System: " ++ platform_system h ++ " "
                   ++ platform_release h ++ nl in
  let summary := summary ++ "Processor: " ++ platform_processor h ++ nl in
  res_bind (psutil_cpu_count h false) (fun physical =>
  res_bind (psutil_cpu_count h true) (fun logical =>
  let summary := summary ++ "CPU Cores: " ++ str_opt str_int physical
                   ++ " Physical, " ++ str_opt str_int logical
                   ++ " Logical" ++ nl in
  res_bind (psutil_virtual_memory h) (fun svmem =>
  res_bind (size_text (vm_total svmem)) (fun total =>
  let summary := summary ++ "Total RAM: " ++ total ++ nl in
  res_bind (psutil_disk_partitions h) (fun partitions =>
  let summary := summary ++ "Storage Devices: "
                   ++ str_int (Z.of_nat (List.length partitions)) ++ nl in
  let summary := summary ++ nl ++ str_mul "=" 50 ++ nl in
  let summary := summary ++ "Click other tabs for detailed information" in
  Ok (summary, components_summary, cpu_info, memory_info, gpu_info,
      storage_info, motherboard_info, network_info, os_info)))))))))))))).

(** [scan_system] (lines 116-163): the [root.after] calls the thread makes,
    in order. *)
Definition scan_system (h : Host F) : list callback :=
  match scan_texts h with
  | Ok (summary, components_summary, cpu_info, memory_info, gpu_info,
        storage_info, motherboard_info, network_info, os_info) =>
      [CallUpdateTab "Summary" summary;
       CallUpdateTab "All Components" components_summary;
       CallUpdateTab "CPU" cpu_info;
       CallUpdateTab "Memory" memory_info;
       CallUpdateTab "GPU" gpu_info;
       CallUpdateTab "Storage" storage_info;
       CallUpdateTab "Motherboard" motherboard_info;
       CallUpdateTab "Network" network_info;
       CallUpdateTab "OS" os_info;
       CallScanComplete]
  | Raise e =>
      [CallStatusConfig ("Error during scan: " ++ exn_msg e) "red";
       CallButtonConfig NORMAL]
  end.

End Presenter.

(** Tk runs a queued call on the main loop. *)
Definition run_callback (cb : callback) (g : GUI) : GUI :=
  match cb with
  | CallUpdateTab tab_name content => update_tab tab_name content g
  | CallScanComplete => scan_complete g
  | CallStatusConfig text foreground => set_status_label text foreground g
  | CallButtonConfig state => set_scan_button state g
  end.

(** *** [export_to_text] (lines 904-921) *)

(** What opening and writing the report file does: nothing goes wrong;
    [open] raises; or, the file once opened (and so created or emptied), a
    [f.write] call or the flush that closing the file makes at the end of
    the [with] block raises.  The file is a buffered text file: a
    [f.write] hands its text to a buffer, and which call raises says
    little about what reached the file.  What the file holds after such
    a failure is what the system had accepted by then: the first
    [accepted] characters of the text written, all of it when [accepted]
    is its length or more. *)
Inductive io_fault : Type :=
| NoFault
| OpenFails (e : exn)
| WriteFails (accepted : nat) (e : exn).

(** The files of the working directory: name and text. *)
Definition files := list (string * string).

(** Lines 911-915: the five [f.write] calls for one tab. *)
Definition export_section (tab : string * ScrolledText) : list string :=
  [nl ++ str_mul "=" 60 ++ nl;
   upper (fst tab) ++ nl;
   str_mul "=" 60 ++ nl ++ nl;
   get_all (snd tab);
   nl].

(** The arguments of the [f.write] calls, in order. *)
Definition export_writes (g : GUI) : list string :=
  flat_map export_section (text_widgets g).

(** The text a file holds after the [f.write] calls [ws]. *)
Fixpoint written (ws : list string) : string :=
  match ws with
  | [] => ""
  | w :: rest => w ++ written rest
  end.

(** [export_to_text]: the file written and the status shown.  Every
    exception of the [with] block, one raised on leaving it included, is
    caught by the [except] clause of line 919. *)
Definition export_to_text (now : string) (fault : io_fault)
  (g : GUI) (fs : files) : GUI * files :=
  let filename := "system_info_" ++ now ++ ".txt" in
  let writes := export_writes g in
  let failed e := set_status_label ("Export failed: " ++ exn_msg e) "red" g in
  let done := set_status_label ("Exported to " ++ filename) "green" g in
  match fault with
  | NoFault => (done, dict_set filename (written writes) fs)
  | OpenFails e => (failed e, fs)
  | WriteFails accepted e =>
      (failed e, dict_set filename (substring 0 accepted (written writes)) fs)
  end.

(** ** The running program

    The main loop serves clicks and queued calls one at a time; a scan
    thread runs beside it. *)

Record world : Type := mkWorld { gui : GUI; disk : files }.

Inductive event (F : Type) : Type :=
(** a click on "Scan System": a disabled button does not call its command *)
| ClickScan
(** a click on "Export to Text", at the time [datetime.now()] prints as
    [now] with [%Y%m%d_%H%M%S] *)
| ClickExport (now : string) (fault : io_fault)
(** thread [i] runs [scan_system] on host [h] up to its first [root.after] *)
| ThreadScans (i : nat) (h : Host F)
(** thread [i] makes its next [root.after] call *)
| ThreadPosts (i : nat)
(** the main loop runs the oldest queued call *)
| MainloopIdle.
Arguments ClickScan {F}.
Arguments ClickExport {F} now fault.
Arguments ThreadScans {F} i h.
Arguments ThreadPosts {F} i.
Arguments MainloopIdle {F}.

(** Replace element [i] of [l] by the elements of [new]. *)
Fixpoint splice {A : Type} (i : nat) (new : list A) (l : list A) : list A :=
  match l, i with
  | [], _ => []
  | _ :: rest, O => new ++ rest
  | x :: rest, S i' => x :: splice i' new rest
  end.

Section Run.

Context {F : Type} {L : PyLib F}.

Definition step (w : world) (ev : event F) : world :=
  let g := gui w in
  match ev with
  | ClickScan =>
      match scan_button g with
      | NORMAL => mkWorld (start_scan g) (disk w)
      | DISABLED => w
      end
  | ClickExport now fault =>
      let (g', fs') := export_to_text now fault g (disk w) in
      mkWorld g' fs'
  | ThreadScans i h =>
      match nth_error (threads g) i with
      | Some Scanning =>
          mkWorld (set_threads (splice i [Posting (scan_system h)] (threads g)) g)
            (disk w)
      | _ => w
      end
  | ThreadPosts i =>
      match nth_error (threads g) i with
      | Some (Posting (cb :: rest)) =>
          let g := set_after_queue (after_queue g ++ [cb]) g in
          let left := match rest with
                      | [] => []
                      | _ :: _ => [Posting rest]
                      end in
          mkWorld (set_threads (splice i left (threads g)) g) (disk w)
      | _ => w
      end
  | MainloopIdle =>
      match after_queue g with
      | cb :: rest => mkWorld (run_callback cb (set_after_queue rest g)) (disk w)
      | [] => w
      end
  end.

(** The program after a sequence of events, from a fresh window and the
    files [fs]. *)
Definition run (fs : files) (evs : list (event F)) : world :=
  fold_left step evs (mkWorld init_gui fs).

End Run.

(** * Specification vocabulary

    The notions the statements below are written in. *)

(** ** [get_size] *)

(** The number of divisions by 1024 that bring [b] below 1024. *)
Definition unit_index (b : Z) : nat :=
  if b <? 1024 then 0
  else if b <? 1024 ^ 2 then 1
  else if b <? 1024 ^ 3 then 2
  else if b <? 1024 ^ 4 then 3
  else if b <? 1024 ^ 5 then 4
  else 5.

(** The value [get_size] formats: [b] itself below 1024, else the double
    nearest to [b] divided by [1024 ^ unit_index b]. *)
Definition scaled (b : Z) : size_val :=
  match unit_index b with
  | O => SInt b
  | S _ => SFloat (rnd53 b) (10 * Z.of_nat (unit_index b))
  end.

(** The value lies in [0, 1024). *)
Definition magnitude_in_range (v : size_val) : Prop :=
  match v with
  | SInt z => 0 <= z < 1024
  | SFloat m sh => 0 <= m < 1024 * 2 ^ sh
  end.

(** A byte count [get_size] formats without overflow. *)
Definition formattable (z : Z) : bool := (0 <=? z) && (z <? 2 ^ 1033).

(** ** Method bodies *)

(** [m] only appends to [info]. *)
Definition grows {A : Type} (m : M A) : Prop :=
  forall s, exists t, info (snd (m s)) = info s ++ t.

(** [m] returns: it does not raise, whatever the locals. *)
Definition safe {A : Type} (m : M A) : Prop :=
  forall s, exists a s', m s = (Ok a, s').

(** [m] returns and appends to [info] a text that satisfies [P]. *)
Definition appends (m : M unit) (P : string -> Prop) : Prop :=
  forall s, exists s' t, m s = (Ok tt, s') /\ info s' = info s ++ t /\ P t.

(** ** Hosts *)

(** An external command that gives nothing: it raises, or exits non-zero. *)
Definition tool_fails (r : res CompletedProcess) : bool :=
  match r with
  | Raise _ => true
  | Ok c => negb (returncode c =? 0)
  end.

Definition wmic_cpu_argv : list string := ["wmic"; "cpu"; "get"; "name"].

(** The name WMIC prints, when it exits with 0 and prints a second line. *)
Definition wmic_outcome (result : CompletedProcess) : option string :=
  let lines := split_on newline (strip (stdout result)) in
  if (returncode result =? 0) && (1 <? Z.of_nat (List.length lines))
  then Some (strip (nth 1 lines ""))
  else None.

(** The files [get_motherboard_info] reads on Linux. *)
Definition dmi_paths : list string :=
  ["/sys/devices/virtual/dmi/id/board_vendor";
   "/sys/devices/virtual/dmi/id/board_name";
   "/sys/devices/virtual/dmi/id/board_version"].

(** What [get_gpu_info] returns when it finds no GPU. *)
Definition gpu_unavailable_text : string :=
  ("GPU INFORMATION" ++ nl) ++ (str_mul "=" 50 ++ nl ++ nl)
  ++ ("No GPU information available" ++ nl).

Section HostVocabulary.

Context {F : Type} {L : PyLib F}.
Variable h : Host F.

(** The queries each collector makes outside its [try] blocks succeed, and
    the byte counts it formats there are in [get_size]'s range. *)
Definition cpu_queries_ok : bool :=
  is_ok (psutil_cpu_count h false) && is_ok (psutil_cpu_count h true)
  && is_ok (psutil_cpu_freq h) && is_ok (psutil_cpu_percent_percpu h)
  && is_ok (psutil_cpu_percent h).

Definition memory_queries_ok : bool :=
  match psutil_virtual_memory h with
  | Ok v => formattable (vm_total v) && formattable (vm_available v)
            && formattable (vm_used v) && formattable (vm_free v)
  | Raise _ => false
  end
  && match psutil_swap_memory h with
     | Ok w => formattable (sw_total w) && formattable (sw_used w)
               && formattable (sw_free w)
     | Raise _ => false
     end.

Definition disk_queries_ok : bool :=
  match psutil_disk_partitions h with
  | Ok ps => formattable (total_storage h ps)
  | Raise _ => false
  end
  && match psutil_disk_io_counters h with
     | Ok (Some io) => formattable (read_bytes io) && formattable (write_bytes io)
     | Ok None => true
     | Raise _ => false
     end.

Definition network_queries_ok : bool :=
  is_ok (psutil_net_if_addrs h)
  && match psutil_net_io_counters h with
     | Ok (Some io) => formattable (bytes_sent io) && formattable (bytes_recv io)
     | _ => false
     end.

Definition os_queries_ok : bool :=
  match psutil_boot_time h with
  | Ok t => is_ok (fromtimestamp_strftime t)
  | Raise _ => false
  end.

Definition unguarded_queries_ok : bool :=
  cpu_queries_ok && memory_queries_ok && disk_queries_ok
  && network_queries_ok && os_queries_ok.

(** What the registry read leaves in [cpu_name], and whether it raised. *)
Definition registry_outcome : string * bool :=
  match winreg_OpenKey h with
  | Raise _ => ("Unknown CPU", true)
  | Ok _ =>
      match winreg_QueryValueEx h with
      | Raise _ => ("Unknown CPU", true)
      | Ok v => (strip v, match winreg_CloseKey h with
                          | Ok _ => false
                          | Raise _ => true
                          end)
      end
  end.

(** The processor name by cases on what the sources answer: WMIC is
    consulted when the registry read raised, [platform.processor()] when
    the WMIC call raised; a WMIC run that prints no name leaves what the
    registry read had assigned. *)
Definition cpu_name_chain : string :=
  if is_windows h then
    let (name, raised) := registry_outcome in
    if raised then
      match subprocess_run h wmic_cpu_argv with
      | Raise _ => platform_processor h
      | Ok result =>
          match wmic_outcome result with
          | Some n => n
          | None => name
          end
      end
    else name
  else platform_processor h.

(** The spec's chain: registry, then WMIC, then the generic processor
    string, each later source used exactly when the one before gave no
    name. *)
Definition cpu_name_by_spec : string :=
  if is_windows h then
    match registry_outcome with
    | (name, false) => name
    | (_, true) =>
        match subprocess_run h wmic_cpu_argv with
        | Ok result =>
            match wmic_outcome result with
            | Some name => name
            | None => platform_processor h
            end
        | Raise _ => platform_processor h
        end
    end
  else platform_processor h.

(** With WMIC giving nothing, the name is the registry's or the
    platform's. *)
Definition cpu_name_without_wmic : string :=
  if is_windows h then
    let (name, raised) := registry_outcome in
    if raised then
      match subprocess_run h wmic_cpu_argv with
      | Raise _ => platform_processor h
      | Ok _ => name
      end
    else name
  else platform_processor h.

(** The marker the board block of [get_motherboard_info] leaves when the
    board cannot be read, by platform. *)
Definition board_marker (t : string) : Prop :=
  if is_windows h then
    contains "Unavailable: " t = true
    \/ contains "information unavailable" t = true
  else if is_linux h then
    forallb (fun p => is_ok (read_file h p)) dmi_paths = false ->
    contains "Unavailable (may need root)" t = true
  else contains "Not available on this platform" t = true.

End HostVocabulary.

(** ** Collector blocks *)

Section CollectorVocabulary.

Context {F : Type} {L : PyLib F}.
Variable h : Host F.

(** The title of the RAM module block (lines 451-453). *)
Definition ram_modules_title : string :=
  (nl ++ str_mul "=" 50 ++ nl) ++ ("RAM MODULES:" ++ nl)
  ++ (str_mul "=" 50 ++ nl ++ nl).

(** What the RAM module block prints when no module list is obtained: the
    PowerShell call raised; or it returned without output and the WMIC
    call raised, or returned without output too.  [None] when one of the
    two gave output to parse. *)
Definition ram_modules_failure : option string :=
  match powershell h
          "Get-CimInstance Win32_PhysicalMemory | Select-Object Manufacturer, PartNumber, Capacity, Speed, DeviceLocator | ConvertTo-Json"
  with
  | Raise e => Some ("Detailed RAM info unavailable: " ++ exn_msg e ++ nl ++ nl)
  | Ok result =>
      if has_output result then None
      else
        match subprocess_run h
                ["wmic"; "memorychip"; "get";
                 "capacity,speed,manufacturer,partnumber,devicelocator"]
        with
        | Raise e =>
            Some ("RAM module details unavailable: " ++ exn_msg e ++ nl ++ nl)
        | Ok result =>
            if has_output result then None
            else Some ("RAM module details unavailable" ++ nl ++ nl)
        end
  end.

(** The lines of a partition that do not depend on its usage figures, with
    the placeholder when the usage query raises. *)
Definition partition_lines (p : sdiskpart) : string :=
  ("Device: " ++ device p ++ nl) ++ ("  Mountpoint: " ++ mountpoint p ++ nl)
  ++ ("  File System: " ++ fstype p ++ nl)
  ++ match psutil_disk_usage h (mountpoint p) with
     | Ok _ => ""
     | Raise _ => ("  (Permission denied)" ++ nl) ++ nl
     end.

(** The board block on Linux: the lines of the files read before the first
    one that cannot be read, then the placeholder. *)
Definition linux_board_text : string :=
  match read_file h "/sys/devices/virtual/dmi/id/board_vendor" with
  | Raise _ => "Unavailable (may need root)" ++ nl
  | Ok vendor =>
      ("Manufacturer: " ++ strip vendor ++ nl)
      ++ match read_file h "/sys/devices/virtual/dmi/id/board_name" with
         | Raise _ => "Unavailable (may need root)" ++ nl
         | Ok name =>
             ("Product: " ++ strip name ++ nl)
             ++ match read_file h "/sys/devices/virtual/dmi/id/board_version" with
                | Raise _ => "Unavailable (may need root)" ++ nl
                | Ok version => "Version: " ++ strip version ++ nl
                end
         end
  end.

(** The processor name of the overview tab: the registry's on Windows,
    [platform.processor()] when the registry read raises and off Windows. *)
Definition summary_cpu_name : string :=
  if is_windows h then
    let (name, raised) := registry_outcome h in
    if raised then platform_processor h else name
  else platform_processor h.

(** The host [h] with other answers from the registry and the external
    commands. *)
Definition with_windows_sources (open_key : res unit) (query : res string)
  (close_key : res unit) (run : list string -> res CompletedProcess) : Host F := {|
  platform_system := platform_system h;
  platform_release := platform_release h;
  platform_processor := platform_processor h;
  platform_machine := platform_machine h;
  platform_uname := platform_uname h;
  winreg_OpenKey := open_key;
  winreg_QueryValueEx := query;
  winreg_CloseKey := close_key;
  subprocess_run := run;
  read_file := read_file h;
  now_strftime := now_strftime h;
  psutil_cpu_count := psutil_cpu_count h;
  psutil_cpu_freq := psutil_cpu_freq h;
  psutil_cpu_percent_percpu := psutil_cpu_percent_percpu h;
  psutil_cpu_percent := psutil_cpu_percent h;
  psutil_virtual_memory := psutil_virtual_memory h;
  psutil_swap_memory := psutil_swap_memory h;
  psutil_disk_partitions := psutil_disk_partitions h;
  psutil_disk_usage := psutil_disk_usage h;
  psutil_disk_io_counters := psutil_disk_io_counters h;
  psutil_sensors_temperatures := psutil_sensors_temperatures h;
  psutil_sensors_battery := psutil_sensors_battery h;
  psutil_net_if_addrs := psutil_net_if_addrs h;
  psutil_net_io_counters := psutil_net_io_counters h;
  psutil_boot_time := psutil_boot_time h
|}.

End CollectorVocabulary.

(** The program an argument vector names. *)
Definition program (argv : list string) : string := hd "" argv.

(** ** The window *)

(** The text of a tab. *)
Definition slot_text (name : string) (g : GUI) : option string :=
  option_map st_text (dict_get name (text_widgets g)).

(** The tabs, in order. *)
Definition slot_names (g : GUI) : list string := map fst (text_widgets g).

(** A tab that holds text. *)
Definition slot_filled (name : string) (g : GUI) : Prop :=
  exists t, slot_text name g = Some t /\ t <> "".

(** The tabs and their texts, in tab order. *)
Definition slot_contents (g : GUI) : list (string * string) :=
  map (fun kv => (fst kv, st_text (snd kv))) (text_widgets g).

(** The [update_tab] calls for a list of (tab, text). *)
Definition update_calls (todo : list (string * string)) : list callback :=
  map (fun nc => CallUpdateTab (fst nc) (snd nc)) todo.

(** The calls of one [scan_system] run that have not run yet: the updates
    of tabs still to fill and [scan_complete], or the error report. *)
Inductive delivering (g : GUI) : list callback -> Prop :=
| deliver_updates todo :
    (forall n c, In (n, c) todo -> In n tab_names /\ c <> "") ->
    (forall n, In n tab_names -> In n (map fst todo) \/ slot_filled n g) ->
    delivering g (update_calls todo ++ [CallScanComplete])
| deliver_error text :
    delivering g [CallStatusConfig text "red"; CallButtonConfig NORMAL]
| deliver_enable :
    delivering g [CallButtonConfig NORMAL].

(** The phases of a scan session: idle; the thread is in [scan_system];
    the thread is posting its results; the main loop runs the last of
    them. *)
Inductive session (g : GUI) : Prop :=
| session_idle :
    scan_button g = NORMAL -> threads g = [] -> after_queue g = [] -> session g
| session_scanning :
    scan_button g = DISABLED -> threads g = [Scanning] -> after_queue g = [] ->
    session g
| session_posting p :
    scan_button g = DISABLED -> threads g = [Posting p] -> p <> [] ->
    delivering g (after_queue g ++ p) -> session g
| session_draining :
    scan_button g = DISABLED -> threads g = [] ->
    delivering g (after_queue g) -> session g.

(** ** The contents of the tabs *)

(** Every tab is empty. *)
Definition all_empty (g : GUI) : Prop :=
  forall n, In n tab_names -> slot_text n g = Some "".

(** Every tab holds text. *)
Definition all_filled (g : GUI) : Prop :=
  forall n, In n tab_names -> slot_filled n g.

(** Every tab's widget is disabled: the user cannot type into it. *)
Definition read_only (g : GUI) : Prop :=
  Forall (fun kv => st_state (snd kv) = DISABLED) (text_widgets g).

(** The status line does not read "Scan complete!". *)
Definition not_complete (g : GUI) : Prop :=
  fst (status_label g) <> "Scan complete!".

(** The scan thread that has the calls [p] left to post: none when [p] is
    empty. *)
Definition thread_posting (p : list callback) : list worker :=
  match p with
  | [] => []
  | _ :: _ => [Posting p]
  end.

(** The calls a failed [scan_system] makes (lines 160-163), and what is left
    of them once the first has run. *)
Definition failure_calls (q : list callback) : Prop :=
  (exists msg,
     q = [CallStatusConfig ("Error during scan: " ++ msg) "red";
          CallButtonConfig NORMAL])
  \/ q = [CallButtonConfig NORMAL].

(** What the tabs hold in each phase of the program: between scans; while
    the thread collects; while the results of a scan that succeeded are
    posted and run ([todo] are the updates not run yet); while the report of
    a scan that failed is posted and run. *)
Inductive tabs_phase (g : GUI) : Prop :=
| phase_idle :
    scan_button g = NORMAL -> threads g = [] -> after_queue g = [] ->
    text_widgets g = text_widgets init_gui \/ read_only g ->
    (all_empty g /\ not_complete g) \/ all_filled g ->
    tabs_phase g
| phase_scanning :
    scan_button g = DISABLED -> threads g = [Scanning] -> after_queue g = [] ->
    read_only g -> all_empty g -> not_complete g ->
    tabs_phase g
| phase_filling p todo :
    scan_button g = DISABLED -> threads g = thread_posting p ->
    (after_queue g ++ p)%list = (update_calls todo ++ [CallScanComplete])%list ->
    read_only g -> not_complete g ->
    NoDup (map fst todo) ->
    (forall n c, In (n, c) todo -> In n tab_names /\ c <> "") ->
    (forall n, In n tab_names ->
       (In n (map fst todo) -> slot_text n g = Some "")
       /\ (~ In n (map fst todo) -> slot_filled n g)) ->
    tabs_phase g
| phase_failing p :
    scan_button g = DISABLED -> threads g = thread_posting p ->
    failure_calls (after_queue g ++ p) ->
    read_only g -> all_empty g -> not_complete g ->
    tabs_phase g.

(** ** The report file *)

(** The header of a section: the label in upper case between two rules. *)
Definition report_header (label : string) : string :=
  (nl ++ str_mul "=" 60 ++ nl) ++ (upper label ++ nl)
  ++ (str_mul "=" 60 ++ nl ++ nl).

(** One section: header, text, Tk's final newline and the newline
    [export_to_text] adds. *)
Definition report_section (slot : string * string) : string :=
  report_header (fst slot) ++ snd slot ++ nl ++ nl.

Fixpoint report (slots : list (string * string)) : string :=
  match slots with
  | [] => ""
  | slot :: rest => report_section slot ++ report rest
  end.

Definition export_filename (now : string) : string :=
  "system_info_" ++ now ++ ".txt".

(** The three lines that mark a section: a rule, the label in upper case,
    a rule. *)
Definition header_core (label : string) : string :=
  str_mul "=" 60 ++ nl ++ upper label ++ nl ++ str_mul "=" 60.

(** Reading the texts back, past the first header: the text of a section
    ends two characters (Tk's newline and the one [export_to_text] adds)
    before the first header of the next label, the text of the last
    section two characters before the end of the file. *)
Fixpoint read_bodies (labels : list string) (body : string)
  : option (list string) :=
  match labels with
  | [] =>
      let n := String.length body in
      if ((2 <=? n)%nat && String.eqb (drop (n - 2) body) (nl ++ nl))%bool
      then Some [substring 0 (n - 2) body]
      else None
  | label :: rest =>
      match split_at (nl ++ nl ++ report_header label) body with
      | Some (text, after) =>
          match read_bodies rest after with
          | Some texts => Some (text :: texts)
          | None => None
          end
      | None => None
      end
  end.

(** The program writes reports and reads none.  This is the reader the
    round trip is stated with: it gives the texts of the sections of
    [labels], in order, and [None] when the file does not hold these
    sections. *)
Definition read_report (labels : list string) (file : string)
  : option (list string) :=
  match labels with
  | [] => if String.eqb file "" then Some [] else None
  | label :: rest =>
      if prefixb (report_header label) file
      then read_bodies rest (drop (String.length (report_header label)) file)
      else None
  end.

(** The text holds the three marking lines of none of the sections. *)
Definition no_header_inside (labels : list string) (text : string) : bool :=
  forallb (fun label => negb (contains (header_core label) text)) labels.

(** [k] newlines before [x]. *)
Fixpoint newlines (k : nat) (x : string) : string :=
  match k with
  | O => x
  | S k' => String newline (newlines k' x)
  end.

(** No newline of [s] is its last character or is followed by another. *)
Fixpoint lines_nonempty (s : string) : bool :=
  match s with
  | EmptyString => true
  | String a s' =>
      (if Ascii.eqb a newline
       then match s' with
            | EmptyString => false
            | String b _ => negb (Ascii.eqb b newline)
            end
       else true) && lines_nonempty s'
  end.

(** The exception the file operations of an export raise, if any. *)
Definition export_raises (fault : io_fault) (g : GUI) : option exn :=
  match fault with
  | NoFault => None
  | OpenFails e => Some e
  | WriteFails _ e => Some e
  end.

(** ** Sample library and hosts *)

(** A small library: floats are whole numbers, the digits are the ASCII
    ones, [json.loads] rejects every text. *)
Definition toy_lib : PyLib Z := {|
  float_str := fun z => str_int z ++ ".0";
  float_fixed := fun n z =>
    str_int z ++ match n with O => "" | S _ => "." ++ str_mul "0" n end;
  float_truth := fun z => negb (z =? 0);
  float_trunc := fun z => Ok z;
  str_isdigit := ascii_isdigit;
  int_of_str := fun s =>
    if ascii_isdigit s then Ok (digits_value s 0)
    else Raise (ValueError "invalid literal for int() with base 10");
  json_loads := fun _ => Raise (mkExn JSONDecodeError "Expecting value");
  json_repr := fun _ => "[...]";
  celsius_of_decikelvin := fun n =>
    match n with
    | PInt z => Ok (z / 10 - 273)
    | PFloat f => Ok (f / 10 - 273)
    end;
  fromtimestamp_strftime := fun _ => Ok "2024-01-01 08:00:00";
  fromisoformat_strftime := fun _ =>
    Raise (ValueError "Invalid isoformat string")
|}.

Definition FileNotFoundError : exn :=
  mkExn OtherError "[Errno 2] No such file or directory".

(** A host with 4 cores and 8 GiB of memory, one partition and the loopback
    interface: which system it runs, what the registry and the external
    commands answer, and what [psutil.cpu_freq()] gives, are the
    arguments. *)
Definition sample_host (system processor : string) (registry : res string)
  (run_tool : list string -> res CompletedProcess)
  (cpu_freq : res (option (scpufreq Z))) : Host Z := {|
  platform_system := system;
  platform_release := "6.1";
  platform_processor := processor;
  platform_machine := "x86_64";
  platform_uname :=
    {| u_system := system; u_node := "box"; u_release := "6.1";
       u_version := "#1 SMP"; u_machine := "x86_64";
       u_processor := processor |};
  winreg_OpenKey := res_bind registry (fun _ => Ok tt);
  winreg_QueryValueEx := registry;
  winreg_CloseKey := Ok tt;
  subprocess_run := run_tool;
  read_file := fun _ => Raise (mkExn OtherError "[Errno 13] Permission denied");
  now_strftime := fun fmt =>
    if String.eqb fmt "%Y%m%d_%H%M%S" then "20240101_120000"
    else "2024-01-01 12:00:00";
  psutil_cpu_count := fun logical => Ok (Some (if logical then 8 else 4));
  psutil_cpu_freq := cpu_freq;
  psutil_cpu_percent_percpu := Ok [3; 0];
  psutil_cpu_percent := Ok 1;
  psutil_virtual_memory :=
    Ok {| vm_total := 8589934592; vm_available := 4294967296;
          vm_percent := 50; vm_used := 4294967296; vm_free := 4294967296 |};
  psutil_swap_memory :=
    Ok {| sw_total := 0; sw_used := 0; sw_free := 0; sw_percent := 0 |};
  psutil_disk_partitions :=
    Ok [{| device := "/dev/sda1"; mountpoint := "/"; fstype := "ext4" |}];
  psutil_disk_usage := fun _ =>
    Ok {| du_total := 1099511627776; du_used := 549755813888;
          du_free := 549755813888; du_percent := 50 |};
  psutil_disk_io_counters := Ok None;
  psutil_sensors_temperatures :=
    Raise (AttributeError "module 'psutil' has no attribute 'sensors_temperatures'");
  psutil_sensors_battery :=
    Raise (AttributeError "module 'psutil' has no attribute 'sensors_battery'");
  psutil_net_if_addrs :=
    Ok [("lo", [{| family_name := Ok "AF_INET"; address := "127.0.0.1";
                   netmask := Some "255.0.0.0" |}])];
  psutil_net_io_counters := Ok (Some {| bytes_sent := 2048; bytes_recv := 4096 |});
  psutil_boot_time := Ok 1704096000
|}.

Definition no_tools (argv : list string) : res CompletedProcess :=
  Raise FileNotFoundError.

(** A Linux machine without any of the external commands. *)
Definition linux_box : Host Z :=
  sample_host "Linux" "x86_64" (Raise FileNotFoundError) no_tools (Ok None).

(** The same machine on a platform where [psutil.cpu_freq()] raises. *)
Definition linux_box_no_cpu_freq : Host Z :=
  sample_host "Linux" "x86_64" (Raise FileNotFoundError) no_tools
    (Raise (mkExn OtherError "can't find current frequency file")).

(** A Windows machine whose registry read raises and whose external
    commands all exit with status 1. *)
Definition windows_box : Host Z :=
  sample_host "Windows" "Intel64 Family 6 Model 158 Stepping 10, GenuineIntel"
    (Raise FileNotFoundError)
    (fun _ => Ok {| returncode := 1; stdout := "" |}) (Ok None).

(** A scan that runs to its [scan_complete] call. *)
Definition trace_to_done : list (event Z) :=
  [ClickScan; ThreadScans 0 linux_box]
  ++ repeat (ThreadPosts 0) 10 ++ repeat MainloopIdle 9.

(** A scan that fails ([psutil.cpu_freq()] raises in [get_cpu_info]), up to
    the point where the main loop has shown the error. *)
Definition trace_to_failed : list (event Z) :=
  [ClickScan; ThreadScans 0 linux_box_no_cpu_freq;
   ThreadPosts 0; ThreadPosts 0; MainloopIdle].

(** A Windows machine whose PowerShell answers the BIOS query only. *)
Definition windows_box_bios_only : Host Z :=
  sample_host "Windows" "Intel64 Family 6 Model 158 Stepping 10, GenuineIntel"
    (Raise FileNotFoundError)
    (fun argv =>
       if contains "Win32_BIOS" (nth 2 argv "")
       then Ok {| returncode := 0; stdout := "{}" |}
       else Ok {| returncode := 1; stdout := "" |})
    (Ok None).

(** The battery of [bare_laptop]: 80 %, on battery, 5025 seconds left. *)
Definition sample_battery : sbattery Z :=
  {| bat_percent := PInt 80; bat_secsleft := 5025;
     bat_power_plugged := Some false |}.

(** A Linux laptop on battery and without any network interface. *)
Definition bare_laptop : Host Z := {|
  platform_system := platform_system linux_box;
  platform_release := platform_release linux_box;
  platform_processor := platform_processor linux_box;
  platform_machine := platform_machine linux_box;
  platform_uname := platform_uname linux_box;
  winreg_OpenKey := winreg_OpenKey linux_box;
  winreg_QueryValueEx := winreg_QueryValueEx linux_box;
  winreg_CloseKey := winreg_CloseKey linux_box;
  subprocess_run := no_tools;
  read_file := read_file linux_box;
  now_strftime := now_strftime linux_box;
  psutil_cpu_count := psutil_cpu_count linux_box;
  psutil_cpu_freq := psutil_cpu_freq linux_box;
  psutil_cpu_percent_percpu := psutil_cpu_percent_percpu linux_box;
  psutil_cpu_percent := psutil_cpu_percent linux_box;
  psutil_virtual_memory := psutil_virtual_memory linux_box;
  psutil_swap_memory := psutil_swap_memory linux_box;
  psutil_disk_partitions := psutil_disk_partitions linux_box;
  psutil_disk_usage := psutil_disk_usage linux_box;
  psutil_disk_io_counters := psutil_disk_io_counters linux_box;
  psutil_sensors_temperatures := psutil_sensors_temperatures linux_box;
  psutil_sensors_battery := Ok (Some sample_battery);
  psutil_net_if_addrs := Ok [];
  psutil_net_io_counters := Ok None;
  psutil_boot_time := psutil_boot_time linux_box
|}.

(** A no-break space (U+00A0), which is whitespace for Python, and a
    zero-width space (U+200B), which is not, in UTF-8. *)
Definition nbsp : string :=
  String (ascii_of_nat 194) (String (ascii_of_nat 160) "").

Definition zwsp : string :=
  String (ascii_of_nat 226)
    (String (ascii_of_nat 128) (String (ascii_of_nat 139) "")).

(** External commands that answer everything but [nvidia-smi]. *)
Definition chatty_tools (argv : list string) : res CompletedProcess :=
  if String.eqb (program argv) "nvidia-smi" then no_tools argv
  else Ok {| returncode := 0; stdout := "Name" |}.


(** * Proofs *)

(** ** Text *)

Lemma append_nil_r s : s ++ "" = s.
Proof. induction s; cbn; congruence. Qed.

Lemma append_assoc (a b c : string) : (a ++ b) ++ c = a ++ (b ++ c).
Proof. induction a; cbn; congruence. Qed.

Lemma prefixb_app m t : prefixb m (m ++ t) = true.
Proof. induction m; cbn; [reflexivity|]. now rewrite Ascii.eqb_refl. Qed.

Lemma prefixb_app_l m s t : prefixb m s = true -> prefixb m (s ++ t) = true.
Proof.
  revert s. induction m as [|a m IH]; intros s; cbn; [reflexivity|].
  destruct s as [|b s]; cbn; [discriminate|].
  destruct (Ascii.eqb a b); cbn; [apply IH|discriminate].
Qed.

Lemma length_append (a b : string) :
  String.length (a ++ b) = (String.length a + String.length b)%nat.
Proof. induction a; cbn; congruence. Qed.

Lemma drop_app m x : drop (String.length m) (m ++ x) = x.
Proof. induction m; cbn; [destruct x; reflexivity|assumption]. Qed.

Lemma substring_app m x : substring 0 (String.length m) (m ++ x) = m.
Proof.
  induction m as [|a m IH]; cbn; [destruct x; reflexivity|now rewrite IH].
Qed.

Lemma substring_drop n s : s = substring 0 n s ++ drop n s.
Proof.
  revert n. induction s as [|a s IH]; intros [|n]; cbn; try reflexivity.
  now rewrite <- IH.
Qed.

Lemma substring_length n s :
  String.length (substring 0 n s) = Nat.min n (String.length s).
Proof.
  revert n. induction s as [|a s IH]; intros [|n]; cbn; try reflexivity.
  now rewrite IH.
Qed.

Lemma contains_here m t : contains m (m ++ t) = true.
Proof.
  destruct (m ++ t) eqn:E; cbn; rewrite <- E, prefixb_app; reflexivity.
Qed.

Lemma contains_app_l m s t : contains m s = true -> contains m (s ++ t) = true.
Proof.
  induction s as [|a s IH]; cbn.
  - rewrite orb_false_r. intros H. destruct m; [|discriminate].
    destruct t; reflexivity.
  - intros H. apply orb_true_iff in H. destruct H as [H|H].
    + apply (prefixb_app_l _ _ t) in H. cbn in H. now rewrite H.
    + rewrite (IH H). apply orb_true_r.
Qed.

Lemma contains_app_r m s t : contains m t = true -> contains m (s ++ t) = true.
Proof.
  intros H. induction s as [|a s IH]; cbn; [exact H|].
  rewrite IH. apply orb_true_r.
Qed.

Lemma prefixb_app_inv a b s : prefixb (a ++ b) s = true -> prefixb a s = true.
Proof.
  revert s. induction a as [|x a IH]; intros s; cbn; [reflexivity|].
  destruct s as [|y s]; [discriminate|].
  destruct (Ascii.eqb x y); cbn; [apply IH|discriminate].
Qed.

Lemma contains_prefix m s : prefixb m s = true -> contains m s = true.
Proof. intros H. destruct s; cbn in *; now rewrite H. Qed.

Lemma contains_tail m c s :
  contains m s = true -> contains m (String c s) = true.
Proof. intros H. cbn. rewrite H. apply orb_true_r. Qed.

Lemma split_at_eq m s :
  split_at m s
  = if prefixb m s then Some (EmptyString, drop (String.length m) s)
    else match s with
         | EmptyString => None
         | String c s' =>
             match split_at m s' with
             | Some (before, after) => Some (String c before, after)
             | None => None
             end
         end.
Proof. destruct s; reflexivity. Qed.

(** Lines that match where a text is followed by two newlines lie in the
    text. *)
Lemma prefixb_before_blank_line k t z :
  lines_nonempty k = true ->
  prefixb k (t ++ String newline (String newline z)) = true ->
  prefixb k t = true.
Proof.
  revert k. induction t as [|c t IH]; intros k Hk H.
  - destruct k as [|a k]; [reflexivity|]. exfalso.
    cbn in H, Hk. apply andb_true_iff in H. destruct H as [Ha H].
    rewrite Ha in Hk.
    destruct k as [|b k]; [discriminate|].
    cbn in H. apply andb_true_iff in Hk. destruct Hk as [Hb _].
    destruct (Ascii.eqb b _); cbn in *; discriminate.
  - destruct k as [|a k]; [reflexivity|].
    cbn in H |- *. apply andb_true_iff in H. destruct H as [Ha H].
    rewrite Ha. cbn.
    apply IH; [|exact H].
    cbn in Hk. apply andb_true_iff in Hk. apply Hk.
Qed.

(** The first occurrence of a delimiter (three newlines, then lines [k]
    that start with [a], then [tail]) after a text that does not hold
    these lines is the one that follows the text. *)
Section Delimiter.
Variables (a : ascii) (k tail : string).
Hypothesis Ha : Ascii.eqb a newline = false.
Hypothesis Hk : lines_nonempty (String a k) = true.

Lemma fewer_newlines i j y :
  (i < j)%nat ->
  prefixb (newlines i (String a k ++ tail)) (newlines j y) = false.
Proof.
  revert j. induction i as [|i IH]; intros [|j] Hlt; try lia.
  - cbn [newlines append prefixb]. now rewrite Ha.
  - cbn [newlines prefixb]. rewrite Ascii.eqb_refl. apply IH. lia.
Qed.

Lemma no_early_match t i j y :
  (i <= S (S j))%nat ->
  prefixb (newlines i (String a k ++ tail)) (t ++ newlines (S (S j)) y) = true ->
  contains (String a k) t = true \/ t = "".
Proof.
  revert i. induction t as [|c t IH]; intros i Hi H; [now right|]. left.
  destruct i as [|i].
  - apply contains_prefix.
    apply prefixb_app_inv in H.
    now apply (prefixb_before_blank_line _ _ (newlines j y)).
  - change (Ascii.eqb newline c
            && prefixb (newlines i (String a k ++ tail))
                 (t ++ newlines (S (S j)) y) = true) in H.
    apply andb_true_iff in H. destruct H as [_ H].
    apply contains_tail.
    destruct (IH i ltac:(lia) H) as [Hc| ->]; [exact Hc|].
    exfalso.
    change (prefixb (newlines i (String a k ++ tail)) (newlines (S (S j)) y)
            = true) in H.
    rewrite fewer_newlines in H by lia. discriminate.
Qed.

Lemma split_at_delimiter t after :
  contains (String a k) t = false ->
  split_at (newlines 3 (String a k ++ tail))
    (t ++ newlines 3 (String a k ++ tail) ++ after)
  = Some (t, after).
Proof.
  assert (Hd : forall x, newlines 3 (String a k ++ tail) ++ x
                         = newlines 3 ((String a k ++ tail) ++ x))
    by reflexivity.
  induction t as [|c t IH]; intros Hc; rewrite split_at_eq.
  - cbn [append]. now rewrite prefixb_app, drop_app.
  - destruct (prefixb _ _) eqn:E.
    + exfalso. rewrite Hd in E.
      destruct (no_early_match (String c t) 3 1 _ ltac:(lia) E) as [H|H];
        [congruence|discriminate].
    + change (String c t ++ newlines 3 (String a k ++ tail) ++ after)
        with (String c (t ++ newlines 3 (String a k ++ tail) ++ after)).
      cbv beta iota. rewrite IH; [reflexivity|].
      cbn in Hc. apply orb_false_iff in Hc. apply Hc.
Qed.

End Delimiter.

(** Close a goal [contains m (x1 ++ ... ++ xn) = true]. *)
Ltac contains_tac :=
  first
    [ apply contains_here
    | apply contains_app_l; vm_compute; reflexivity
    | apply contains_app_l; apply contains_here
    | apply contains_app_r; contains_tac ].

(** ** Whitespace

    [strip] and [split] take Python's whitespace, not only the ASCII
    part of it. *)

Example strip_no_break_space :
  strip (nbsp ++ "Intel Core" ++ nbsp ++ nl) = "Intel Core".
Proof. vm_compute. reflexivity. Qed.

Example strip_keeps_zero_width_space :
  strip (" " ++ zwsp ++ "x" ++ zwsp ++ nl) = zwsp ++ "x" ++ zwsp.
Proof. vm_compute. reflexivity. Qed.

Example split_ws_no_break_space :
  split_ws ("8192" ++ nbsp ++ " DDR4" ++ nl) = ["8192"; "DDR4"].
Proof. vm_compute. reflexivity. Qed.

(** A command that prints whitespace only has printed nothing. *)
Example has_output_blank :
  has_output {| returncode := 0; stdout := nbsp ++ nl |} = false.
Proof. vm_compute. reflexivity. Qed.

(** WMIC output whose second line is blank is one line once stripped: it
    gives no name. *)
Example wmic_blank_name :
  wmic_outcome {| returncode := 0; stdout := "Name" ++ nl ++ nbsp |} = None.
Proof. vm_compute. reflexivity. Qed.

(** ** [get_size] *)

Example get_size_zero : get_size 0 "B" = Ok (Some "0.00B").
Proof. reflexivity. Qed.

Example get_size_kilo : get_size 1536 "B" = Ok (Some "1.50KB").
Proof. reflexivity. Qed.

Example get_size_giga : get_size 17179869184 "B" = Ok (Some "16.00GB").
Proof. reflexivity. Qed.

(** The printed figure is rounded after the unit is chosen. *)
Example get_size_rounds_up : get_size 1048575 "B" = Ok (Some "1024.00KB").
Proof. reflexivity. Qed.

(** The largest count that still gets a unit. *)
Example get_size_last : get_size (2 ^ 60 - 65) "B" = Ok (Some "1024.00PB").
Proof. vm_compute. reflexivity. Qed.

(** The double nearest to [(2 ^ 60 - 64) / 1024] is [2 ^ 50]. *)
Example get_size_first_none : get_size (2 ^ 60 - 64) "B" = Ok None.
Proof. vm_compute. reflexivity. Qed.

(** Replace the closed powers of two by their values. *)
Ltac eval_pows :=
  repeat match goal with
         | |- context [2 ^ ?e] =>
             let v := eval vm_compute in (2 ^ e) in change (2 ^ e) with v
         | H : context [2 ^ ?e] |- _ =>
             let v := eval vm_compute in (2 ^ e) in change (2 ^ e) with v in H
         end.

Lemma rnd53_small n : 0 <= n < 2 ^ 53 -> rnd53 n = n.
Proof.
  intros Hn. unfold rnd53.
  assert (Hb : Z.log2 n + 1 <= 53).
  { destruct (Z.eq_dec n 0) as [->|Hz]; [cbn; lia|].
    assert (Z.log2 n < 53) by (apply Z.log2_lt_pow2; lia). lia. }
  apply Z.leb_le in Hb. cbv zeta. rewrite Hb. reflexivity.
Qed.

Lemma rnd53_large n :
  2 ^ 53 <= n < 2 ^ 60 - 64 -> 2 ^ 53 <= rnd53 n < 2 ^ 60.
Proof.
  intros Hn. unfold rnd53. cbv zeta.
  assert (Hlo : 53 <= Z.log2 n) by (apply Z.log2_le_pow2; lia).
  assert (Hhi : Z.log2 n < 60) by (apply Z.log2_lt_pow2; lia).
  destruct (Z.log2_spec n ltac:(lia)) as [Hl Hu].
  destruct (Z.leb_spec (Z.log2 n + 1) 53) as [?|_]; [lia|].
  set (s := Z.log2 n + 1 - 53).
  assert (Hs : 1 <= s <= 7) by (unfold s; lia).
  replace (Z.log2 n) with (s + 52) in Hl by (unfold s; lia).
  replace (Z.succ (Z.log2 n)) with (s + 53) in Hu by (unfold s; lia).
  clearbody s. clear Hlo Hhi.
  assert (Hcases : s = 1 \/ s = 2 \/ s = 3 \/ s = 4 \/ s = 5 \/ s = 6 \/ s = 7) by lia.
  destruct Hcases as [->|[->|[->|[->|[->|[->| ->]]]]]]; eval_pows;
    match goal with
    | |- context [n / ?p] =>
        pose proof (Z.div_mod n p ltac:(lia)) as Hdm;
        pose proof (Z.mod_pos_bound n p ltac:(lia)) as Hmb
    end;
    repeat match goal with
           | |- context [if ?c then _ else _] => destruct c eqn:?
           end;
    rewrite ?Z.ltb_lt, ?Z.ltb_ge in *; lia.
Qed.

Lemma size_loop_hit u rest v :
  lt_factor v = true -> size_loop (u :: rest) v = Ok (Some (v, u)).
Proof. intros H. cbn [size_loop]. rewrite H. reflexivity. Qed.

Lemma size_loop_float_next u rest m sh :
  1024 * 2 ^ sh <= m ->
  size_loop (u :: rest) (SFloat m sh) = size_loop rest (SFloat m (sh + 10)).
Proof.
  intros H. cbn [size_loop lt_factor]. unfold factor.
  destruct (Z.ltb_spec m (1024 * 2 ^ sh)); [lia|]. reflexivity.
Qed.

Lemma size_loop_int_next u rest b :
  1024 <= b -> rnd53 b < 2 ^ 1034 ->
  size_loop (u :: rest) (SInt b) = size_loop rest (SFloat (rnd53 b) 10).
Proof.
  intros H1 H2. cbn [size_loop lt_factor div_factor res_bind]. unfold factor.
  destruct (Z.ltb_spec b 1024); [lia|].
  destruct (Z.leb_spec (2 ^ 1034) (rnd53 b)); [lia|]. reflexivity.
Qed.

Lemma round_half_even_bounds num den q :
  0 < den -> 0 <= num < q * den ->
  0 <= round_half_even num den <= q.
Proof.
  intros Hd Hn. unfold round_half_even. cbv zeta.
  pose proof (Z.div_mod num den ltac:(lia)) as Hdm.
  pose proof (Z.mod_pos_bound num den Hd) as Hmb.
  assert (0 <= num / den) by (apply Z.div_pos; lia).
  assert (num / den < q) by (apply Z.div_lt_upper_bound; lia).
  repeat match goal with
         | |- context [if ?c then _ else _] => destruct c
         end; lia.
Qed.

Lemma unit_index_mono b1 b2 : b1 <= b2 -> (unit_index b1 <= unit_index b2)%nat.
Proof.
  intros H. unfold unit_index.
  repeat match goal with
         | |- context [?a <? ?b] => destruct (Z.ltb_spec a b)
         end; lia.
Qed.

Lemma rnd53_le_double n : 0 <= n -> 0 <= rnd53 n <= 2 * n.
Proof.
  intros Hn. unfold rnd53. cbv zeta.
  destruct (Z.leb_spec (Z.log2 n + 1) 53) as [|Hb]; [lia|].
  assert (Hpos : 0 < n).
  { destruct (Z.eq_dec n 0) as [->|]; [cbn in Hb; lia|lia]. }
  destruct (Z.log2_spec n Hpos) as [Hl _].
  set (s := Z.log2 n + 1 - 53) in *.
  assert (Hs : 0 < s <= Z.log2 n) by (unfold s; lia).
  assert (Hp : 0 < 2 ^ s) by (apply Z.pow_pos_nonneg; lia).
  assert (Hle : 2 ^ s <= n).
  { transitivity (2 ^ Z.log2 n); [apply Z.pow_le_mono_r; lia|exact Hl]. }
  pose proof (Z.div_mod n (2 ^ s) ltac:(lia)) as Hdm.
  pose proof (Z.mod_pos_bound n (2 ^ s) Hp) as Hmb.
  assert (0 <= n / 2 ^ s) by (apply Z.div_pos; lia).
  repeat match goal with
         | |- context [if ?c then _ else _] => destruct c
         end; nia.
Qed.

Lemma size_loop_float us m sh :
  exists r, size_loop us (SFloat m sh) = Ok r /\
            match r with
            | Some (SInt _, _) => False
            | _ => True
            end.
Proof.
  revert sh. induction us as [|u us IH]; intros sh; cbn [size_loop].
  - exists None. auto.
  - destruct (lt_factor (SFloat m sh)).
    + eexists. split; [reflexivity|exact I].
    + cbn [div_factor res_bind]. apply IH.
Qed.

Lemma get_size_ok z suffix :
  formattable z = true -> exists o, get_size z suffix = Ok o.
Proof.
  unfold formattable. rewrite andb_true_iff, Z.leb_le, Z.ltb_lt. intros [H0 H1].
  pose proof (rnd53_le_double z H0) as Hr.
  unfold get_size, units.
  destruct (Z.ltb_spec z 1024) as [Hlt|Hge].
  - rewrite size_loop_hit by (cbn [lt_factor]; unfold factor; now apply Z.ltb_lt).
    cbn [res_bind format_2f]. rewrite Z.abs_eq by lia.
    rewrite rnd53_small by lia.
    destruct (Z.leb_spec (2 ^ 1024) z); [lia|]. cbn [res_bind]. eauto.
  - rewrite size_loop_int_next by lia.
    destruct (size_loop_float ["K"; "M"; "G"; "T"; "P"] (rnd53 z) 10)
      as (r & -> & Hr').
    cbn [res_bind]. destruct r as [[[|] ?]|]; [contradiction| |]; cbn; eauto.
Qed.

Lemma size_text_ok z : formattable z = true -> exists s, size_text z = Ok s.
Proof.
  intros H. unfold size_text. destruct (get_size_ok z "B" H) as [o ->]. cbn. eauto.
Qed.

Lemma two_digits_length d :
  0 <= d < 100 -> String.length (two_digits d) = 2%nat.
Proof.
  intros H. rewrite <- (Z2Nat.id d) by lia.
  assert (Hn : (Z.to_nat d < 100)%nat) by lia.
  generalize dependent (Z.to_nat d). clear. intros n Hn.
  do 100 (destruct n as [|n]; [reflexivity|]). lia.
Qed.

(** C1 (amended): for byte counts [0 <= b1 <= b2 < 2^60 - 64], [get_size b2]
    returns a text: the loop stops at the unit of index [k = unit_index b2]
    (bytes, K, M, G, T, P), the one with [1024^k <= b2 < 1024^(k+1)]; the
    value it formats there lies in [0, 1024); the text is that value
    rounded to hundredths and printed with two decimals (so the printed
    figure lies in [0, 1024.00]), then the unit and the suffix; and the
    unit index is monotonic: [unit_index b1 <= unit_index b2]. *)
Theorem get_size_in_range (b1 b2 : Z) (suffix : string) :
  0 <= b1 <= b2 -> b2 < 2 ^ 60 - 64 ->
  let k := unit_index b2 in
  let cents := hundredths (scaled b2) in
  size_loop units (SInt b2) = Ok (Some (scaled b2, nth k units "")) /\
  get_size b2 suffix =
    Ok (Some ((str_int (cents / 100) ++ "." ++ two_digits (cents mod 100))
              ++ nth k units "" ++ suffix)) /\
  String.length (two_digits (cents mod 100)) = 2%nat /\
  magnitude_in_range (scaled b2) /\
  0 <= cents <= 102400 /\
  (k <= 5)%nat /\
  (k = 0%nat \/ 1024 ^ Z.of_nat k <= b2) /\
  b2 < 1024 ^ (Z.of_nat k + 1) /\
  (unit_index b1 <= k)%nat.
Proof.
  intros H12 Hhi k cents.
  assert (HR : b2 < 2 ^ 53 /\ rnd53 b2 = b2 \/
               2 ^ 53 <= b2 /\ 2 ^ 53 <= rnd53 b2 < 2 ^ 60).
  { destruct (Z.lt_ge_cases b2 (2 ^ 53)) as [Hs|Hl].
    - left. split; [exact Hs | apply rnd53_small; lia].
    - right. split; [exact Hl | apply rnd53_large; lia]. }
  assert (Hmono : (unit_index b1 <= k)%nat) by (apply unit_index_mono; lia).
  assert (Hloop : size_loop units (SInt b2) = Ok (Some (scaled b2, nth k units ""))
                  /\ magnitude_in_range (scaled b2)
                  /\ (k <= 5)%nat
                  /\ (k = 0%nat \/ 1024 ^ Z.of_nat k <= b2)
                  /\ b2 < 1024 ^ (Z.of_nat k + 1)).
  { unfold scaled, k, unit_index, units.
    repeat match goal with
           | |- context [?a <? ?c] => destruct (Z.ltb_spec a c)
           end;
      cbn [nth Z.of_nat Pos.of_succ_nat Pos.succ Z.mul Pos.mul magnitude_in_range];
      eval_pows.
    all: try (rewrite size_loop_hit
                by (cbn [lt_factor]; unfold factor; apply Z.ltb_lt; lia);
              repeat split; try lia; auto).
    all: rewrite size_loop_int_next by lia.
    all: repeat (first
           [ rewrite size_loop_hit
               by (cbn [lt_factor]; unfold factor; eval_pows; apply Z.ltb_lt; lia)
           | rewrite size_loop_float_next by (eval_pows; lia);
             cbn [Z.add Pos.add Pos.succ Pos.add_carry] ]).
    all: repeat split; try lia; auto. }
  destruct Hloop as (Hl & Hm & Hk & Hlo & Hup).
  assert (Hh : 0 <= cents <= 102400).
  { unfold cents, scaled in *. destruct (unit_index b2) eqn:Hu.
    - cbn [hundredths magnitude_in_range] in *. rewrite Z.abs_eq by lia.
      rewrite rnd53_small by lia. lia.
    - cbn [hundredths]. cbn [magnitude_in_range] in Hm.
      apply round_half_even_bounds; [apply Z.pow_pos_nonneg; lia | lia]. }
  split; [exact Hl|]. split; [|split; [|tauto]].
  - unfold get_size. rewrite Hl. cbn [res_bind].
    change (str_int (cents / 100) ++ "." ++ two_digits (cents mod 100))
      with (render_hundredths (hundredths (scaled b2))).
    unfold scaled in *. destruct (unit_index b2) eqn:Hu.
    + cbn [format_2f res_bind]. cbn [magnitude_in_range] in Hm.
      rewrite Z.abs_eq by lia.
      assert (rnd53 b2 = b2) by (apply rnd53_small; lia).
      destruct (Z.leb_spec (2 ^ 1024) (rnd53 b2)); [lia|].
      destruct (Z.ltb_spec b2 0); [lia|]. reflexivity.
    + reflexivity.
  - apply two_digits_length. apply Z.mod_pos_bound. lia.
Qed.

Lemma get_size_in_range_witness :
  get_size 1536 "B" = Ok (Some "1.50KB") /\ (unit_index 1000 <= unit_index 1536)%nat.
Proof.
  pose proof (get_size_in_range 1000 1536 "B" ltac:(lia) ltac:(lia)) as H.
  cbv zeta in H. destruct H as (_ & Hg & _ & _ & _ & _ & _ & _ & Hm).
  split; [exact Hg | exact Hm].
Defined.

(** C1 as stated fails from one exbibyte on: the loop runs off the end of
    the unit list and the function returns [None]. *)
Lemma get_size_exbibyte_none : get_size (1024 ^ 6) "B" = Ok None.
Proof. vm_compute. reflexivity. Qed.

(** ** Method bodies: appending and returning *)

Lemma grows_ret {A} (a : A) : grows (ret a).
Proof. intros s. exists "". cbn. now rewrite append_nil_r. Qed.

Lemma grows_lift {A} (r : res A) : grows (lift r).
Proof. intros s. exists "". cbn. now rewrite append_nil_r. Qed.

Lemma grows_raise {A} e : grows (@raise A e).
Proof. intros s. exists "". cbn. now rewrite append_nil_r. Qed.

Lemma grows_gets {A} (f : frame -> A) : grows (gets f).
Proof. intros s. exists "". cbn. now rewrite append_nil_r. Qed.

Lemma grows_modify f : (forall s, info (f s) = info s) -> grows (modify f).
Proof. intros H s. exists "". cbn. now rewrite H, append_nil_r. Qed.

Lemma grows_emit t : grows (emit t).
Proof. intros s. exists t. reflexivity. Qed.

Lemma grows_bind {A B} (m : M A) (k : A -> M B) :
  grows m -> (forall a, grows (k a)) -> grows (bind m k).
Proof.
  intros Hm Hk s. unfold bind. destruct (Hm s) as [t Ht].
  destruct (m s) as [[a|e] s']; cbn in *.
  - destruct (Hk a s') as [t' Ht']. exists (t ++ t').
    now rewrite Ht', Ht, append_assoc.
  - now exists t.
Qed.

Lemma grows_try_except body handler :
  grows body -> (forall e, grows (handler e)) -> grows (try_except body handler).
Proof.
  intros Hm Hk s. unfold try_except. destruct (Hm s) as [t Ht].
  destruct (body s) as [[a|e] s']; cbn in *.
  - now exists t.
  - destruct (Hk e s') as [t' Ht']. exists (t ++ t').
    now rewrite Ht', Ht, append_assoc.
Qed.

Lemma grows_try_except_json body handler :
  grows body -> grows handler -> grows (try_except_json body handler).
Proof.
  intros Hm Hk s. unfold try_except_json. destruct (Hm s) as [t Ht].
  destruct (body s) as [[a|e] s']; cbn in *.
  - now exists t.
  - destruct (exn_cls e); cbn.
    + destruct (Hk s') as [t' Ht']. exists (t ++ t').
      now rewrite Ht', Ht, append_assoc.
    + now exists t.
Qed.

Lemma grows_for_each {A} (xs : list A) body :
  (forall x, grows (body x)) -> grows (for_each xs body).
Proof.
  intros H. induction xs as [|x xs IH]; cbn.
  - apply grows_ret.
  - apply grows_bind; [apply H|intros _; exact IH].
Qed.

Lemma grows_for_enumerate {A} start (xs : list A) body :
  (forall i x, grows (body i x)) -> grows (for_enumerate start xs body).
Proof.
  intros H. revert start. induction xs as [|x xs IH]; intros start; cbn.
  - apply grows_ret.
  - apply grows_bind; [apply H|intros _; apply IH].
Qed.

Lemma grows_when c body : grows body -> grows (when c body).
Proof. intros H. destruct c; cbn; [exact H|apply grows_ret]. Qed.

Ltac grows_step :=
  first
    [ apply grows_ret | apply grows_lift | apply grows_raise | apply grows_gets
    | apply grows_emit
    | apply grows_modify; intros; reflexivity
    | apply grows_bind; [|intros]
    | apply grows_try_except_json
    | apply grows_try_except; [|intros]
    | apply grows_for_each; intros
    | apply grows_for_enumerate; intros
    | apply grows_when
    | match goal with
      | |- grows (if ?c then _ else _) => destruct c
      | |- grows (match ?x with _ => _ end) => destruct x
      | |- grows (let (_, _) := ?x in _) => destruct x
      end ].

Ltac grows_tac := cbv zeta; repeat grows_step.

Ltac unfold_locals :=
  unfold pass, set_cpu_name, set_gpu_found, set_temp_found, import_json,
    set_current, set_module_num, emit_size.

Lemma returning_info_header (hd : string) (rest : M unit) (s : string) :
  grows rest ->
  returning_info (emit hd ;; rest) = Ok s -> exists t, s = hd ++ t.
Proof.
  intros Hg. unfold returning_info, bind, emit, modify. cbn.
  destruct (Hg (mkFrame hd "" false false false [] 0)) as [t Ht].
  destruct (rest _) as [[a|e] s']; cbn in *; [|discriminate].
  intros [= <-]. now exists t.
Qed.

(** ** Every collector's text starts with its title *)

Section Headers.
Context {F : Type} {L : PyLib F}.
Variable h : Host F.

Lemma get_components_summary_header s :
  get_components_summary h = Ok s ->
  exists t, s = ("ALL COMPONENTS - QUICK OVERVIEW" ++ nl) ++ t.
Proof.
  apply returning_info_header.
  unfold summary_gpu_windows, summary_ram_windows,
    summary_mobo_windows, summary_storage_windows, summary_ram_module, summary_disk,
    registry_cpu_name.
  unfold_locals. grows_tac.
Qed.

Lemma get_cpu_info_header s :
  get_cpu_info h = Ok s -> exists t, s = ("CPU INFORMATION" ++ nl) ++ t.
Proof.
  apply returning_info_header.
  unfold cpu_details, cpu_name_body, cpu_name_windows, registry_cpu_name.
  unfold_locals. grows_tac.
Qed.

Lemma get_memory_info_header s :
  get_memory_info h = Ok s -> exists t, s = ("MEMORY INFORMATION" ++ nl) ++ t.
Proof.
  apply returning_info_header.
  unfold memory_windows, memory_wmic, memory_wmic_line, memory_module.
  unfold_locals. grows_tac.
Qed.

Lemma get_gpu_info_header s :
  get_gpu_info h = Ok s -> exists t, s = ("GPU INFORMATION" ++ nl) ++ t.
Proof.
  apply returning_info_header.
  unfold gpu_nvidia, gpu_windows, gpu_nvidia_line, gpu_wmic_line.
  unfold_locals. grows_tac.
Qed.

Lemma get_disk_info_header s :
  get_disk_info h = Ok s -> exists t, s = ("STORAGE INFORMATION" ++ nl) ++ t.
Proof.
  apply returning_info_header.
  unfold disk_partition, disk_windows, disk_wmic_line.
  unfold_locals. grows_tac.
Qed.

Lemma get_motherboard_info_header s :
  get_motherboard_info h = Ok s ->
  exists t, s = ("MOTHERBOARD INFORMATION" ++ nl) ++ t.
Proof.
  apply returning_info_header.
  unfold mobo_platform_block, temperature_section, battery_section,
    mobo_windows, mobo_linux, mobo_board_fields, mobo_bios_fields,
    temps_psutil, temps_windows, temp_entry, battery_block.
  unfold_locals. grows_tac.
Qed.

Lemma get_network_info_header s :
  get_network_info h = Ok s -> exists t, s = ("NETWORK INFORMATION" ++ nl) ++ t.
Proof.
  apply returning_info_header.
  unfold network_addr.
  unfold_locals. grows_tac.
Qed.

Lemma get_os_info_header s :
  get_os_info h = Ok s -> exists t, s = ("OPERATING SYSTEM" ++ nl) ++ t.
Proof.
  apply returning_info_header.
  unfold_locals. grows_tac.
Qed.

End Headers.

(** ** Collectors return when their unguarded queries succeed *)

Lemma safe_ret {A} (a : A) : safe (ret a).
Proof. intros s. unfold ret. eauto. Qed.

Lemma safe_gets {A} (f : frame -> A) : safe (gets f).
Proof. intros s. unfold gets. eauto. Qed.

Lemma safe_modify f : safe (modify f).
Proof. intros s. unfold modify. eauto. Qed.

Lemma safe_emit t : safe (emit t).
Proof. apply safe_modify. Qed.

Lemma safe_bind {A B} (m : M A) (k : A -> M B) :
  safe m -> (forall a, safe (k a)) -> safe (bind m k).
Proof.
  intros Hm Hk s. unfold bind. destruct (Hm s) as (a & s' & ->). apply Hk.
Qed.

Lemma safe_bind_lift {A B} (r : res A) (v : A) (k : A -> M B) :
  r = Ok v -> safe (k v) -> safe (bind (lift r) k).
Proof. intros -> Hk s. unfold bind, lift. apply Hk. Qed.

Lemma safe_try_except body handler :
  (forall e, safe (handler e)) -> safe (try_except body handler).
Proof.
  intros Hk s. unfold try_except.
  destruct (body s) as [[a|e] s']; [eauto|apply Hk].
Qed.

Lemma safe_for_each {A} (xs : list A) body :
  (forall x, safe (body x)) -> safe (for_each xs body).
Proof.
  intros H. induction xs as [|x xs IH]; cbn.
  - apply safe_ret.
  - apply safe_bind; [apply H|intros _; exact IH].
Qed.

Lemma safe_for_enumerate {A} start (xs : list A) body :
  (forall i x, safe (body i x)) -> safe (for_enumerate start xs body).
Proof.
  intros H. revert start. induction xs as [|x xs IH]; intros start; cbn.
  - apply safe_ret.
  - apply safe_bind; [apply H|intros _; apply IH].
Qed.

Lemma safe_when c body : (c = true -> safe body) -> safe (when c body).
Proof. intros H. destruct c; cbn; [auto|apply safe_ret]. Qed.

Lemma safe_emit_size before x after :
  formattable x = true -> safe (emit_size before x after).
Proof.
  intros H. unfold emit_size. destruct (size_text_ok x H) as [t Ht].
  eapply safe_bind_lift; [exact Ht|apply safe_emit].
Qed.

Lemma safe_returning_info body :
  safe body -> exists s, returning_info body = Ok s.
Proof.
  intros H. unfold returning_info. destruct (H frame0) as (a & s' & ->). eauto.
Qed.

Ltac safe_step :=
  first
    [ apply safe_ret | apply safe_gets | apply safe_emit | apply safe_modify
    | apply safe_try_except; intros
    | apply safe_emit_size; assumption
    | match goal with
      | H : ?r = Ok _ |- safe (bind (lift ?r) _) => eapply (safe_bind_lift _ _ _ H)
      end
    | apply safe_bind; [|intros]
    | apply safe_for_each; intros
    | apply safe_for_enumerate; intros
    | apply safe_when; intros
    | match goal with
      | |- safe (if ?c then _ else _) => destruct c eqn:?
      | |- safe (match ?x with _ => _ end) => destruct x eqn:?
      end ].

Ltac safe_tac := cbv zeta; repeat safe_step.

Ltac unfold_setters :=
  unfold pass, set_cpu_name, set_gpu_found, set_temp_found, import_json,
    set_current, set_module_num.

Ltac split_ok :=
  repeat match goal with
         | H : _ && _ = true |- _ => apply andb_true_iff in H; destruct H
         | H : is_ok ?r = true |- _ =>
             destruct r eqn:?; cbn [is_ok] in H; [clear H|discriminate H]
         | H : match ?r with _ => _ end = true |- _ =>
             destruct r eqn:?; try discriminate H
         end.

Section Returns.

Context {F : Type} {L : PyLib F}.
Variable h : Host F.

Lemma get_gpu_info_returns : exists s, get_gpu_info h = Ok s.
Proof.
  apply safe_returning_info.
  unfold get_gpu_info_body, gpu_nvidia, gpu_windows. unfold_setters. safe_tac.
Qed.

Lemma get_motherboard_info_returns : exists s, get_motherboard_info h = Ok s.
Proof.
  apply safe_returning_info.
  unfold get_motherboard_info_body, mobo_platform_block, temperature_section,
    battery_section, mobo_windows, mobo_linux, temps_psutil,
    temps_windows, battery_block.
  unfold_setters. safe_tac.
Qed.

Lemma get_cpu_info_returns :
  cpu_queries_ok h = true -> exists s, get_cpu_info h = Ok s.
Proof.
  unfold cpu_queries_ok. intros H. split_ok.
  apply safe_returning_info.
  unfold get_cpu_info_body, cpu_details, cpu_name_body, cpu_name_windows.
  unfold_setters. safe_tac.
Qed.

Lemma get_memory_info_returns :
  memory_queries_ok h = true -> exists s, get_memory_info h = Ok s.
Proof.
  unfold memory_queries_ok. intros H. split_ok.
  apply safe_returning_info.
  unfold get_memory_info_body, memory_windows. unfold_setters. safe_tac.
Qed.

Lemma get_disk_info_returns :
  disk_queries_ok h = true -> exists s, get_disk_info h = Ok s.
Proof.
  unfold disk_queries_ok. intros H. split_ok.
  all: apply safe_returning_info.
  all: unfold get_disk_info_body, disk_partition, disk_windows; unfold_setters; safe_tac.
Qed.

Lemma get_network_info_returns :
  network_queries_ok h = true -> exists s, get_network_info h = Ok s.
Proof.
  unfold network_queries_ok. intros H. split_ok.
  apply safe_returning_info.
  unfold get_network_info_body, network_addr. unfold_setters. safe_tac.
Qed.

Lemma get_os_info_returns :
  os_queries_ok h = true -> exists s, get_os_info h = Ok s.
Proof.
  unfold os_queries_ok. intros H. split_ok.
  apply safe_returning_info.
  unfold get_os_info_body. unfold_setters. safe_tac.
Qed.

Lemma get_components_summary_returns :
  cpu_queries_ok h = true -> memory_queries_ok h = true -> disk_queries_ok h = true ->
  exists s, get_components_summary h = Ok s.
Proof.
  unfold cpu_queries_ok, memory_queries_ok, disk_queries_ok. intros H1 H2 H3. split_ok.
  all: apply safe_returning_info.
  all: unfold get_components_summary_body, summary_gpu_windows, summary_ram_windows,
    summary_mobo_windows, summary_storage_windows; unfold_setters; safe_tac.
Qed.

End Returns.

(** X1: [get_gpu_info] and [get_motherboard_info] make every fallible
    query inside a [try] whose handler cannot raise, so on every host,
    whatever fails, each returns a text block. *)
Theorem gpu_and_motherboard_never_raise {F : Type} {L : PyLib F} (h : Host F) :
  (exists s, get_gpu_info h = Ok s) /\ (exists s, get_motherboard_info h = Ok s).
Proof.
  split; [apply get_gpu_info_returns | apply get_motherboard_info_returns].
Qed.




(** [get_network_info] raises on a host without network interfaces, where
    [psutil.net_io_counters()] is [None]. *)
Example get_network_info_no_interfaces :
  get_network_info
    {| platform_system := "Linux"; platform_release := "";
       platform_processor := ""; platform_machine := "";
       platform_uname := platform_uname linux_box;
       winreg_OpenKey := winreg_OpenKey linux_box;
       winreg_QueryValueEx := winreg_QueryValueEx linux_box;
       winreg_CloseKey := winreg_CloseKey linux_box;
       subprocess_run := no_tools; read_file := read_file linux_box;
       now_strftime := now_strftime linux_box;
       psutil_cpu_count := psutil_cpu_count linux_box;
       psutil_cpu_freq := psutil_cpu_freq linux_box;
       psutil_cpu_percent_percpu := psutil_cpu_percent_percpu linux_box;
       psutil_cpu_percent := psutil_cpu_percent linux_box;
       psutil_virtual_memory := psutil_virtual_memory linux_box;
       psutil_swap_memory := psutil_swap_memory linux_box;
       psutil_disk_partitions := psutil_disk_partitions linux_box;
       psutil_disk_usage := psutil_disk_usage linux_box;
       psutil_disk_io_counters := psutil_disk_io_counters linux_box;
       psutil_sensors_temperatures := psutil_sensors_temperatures linux_box;
       psutil_sensors_battery := psutil_sensors_battery linux_box;
       psutil_net_if_addrs := Ok [];
       psutil_net_io_counters := Ok None;
       psutil_boot_time := psutil_boot_time linux_box |}
  = Raise (AttributeError "'NoneType' object has no attribute 'bytes_sent'").
Proof. vm_compute. reflexivity. Qed.

(** ** The processor name (source lines 392-417) *)

Lemma tool_fails_no_output c : tool_fails (Ok c) = true -> has_output c = false.
Proof.
  cbn. unfold has_output. intros H. apply negb_true_iff in H. now rewrite H.
Qed.

(** Run the monad's operations on the current locals. *)
Ltac run_monad :=
  unfold set_gpu_found, set_temp_found, set_cpu_name, import_json,
    set_current, set_module_num, pass, emit;
  unfold bind, try_except, try_except_json, lift, modify, gets, when,
    ret, raise;
  cbn [fst snd info cpu_name gpu_found temp_found json_bound current module_num
       negb andb orb].


Lemma appends_emit x : appends (emit x) (fun t => t = x).
Proof. intros s. unfold emit, modify. do 2 eexists. repeat split. Qed.

Lemma appends_bind (m1 m2 : M unit) (P Q : string -> Prop) :
  appends m1 P -> appends m2 Q ->
  appends (m1 ;; m2) (fun t => exists t1 t2, t = t1 ++ t2 /\ P t1 /\ Q t2).
Proof.
  intros H1 H2 s. unfold bind.
  destruct (H1 s) as (s1 & t1 & -> & I1 & P1).
  destruct (H2 s1) as (s2 & t2 & -> & I2 & P2).
  exists s2, (t1 ++ t2). split; [reflexivity|]. split.
  - now rewrite I2, I1, append_assoc.
  - eauto.
Qed.

Lemma returning_info_appends m P :
  appends m P -> exists t, returning_info m = Ok t /\ P t.
Proof.
  intros H. unfold returning_info.
  destruct (H frame0) as (s' & t & -> & I & Pt). exists (info s').
  split; [reflexivity|]. now rewrite I.
Qed.

Section ProcessorName.

Context {F : Type} {L : PyLib F}.
Variable h : Host F.

Lemma cpu_name_body_run s :
  cpu_name_body h s =
    (Ok tt, mkFrame (info s) (cpu_name_chain h) (gpu_found s) (temp_found s)
              (json_bound s) (current s) (module_num s)).
Proof.
  unfold cpu_name_chain, cpu_name_body, cpu_name_windows, registry_cpu_name,
    registry_outcome, wmic_outcome, wmic_cpu_argv.
  unfold bind, try_except, lift, set_cpu_name, modify, when, ret. cbn.
  destruct (is_windows h); [|reflexivity].
  destruct (winreg_OpenKey h) as [[]|?]; cbn.
  - destruct (winreg_QueryValueEx h) as [v|?]; cbn.
    + destruct (winreg_CloseKey h) as [[]|?]; cbn; [reflexivity|].
      destruct (subprocess_run h _) as [r|?]; cbn; [|reflexivity].
      destruct (returncode r =? 0); cbn; [|reflexivity].
      destruct (1 <? _); reflexivity.
    + destruct (subprocess_run h _) as [r|?]; cbn; [|reflexivity].
      destruct (returncode r =? 0); cbn; [|reflexivity].
      destruct (1 <? _); reflexivity.
  - destruct (subprocess_run h _) as [r|?]; cbn; [|reflexivity].
    destruct (returncode r =? 0); cbn; [|reflexivity].
    destruct (1 <? _); reflexivity.
Qed.

Lemma cpu_model_name_chain : cpu_model_name h = cpu_name_chain h.
Proof. unfold cpu_model_name. now rewrite cpu_name_body_run. Qed.

Lemma grows_cpu_details : grows (cpu_details h).
Proof. unfold cpu_details, pass. grows_tac. Qed.

Lemma get_cpu_info_processor_line s :
  get_cpu_info h = Ok s ->
  exists t, s = ("CPU INFORMATION" ++ nl) ++ (str_mul "=" 50 ++ nl ++ nl)
                ++ ("Processor: " ++ cpu_model_name h ++ nl) ++ t.
Proof.
  unfold get_cpu_info, returning_info, get_cpu_info_body.
  unfold bind at 1 2 3 4 5. unfold emit at 1 2 3, modify, gets. cbn [fst snd].
  rewrite cpu_name_body_run. cbn [info cpu_name].
  rewrite cpu_model_name_chain.
  match goal with
  | |- context [cpu_details h ?st] =>
      pose proof (grows_cpu_details st) as [t Ht]
  end.
  match goal with
  | |- match ?x with _ => _ end = _ -> _ => destruct x as [[a|e] s'] eqn:E
  end; [|discriminate].
  intros [= <-]. cbn [snd info] in Ht. exists t.
  rewrite Ht. cbn [info]. rewrite !append_assoc. reflexivity.
Qed.

(** C6 (amended): [get_cpu_info] prints as processor name the value
    [cpu_name_chain]: on a non-Windows host [platform.processor()]; on
    Windows the registry value when the registry read does not raise;
    when it raises, WMIC is run, and [platform.processor()] is used
    exactly when the WMIC call itself raises (missing program, timeout);
    when WMIC runs and prints a name that name is used, and when it runs
    and prints none (non-zero exit status, fewer than two lines) the name
    stays what the registry step left, "Unknown CPU" if nothing. *)
Theorem cpu_name_fallback_chain :
  cpu_model_name h = cpu_name_chain h
  /\ forall s, get_cpu_info h = Ok s ->
       exists t, s = ("CPU INFORMATION" ++ nl) ++ (str_mul "=" 50 ++ nl ++ nl)
                     ++ ("Processor: " ++ cpu_name_chain h ++ nl) ++ t.
Proof.
  split; [apply cpu_model_name_chain|].
  intros s Hs. rewrite <- cpu_model_name_chain.
  now apply get_cpu_info_processor_line.
Qed.

End ProcessorName.

(** C6 as stated fails: on a Windows host whose registry read raises and
    whose WMIC exits with status 1, the generic processor string is not
    consulted and the name stays "Unknown CPU". *)
Lemma cpu_name_wmic_exit_status :
  cpu_model_name windows_box = "Unknown CPU"
  /\ cpu_name_by_spec windows_box
     = "Intel64 Family 6 Model 158 Stepping 10, GenuineIntel".
Proof. split; vm_compute; reflexivity. Qed.

(** ** When every external command fails and no sensor answers *)

Section AllFail.

Context {F : Type} {L : PyLib F}.
Variable h : Host F.
Hypothesis Htools : forall argv, tool_fails (subprocess_run h argv) = true.

Lemma run_fails argv :
  (exists e, subprocess_run h argv = Raise e) \/
  (exists c, subprocess_run h argv = Ok c /\ has_output c = false
             /\ (returncode c =? 0) = false).
Proof.
  pose proof (Htools argv) as H. destruct (subprocess_run h argv) as [c|e].
  - right. exists c. split; [reflexivity|]. split.
    + now apply tool_fails_no_output.
    + cbn in H. now apply negb_true_iff in H.
  - left. eauto.
Qed.

Lemma get_gpu_info_all_fail : get_gpu_info h = Ok gpu_unavailable_text.
Proof.
  unfold get_gpu_info, returning_info, get_gpu_info_body, gpu_nvidia, gpu_windows.
  unfold frame0, gpu_unavailable_text.
  run_monad.
  destruct (run_fails ["nvidia-smi";
          "--query-gpu=name,driver_version,temperature.gpu,memory.total,memory.used,memory.free,utilization.gpu";
          "--format=csv,noheader,nounits"]) as [[e ->]|(c & -> & Hc & _)];
    cbn [fst snd info gpu_found negb]; rewrite ?Hc;
    cbn [fst snd info gpu_found negb].
  all: destruct (is_windows h); cbn [fst snd info gpu_found negb].
  all: try reflexivity.
  all: destruct (run_fails ["wmic"; "path"; "win32_videocontroller"; "get";
          "name,driverversion,adapterram"; "/format:list"])
         as [[e' ->]|(c' & -> & Hc' & _)];
    cbn [fst snd info gpu_found negb]; rewrite ?Hc';
    reflexivity.
Qed.


Lemma temperature_section_all_fail :
  is_ok (psutil_sensors_temperatures h) = false ->
  appends (temperature_section h)
    (fun t => contains "Temperature sensors not available." t = true).
Proof.
  intros Hs s. destruct (psutil_sensors_temperatures h) as [?|e] eqn:E;
    [discriminate|].
  unfold temperature_section, temps_psutil, temps_windows. run_monad.
  rewrite E. run_monad.
  destruct (is_windows h); run_monad.
  - destruct (run_fails ["powershell"; "-Command";
        "Get-CimInstance -Namespace root/wmi -ClassName MSAcpi_ThermalZoneTemperature | Select-Object CurrentTemperature | ConvertTo-Json"])
      as [[e' He]|(c & He & Hc & _)]; unfold powershell; rewrite He; run_monad;
      rewrite ?Hc; run_monad.
    all: do 2 eexists; split; [reflexivity|]; cbn [info];
      rewrite !append_assoc; split; [reflexivity|]; vm_compute; reflexivity.
  - do 2 eexists; split; [reflexivity|]; cbn [info].
    rewrite !append_assoc; split; [reflexivity|]; vm_compute; reflexivity.
Qed.

Lemma battery_section_all_fail :
  is_ok (psutil_sensors_battery h) = false ->
  appends (battery_section h)
    (fun t => contains "Battery info unavailable" t = true).
Proof.
  intros Hs s. destruct (psutil_sensors_battery h) as [?|e] eqn:E;
    [discriminate|].
  unfold battery_section, battery_block. run_monad. rewrite E. run_monad.
  do 2 eexists; split; [reflexivity|]; cbn [info].
  rewrite !append_assoc; split; [reflexivity|]; vm_compute; reflexivity.
Qed.

Lemma board_marker_app_l t b : board_marker h t -> board_marker h (t ++ b).
Proof.
  unfold board_marker.
  destruct (is_windows h); [|destruct (is_linux h)].
  - intros [H|H]; [left|right]; now apply contains_app_l.
  - intros H Hf. apply contains_app_l. auto.
  - intros H. now apply contains_app_l.
Qed.

Lemma board_marker_app_r a t : board_marker h t -> board_marker h (a ++ t).
Proof.
  unfold board_marker.
  destruct (is_windows h); [|destruct (is_linux h)].
  - intros [H|H]; [left|right]; now apply contains_app_r.
  - intros H Hf. apply contains_app_r. auto.
  - intros H. now apply contains_app_r.
Qed.

Lemma mobo_platform_block_all_fail :
  appends (mobo_platform_block h) (board_marker h).
Proof.
  intros s.
  unfold mobo_platform_block, board_marker, mobo_windows, mobo_linux.
  destruct (is_windows h).
  - run_monad. unfold powershell.
    destruct (run_fails ["powershell"; "-Command";
        "Get-CimInstance Win32_BaseBoard | Select-Object Manufacturer, Product, Version, SerialNumber | ConvertTo-Json"])
      as [[e He]|(c & He & Hc & _)]; rewrite He; run_monad; rewrite ?Hc; run_monad.
    + do 2 eexists. split; [reflexivity|]. cbn [info]. split; [reflexivity|].
      left. contains_tac.
    + destruct (run_fails ["powershell"; "-Command";
        "Get-CimInstance Win32_BIOS | Select-Object Manufacturer, Name, Version, ReleaseDate | ConvertTo-Json"])
        as [[e' He']|(c' & He' & Hc' & _)]; rewrite He'; run_monad;
        rewrite ?Hc'; run_monad.
      all: do 2 eexists; split; [reflexivity|]; cbn [info];
        rewrite !append_assoc; split; [reflexivity|].
      * left. contains_tac.
      * right. contains_tac.
  - destruct (is_linux h).
    + run_monad. unfold dmi_paths. cbn [forallb].
      destruct (read_file h "/sys/devices/virtual/dmi/id/board_vendor");
        run_monad.
      2: { do 2 eexists. split; [reflexivity|]. cbn [info].
           split; [reflexivity|]. intros _. contains_tac. }
      destruct (read_file h "/sys/devices/virtual/dmi/id/board_name");
        run_monad.
      2: { do 2 eexists. split; [reflexivity|]. cbn [info].
           rewrite !append_assoc.
           split; [reflexivity|]. intros _. contains_tac. }
      destruct (read_file h "/sys/devices/virtual/dmi/id/board_version");
        run_monad.
      2: { do 2 eexists. split; [reflexivity|]. cbn [info].
           rewrite !append_assoc.
           split; [reflexivity|]. intros _. contains_tac. }
      do 2 eexists. split; [reflexivity|]. cbn [info]. rewrite !append_assoc.
      split; [reflexivity|]. cbn. discriminate.
    + run_monad. do 2 eexists. split; [reflexivity|]. cbn [info].
      split; [reflexivity|]. vm_compute. reflexivity.
Qed.

Lemma get_motherboard_info_all_fail :
  is_ok (psutil_sensors_temperatures h) = false ->
  is_ok (psutil_sensors_battery h) = false ->
  exists s, get_motherboard_info h = Ok s
            /\ prefixb ("MOTHERBOARD INFORMATION" ++ nl) s = true
            /\ board_marker h s
            /\ contains "Temperature sensors not available." s = true
            /\ contains "Battery info unavailable" s = true.
Proof.
  intros Ht Hb.
  pose proof (appends_bind _ _ _ _ (appends_emit ("MOTHERBOARD INFORMATION" ++ nl))
    (appends_bind _ _ _ _ (appends_emit (str_mul "=" 50 ++ nl ++ nl))
      (appends_bind _ _ _ _ mobo_platform_block_all_fail
        (appends_bind _ _ _ _ (temperature_section_all_fail Ht)
          (battery_section_all_fail Hb))))) as H.
  apply returning_info_appends in H.
  destruct H as (s & Hs & a & r1 & -> & -> & b & r2 & -> & -> & t1 & r3 & ->
                 & M1 & t2 & t3 & -> & M2 & M3).
  exists (("MOTHERBOARD INFORMATION" ++ nl)
          ++ (str_mul "=" 50 ++ nl ++ nl) ++ t1 ++ t2 ++ t3).
  split; [exact Hs|]. split; [apply prefixb_app|]. split; [|split].
  - do 2 apply board_marker_app_r. now apply board_marker_app_l.
  - do 3 apply contains_app_r. now apply contains_app_l.
  - do 4 apply contains_app_r. exact M3.
Qed.

Lemma get_cpu_info_all_fail :
  cpu_queries_ok h = true ->
  exists s, get_cpu_info h = Ok s
            /\ prefixb ("CPU INFORMATION" ++ nl) s = true
            /\ contains ("Processor: " ++ cpu_model_name h ++ nl) s = true.
Proof.
  intros Hq. destruct (get_cpu_info_returns h Hq) as [s Hs].
  exists s. split; [exact Hs|].
  destruct (get_cpu_info_processor_line h s Hs) as [t ->].
  split.
  - apply prefixb_app.
  - do 2 apply contains_app_r. apply contains_app_l.
    rewrite <- (append_nil_r ("Processor: " ++ cpu_model_name h ++ nl)) at 2.
    apply contains_here.
Qed.

Lemma cpu_model_name_all_fail : cpu_model_name h = cpu_name_without_wmic h.
Proof.
  rewrite cpu_model_name_chain. unfold cpu_name_chain, cpu_name_without_wmic.
  destruct (is_windows h); [|reflexivity].
  destruct (registry_outcome h) as [name [|]]; [|reflexivity].
  destruct (run_fails wmic_cpu_argv) as [[e ->]|(c & -> & _ & Hc)]; [reflexivity|].
  unfold wmic_outcome. now rewrite Hc.
Qed.

End AllFail.




(** ** The window: tabs *)

Lemma dict_get_none_not_in {V} k (d : list (string * V)) :
  ~ In k (map fst d) -> dict_get k d = None.
Proof.
  induction d as [|[k' v] d IH]; cbn; [reflexivity|].
  intros H. destruct (String.eqb_spec k k') as [->|Hne].
  - exfalso. apply H. now left.
  - apply IH. intros Hin. apply H. now right.
Qed.

Lemma dict_get_in {V} k (d : list (string * V)) :
  In k (map fst d) -> exists v, dict_get k d = Some v.
Proof.
  induction d as [|[k' v] d IH]; cbn; [tauto|].
  intros [->|Hin].
  - rewrite String.eqb_refl. eauto.
  - destruct (String.eqb k k'); eauto.
Qed.

Lemma dict_set_keys {V} k (v : V) d :
  In k (map fst d) -> map fst (dict_set k v d) = map fst d.
Proof.
  induction d as [|[k' v'] d IH]; cbn; [tauto|].
  intros Hin. destruct (String.eqb_spec k k') as [->|Hne]; cbn.
  - reflexivity.
  - f_equal. apply IH. destruct Hin; [congruence|assumption].
Qed.

Lemma dict_get_set_same {V} k (v : V) d : dict_get k (dict_set k v d) = Some v.
Proof.
  induction d as [|[k' v'] d IH]; cbn.
  - now rewrite String.eqb_refl.
  - destruct (String.eqb_spec k k') as [->|Hne]; cbn.
    + now rewrite String.eqb_refl.
    + destruct (String.eqb_spec k k'); [contradiction|]. exact IH.
Qed.

Lemma dict_get_set_other {V} k k' (v : V) d :
  k' <> k -> dict_get k' (dict_set k v d) = dict_get k' d.
Proof.
  intros Hne. induction d as [|[k0 v0] d IH]; cbn.
  - destruct (String.eqb_spec k' k); [contradiction|reflexivity].
  - destruct (String.eqb_spec k k0) as [->|Hk]; cbn.
    + destruct (String.eqb_spec k' k0); [contradiction|reflexivity].
    + destruct (String.eqb k' k0); [reflexivity|exact IH].
Qed.

Lemma dict_get_map_snd {V W} (f : V -> W) k (d : list (string * V)) :
  dict_get k (map (fun kv => (fst kv, f (snd kv))) d) = option_map f (dict_get k d).
Proof.
  induction d as [|[k' v] d IH]; cbn; [reflexivity|].
  destruct (String.eqb k k'); [reflexivity|exact IH].
Qed.

Section RunFacts.
Context {F : Type} {L : PyLib F}.

Lemma update_tab_names n c g : slot_names (update_tab n c g) = slot_names g.
Proof.
  unfold update_tab, slot_names.
  destruct (dict_get n (text_widgets g)) eqn:H; [|reflexivity].
  cbn. apply dict_set_keys.
  destruct (in_dec string_dec n (map fst (text_widgets g))) as [Hin|Hn]; [exact Hin|].
  rewrite dict_get_none_not_in in H by exact Hn. discriminate.
Qed.

Lemma run_callback_names cb g : slot_names (run_callback cb g) = slot_names g.
Proof. destruct cb; cbn; try reflexivity. apply update_tab_names. Qed.

Lemma start_scan_names g : slot_names (start_scan g) = slot_names g.
Proof. unfold start_scan, slot_names. cbn. rewrite map_map. reflexivity. Qed.

Lemma export_names now fault g fs :
  text_widgets (fst (export_to_text now fault g fs)) = text_widgets g.
Proof.
  unfold export_to_text. destruct fault; reflexivity.
Qed.

Lemma step_names (w : world) (ev : event F) :
  slot_names (gui (step w ev)) = slot_names (gui w).
Proof.
  destruct ev; cbn.
  - destruct (scan_button (gui w)); [apply start_scan_names|reflexivity].
  - pose proof (export_names now fault (gui w) (disk w)) as H.
    destruct (export_to_text now fault (gui w) (disk w)); cbn in *.
    unfold slot_names. now rewrite H.
  - destruct (nth_error _ _) as [[|]|]; reflexivity.
  - destruct (nth_error _ _) as [[|[|]]|]; reflexivity.
  - destruct (after_queue (gui w)); [reflexivity|].
    cbn. rewrite run_callback_names. reflexivity.
Qed.

Lemma run_snoc fs (evs : list (event F)) ev :
  run fs (evs ++ [ev]) = step (run fs evs) ev.
Proof. unfold run. rewrite fold_left_app. reflexivity. Qed.

Lemma run_names fs (evs : list (event F)) :
  slot_names (gui (run fs evs)) = tab_names.
Proof.
  induction evs as [|ev evs IH] using rev_ind; [reflexivity|].
  rewrite run_snoc, step_names. exact IH.
Qed.

(** C10: for a name that is not one of the nine tabs, [update_tab] leaves
    the window as it is, whatever the content and whatever happened
    before: no tab changes and none is created. *)
Theorem update_tab_unknown_name fs (evs : list (event F)) name content :
  ~ In name tab_names ->
  update_tab name content (gui (run fs evs)) = gui (run fs evs).
Proof.
  intros Hn. unfold update_tab.
  rewrite dict_get_none_not_in; [reflexivity|].
  change (map fst (text_widgets (gui (run fs evs)))) with (slot_names (gui (run fs evs))).
  now rewrite run_names.
Qed.

End RunFacts.

Lemma update_tab_unknown_name_witness :
  update_tab "Disk" "text" (gui (run (L:=toy_lib) [] trace_to_done))
  = gui (run (L:=toy_lib) [] trace_to_done).
Proof.
  apply (update_tab_unknown_name (L:=toy_lib) [] trace_to_done "Disk" "text").
  cbn. intuition discriminate.
Defined.

(** ** The window: scan sessions *)

Lemma delivering_nonempty g q : delivering g q -> q <> [].
Proof. intros [todo _ _| |]; try discriminate. now destruct (update_calls todo). Qed.

Lemma delivering_ext g g' q :
  text_widgets g' = text_widgets g -> delivering g q -> delivering g' q.
Proof.
  intros He [todo H1 H2| |]; constructor; auto.
  intros n Hn. destruct (H2 n Hn) as [|Hf]; [now left|right].
  unfold slot_filled, slot_text in *. now rewrite He.
Qed.

Lemma slot_text_update_same n c g :
  In n (slot_names g) -> slot_text n (update_tab n c g) = Some c.
Proof.
  intros Hin. unfold slot_text, update_tab.
  destruct (dict_get_in n (text_widgets g) Hin) as [w ->]. cbn.
  rewrite dict_get_set_same. cbn. now rewrite append_nil_r.
Qed.

Lemma slot_text_update_other n m c g :
  m <> n -> slot_text m (update_tab n c g) = slot_text m g.
Proof.
  intros Hne. unfold slot_text, update_tab.
  destruct (dict_get n (text_widgets g)); [|reflexivity]. cbn.
  now rewrite dict_get_set_other.
Qed.

Lemma delivering_update n c rest g :
  slot_names g = tab_names ->
  delivering g (CallUpdateTab n c :: rest) ->
  delivering (update_tab n c g) rest.
Proof.
  intros Hnames H. inversion H as [todo H1 H2 Heq| |]; subst.
  destruct todo as [|[n0 c0] todo]; cbn in Heq; [discriminate|].
  injection Heq as -> -> <-.
  constructor.
  - intros n' c' Hin. apply H1. now right.
  - intros m Hm. destruct (string_dec m n) as [->|Hne].
    + right. exists c. split.
      * apply slot_text_update_same. rewrite Hnames. exact Hm.
      * apply (H1 n c). now left.
    + destruct (H2 m Hm) as [[Heq|Hin]|Hf].
      * cbn in Heq. congruence.
      * now left.
      * right. destruct Hf as (t & Ht & Hne'). exists t.
        split; [|exact Hne']. now rewrite slot_text_update_other.
Qed.

Section Inv.
Context {F : Type} {L : PyLib F}.

Lemma header_nonempty (hd t s : string) :
  s = (hd ++ nl) ++ t -> s <> "".
Proof. intros ->. destruct hd; discriminate. Qed.

Lemma scan_system_delivering (h : Host F) g :
  slot_names g = tab_names -> delivering g (scan_system h).
Proof.
  intros Hn. unfold scan_system.
  destruct (scan_texts h) as [[[[[[[[[s1 s2] s3] s4] s5] s6] s7] s8] s9]|e] eqn:Hs;
    [|constructor].
  unfold scan_texts in Hs.
  destruct (get_os_info h) eqn:E1; [|discriminate]; cbn [res_bind] in Hs.
  destruct (get_cpu_info h) eqn:E2; [|discriminate]; cbn [res_bind] in Hs.
  destruct (get_memory_info h) eqn:E3; [|discriminate]; cbn [res_bind] in Hs.
  destruct (get_gpu_info h) eqn:E4; [|discriminate]; cbn [res_bind] in Hs.
  destruct (get_disk_info h) eqn:E5; [|discriminate]; cbn [res_bind] in Hs.
  destruct (get_motherboard_info h) eqn:E6; [|discriminate]; cbn [res_bind] in Hs.
  destruct (get_network_info h) eqn:E7; [|discriminate]; cbn [res_bind] in Hs.
  destruct (get_components_summary h) eqn:E8; [|discriminate]; cbn [res_bind] in Hs.
  destruct (psutil_cpu_count h false); [|discriminate]; cbn [res_bind] in Hs.
  destruct (psutil_cpu_count h true); [|discriminate]; cbn [res_bind] in Hs.
  destruct (psutil_virtual_memory h); [|discriminate]; cbn [res_bind] in Hs.
  destruct (size_text _); [|discriminate]; cbn [res_bind] in Hs.
  destruct (psutil_disk_partitions h); [|discriminate]; cbn [res_bind] in Hs.
  injection Hs as <- <- <- <- <- <- <- <- <-.
  apply get_os_info_header in E1. apply get_cpu_info_header in E2.
  apply get_memory_info_header in E3. apply get_gpu_info_header in E4.
  apply get_disk_info_header in E5. apply get_motherboard_info_header in E6.
  apply get_network_info_header in E7. apply get_components_summary_header in E8.
  destruct E1 as [? E1], E2 as [? E2], E3 as [? E3], E4 as [? E4], E5 as [? E5],
    E6 as [? E6], E7 as [? E7], E8 as [? E8].
  apply header_nonempty in E1, E2, E3, E4, E5, E6, E7, E8.
  match goal with
  | |- delivering _ [CallUpdateTab ?n1 ?c1; CallUpdateTab ?n2 ?c2;
                     CallUpdateTab ?n3 ?c3; CallUpdateTab ?n4 ?c4;
                     CallUpdateTab ?n5 ?c5; CallUpdateTab ?n6 ?c6;
                     CallUpdateTab ?n7 ?c7; CallUpdateTab ?n8 ?c8;
                     CallUpdateTab ?n9 ?c9; CallScanComplete] =>
      apply (deliver_updates g [(n1, c1); (n2, c2); (n3, c3); (n4, c4); (n5, c5);
                                (n6, c6); (n7, c7); (n8, c8); (n9, c9)])
  end.
  - intros n c Hin. cbn in Hin.
    repeat (destruct Hin as [Hin|Hin];
            [injection Hin as <- <-; split;
             [cbn; tauto | first [assumption | discriminate]]|]).
    contradiction.
  - intros n Hin. left. exact Hin.
Qed.

Lemma step_session (w : world) (ev : event F) :
  slot_names (gui w) = tab_names -> session (gui w) -> session (gui (step w ev)).
Proof.
  intros Hn Hs. destruct ev as [|now fault|i h|i|]; cbn [step].
  - (* ClickScan *)
    destruct Hs as [Hb Ht Hq|Hb Ht Hq|p Hb Ht Hp Hd|Hb Ht Hd];
      rewrite Hb; cbn [gui]; try (econstructor; eassumption).
    apply session_scanning; cbn; [reflexivity|now rewrite Ht|exact Hq].
  - (* ClickExport *)
    pose proof (export_names now fault (gui w) (disk w)) as He.
    assert (Hsame : scan_button (fst (export_to_text now fault (gui w) (disk w)))
                    = scan_button (gui w)
                    /\ threads (fst (export_to_text now fault (gui w) (disk w)))
                       = threads (gui w)
                    /\ after_queue (fst (export_to_text now fault (gui w) (disk w)))
                       = after_queue (gui w)).
    { unfold export_to_text. destruct fault; cbv beta zeta; auto. }
    destruct (export_to_text now fault (gui w) (disk w)) as [g' fs']. cbn in *.
    destruct Hsame as (Eb & Et & Eq).
    destruct Hs as [Hb Ht Hq|Hb Ht Hq|p Hb Ht Hp Hd|Hb Ht Hd].
    + apply session_idle; congruence.
    + apply session_scanning; congruence.
    + apply (session_posting g' p); try congruence.
      rewrite Eq. now apply (delivering_ext (gui w)).
    + apply session_draining; try congruence.
      rewrite Eq. now apply (delivering_ext (gui w)).
  - (* ThreadScans *)
    destruct Hs as [Hb Ht Hq|Hb Ht Hq|p Hb Ht Hp Hd|Hb Ht Hd]; rewrite Ht.
    + destruct i; cbn; now apply session_idle.
    + destruct i as [|i]; cbn [nth_error].
      * cbn. apply (session_posting _ (scan_system h)); cbn.
        -- exact Hb.
        -- reflexivity.
        -- apply delivering_nonempty with (g := gui w).
           now apply scan_system_delivering.
        -- rewrite Hq. cbn. apply (delivering_ext (gui w)); [reflexivity|].
           now apply scan_system_delivering.
      * destruct i; cbn; now apply session_scanning.
    + destruct i as [|i]; cbn [nth_error].
      * now apply (session_posting _ p).
      * destruct i; cbn; now apply (session_posting _ p).
    + destruct i; cbn; now apply session_draining.
  - (* ThreadPosts *)
    destruct Hs as [Hb Ht Hq|Hb Ht Hq|p Hb Ht Hp Hd|Hb Ht Hd]; rewrite Ht.
    + destruct i; cbn; now apply session_idle.
    + destruct i as [|i]; cbn [nth_error].
      * now apply session_scanning.
      * destruct i; cbn; now apply session_scanning.
    + destruct i as [|i]; cbn [nth_error].
      * destruct p as [|cb rest]; [contradiction|].
        destruct rest as [|cb' rest]; cbn.
        -- apply session_draining; cbn.
           ++ exact Hb.
           ++ rewrite ?Ht; reflexivity.
           ++ apply (delivering_ext (gui w)); [reflexivity|exact Hd].
        -- apply (session_posting _ (cb' :: rest)); cbn.
           ++ exact Hb.
           ++ rewrite ?Ht; reflexivity.
           ++ discriminate.
           ++ rewrite <- app_assoc. cbn.
              apply (delivering_ext (gui w)); [reflexivity|exact Hd].
      * destruct i; cbn; now apply (session_posting _ p).
    + destruct i; cbn; now apply session_draining.
  - (* MainloopIdle *)
    destruct (after_queue (gui w)) as [|cb rest] eqn:Hq; [exact Hs|]. cbn [gui].
    assert (Hn' : slot_names (set_after_queue rest (gui w)) = tab_names) by exact Hn.
    destruct Hs as [Hb Ht Hq'|Hb Ht Hq'|p Hb Ht Hp Hd|Hb Ht Hd]; try congruence.
    + (* posting *)
      rewrite Hq in Hd. cbn in Hd.
      assert (Hd0 := Hd).
      remember (cb :: rest ++ p) as q eqn:Heq.
      destruct Hd as [todo H1 H2| text |].
      * destruct todo as [|[n c] todo]; cbn in Heq.
        -- injection Heq as <- Hr. symmetry in Hr. apply app_eq_nil in Hr.
           destruct Hr. contradiction.
        -- injection Heq as <- Hr. cbn [run_callback].
           apply (session_posting _ p); auto.
           ++ unfold update_tab. cbn. now destruct (dict_get n _).
           ++ unfold update_tab. cbn. now destruct (dict_get n _).
           ++ replace (after_queue (update_tab n c (set_after_queue rest (gui w))))
                with rest by (unfold update_tab; cbn; now destruct (dict_get n _)).
              apply delivering_update; [exact Hn'|].
              apply (delivering_ext (gui w)); [reflexivity|].
              rewrite <- Hr. exact Hd0.
      * injection Heq as <- Hr. cbn [run_callback].
        apply (session_posting _ p); auto. cbn.
        rewrite <- Hr. apply deliver_enable.
      * injection Heq as <- Hr. symmetry in Hr. apply app_eq_nil in Hr.
        destruct Hr. contradiction.
    + (* draining *)
      rewrite Hq in Hd.
      assert (Hd0 := Hd).
      remember (cb :: rest) as q eqn:Heq.
      destruct Hd as [todo H1 H2| text |].
      * destruct todo as [|[n c] todo]; cbn in Heq.
        -- injection Heq as <- <-. cbn. now apply session_idle.
        -- injection Heq as <- Hr. cbn [run_callback].
           apply session_draining.
           ++ unfold update_tab. cbn. now destruct (dict_get n _).
           ++ unfold update_tab. cbn. now destruct (dict_get n _).
           ++ replace (after_queue (update_tab n c (set_after_queue rest (gui w))))
                with rest by (unfold update_tab; cbn; now destruct (dict_get n _)).
              apply delivering_update; [exact Hn'|].
              apply (delivering_ext (gui w)); [reflexivity|].
              rewrite <- Hr. exact Hd0.
      * injection Heq as <- <-. cbn. apply session_draining; auto.
        cbn. apply deliver_enable.
      * injection Heq as <- <-. cbn. now apply session_idle.
Qed.

Lemma run_session fs (evs : list (event F)) : session (gui (run fs evs)).
Proof.
  induction evs as [|ev evs IH] using rev_ind.
  - now apply session_idle.
  - rewrite run_snoc. apply step_session; [apply run_names|exact IH].
Qed.

End Inv.

(** ** The report file *)

Lemma written_app a b : written (a ++ b) = written a ++ written b.
Proof.
  induction a as [|x a IH]; cbn [written app]; [reflexivity|].
  now rewrite IH, append_assoc.
Qed.

Lemma written_export g : written (export_writes g) = report (slot_contents g).
Proof.
  unfold export_writes, slot_contents.
  induction (text_widgets g) as [|[n w] l IH]; [reflexivity|].
  cbn [flat_map map]. rewrite written_app, IH.
  cbn [report]. f_equal.
  unfold report_section, report_header, export_section, get_all. cbn [written fst snd].
  rewrite append_nil_r, !append_assoc. reflexivity.
Qed.

Lemma report_app a b : report (a ++ b) = report a ++ report b.
Proof.
  induction a as [|x a IH]; cbn [report app]; [reflexivity|].
  now rewrite IH, append_assoc.
Qed.

Lemma header_core_head label :
  header_core label
  = String "=" (str_mul "=" 59 ++ nl ++ upper label ++ nl ++ str_mul "=" 60).
Proof. reflexivity. Qed.

Lemma delimiter_newlines label :
  nl ++ nl ++ report_header label
  = newlines 3 (header_core label ++ nl ++ nl).
Proof.
  unfold report_header, header_core. rewrite !append_assoc. reflexivity.
Qed.

Lemma split_at_header label text after :
  lines_nonempty (header_core label) = true ->
  contains (header_core label) text = false ->
  split_at (nl ++ nl ++ report_header label)
    (text ++ (nl ++ nl ++ report_header label) ++ after)
  = Some (text, after).
Proof.
  rewrite delimiter_newlines, header_core_head. intros Hk Hc.
  now apply split_at_delimiter.
Qed.

Lemma read_last text : read_bodies [] (text ++ nl ++ nl) = Some [text].
Proof.
  cbn [read_bodies]. cbv zeta. rewrite length_append.
  cbn [String.length nl append].
  replace (String.length text + 2 - 2)%nat with (String.length text) by lia.
  rewrite drop_app, substring_app.
  replace (2 <=? String.length text + 2)%nat with true
    by (symmetry; apply Nat.leb_le; lia).
  reflexivity.
Qed.

Lemma read_bodies_report (slots : list (string * string)) text :
  Forall (fun label => lines_nonempty (header_core label) = true)
    (map fst slots) ->
  Forall (fun t => no_header_inside (map fst slots) t = true)
    (text :: map snd slots) ->
  read_bodies (map fst slots) (text ++ nl ++ nl ++ report slots)
  = Some (text :: map snd slots).
Proof.
  revert text. induction slots as [|[label t] slots IH]; intros text Hl Hn.
  - cbn [map report]. rewrite append_nil_r. apply read_last.
  - cbn [map fst snd report read_bodies] in *.
    inversion Hl as [|? ? Hl1 Hl2]; subst.
    replace (text ++ nl ++ nl ++ report_section (label, t) ++ report slots)
      with (text ++ (nl ++ nl ++ report_header label)
                 ++ (t ++ nl ++ nl ++ report slots))
      by (unfold report_section; cbn [fst snd]; rewrite !append_assoc;
          reflexivity).
    rewrite split_at_header; [|exact Hl1|].
    + rewrite IH; [reflexivity|exact Hl2|].
      inversion Hn as [|? ? _ Hn']; subst.
      eapply Forall_impl; [|exact Hn'].
      intros x Hx. cbn [no_header_inside forallb] in Hx.
      apply andb_true_iff in Hx. apply Hx.
    + inversion Hn as [|? ? Hn1 _]; subst.
      cbn [no_header_inside forallb] in Hn1.
      apply andb_true_iff in Hn1. destruct Hn1 as [Hn1 _].
      now apply negb_true_iff in Hn1.
Qed.

(** The reader undoes the writer on texts that hold no marking lines. *)
Lemma read_report_report (slots : list (string * string)) :
  Forall (fun label => lines_nonempty (header_core label) = true)
    (map fst slots) ->
  Forall (fun t => no_header_inside (map fst slots) t = true)
    (map snd slots) ->
  read_report (map fst slots) (report slots) = Some (map snd slots).
Proof.
  destruct slots as [|[label t] slots]; intros Hl Hn; [reflexivity|].
  cbn [map fst snd report read_report] in *. unfold report_section.
  cbn [fst snd].
  rewrite append_assoc, prefixb_app, drop_app.
  inversion Hl as [|? ? _ Hl2]; subst.
  replace ((t ++ nl ++ nl) ++ report slots) with (t ++ nl ++ nl ++ report slots)
    by (rewrite !append_assoc; reflexivity).
  apply read_bodies_report; [exact Hl2|].
  eapply Forall_impl; [|exact Hn].
  intros x Hx. cbn [no_header_inside forallb] in Hx.
  apply andb_true_iff in Hx. apply Hx.
Qed.

Lemma tab_names_lines :
  Forall (fun label => lines_nonempty (header_core label) = true) tab_names.
Proof. repeat constructor. Qed.

Section E.
Context {F : Type} {L : PyLib F}.

Lemma slot_contents_names g : map fst (slot_contents g) = slot_names g.
Proof. unfold slot_contents, slot_names. rewrite map_map. reflexivity. Qed.



End E.




(** C8: an export never changes the tabs; when one of its file operations
    raises, the status line becomes "Export failed: " followed by the
    exception's message, in red (and "Exported to <file>" in green
    otherwise). *)
Theorem export_failure_status now fault g fs :
  let r := export_to_text now fault g fs in
  text_widgets (fst r) = text_widgets g
  /\ status_label (fst r) =
       match export_raises fault g with
       | Some e => ("Export failed: " ++ exn_msg e, "red")
       | None => ("Exported to " ++ export_filename now, "green")
       end.
Proof.
  unfold export_to_text, export_raises, export_filename.
  destruct fault as [|e|accepted e]; cbv zeta; cbn [fst]; split; reflexivity.
Qed.

(** A failure after the system accepted a hundred characters leaves
    these in the file: the section of the first tab (134 characters) is
    cut short. *)
Example export_write_fails :
  export_to_text "20240101_120000"
    (WriteFails 100 (mkExn OtherError "[Errno 28] No space left on device"))
    init_gui []
  = (set_status_label "Export failed: [Errno 28] No space left on device"
       "red" init_gui,
     [("system_info_20240101_120000.txt",
       substring 0 100 (report [("Summary", "")]))])
  /\ String.length (report [("Summary", "")]) = 134%nat.
Proof. split; vm_compute; reflexivity. Qed.

(** ** The session theorems *)

Section Final.
Context {F : Type} {L : PyLib F}.

(** C9: after any sequence of clicks, thread steps and main-loop turns, at
    most one scan thread exists; the scan button is enabled exactly when
    no thread exists and no queued call is pending, so it is disabled for
    the whole of a running session; a click on the disabled button leaves
    the program unchanged (it starts no second session); and the only
    event that re-enables the button is the main loop running
    [scan_complete] (Done) or the error path's button call (Failed). *)
Theorem one_scan_session fs (evs : list (event F)) :
  let w := run fs evs in
  (List.length (threads (gui w)) <= 1)%nat
  /\ (scan_button (gui w) = NORMAL <->
      threads (gui w) = [] /\ after_queue (gui w) = [])
  /\ (scan_button (gui w) = DISABLED -> step w ClickScan = w)
  /\ (forall ev,
        scan_button (gui w) = DISABLED ->
        scan_button (gui (step w ev)) = NORMAL ->
        ev = MainloopIdle
        /\ exists rest,
             after_queue (gui w) = CallScanComplete :: rest
             \/ after_queue (gui w) = CallButtonConfig NORMAL :: rest).
Proof.
  intros w. pose proof (run_session fs evs) as Hs. fold w in Hs.
  split; [|split; [|split]].
  - destruct Hs as [Hb Ht Hq|Hb Ht Hq|p Hb Ht Hp Hd|Hb Ht Hd]; rewrite Ht; cbn; lia.
  - destruct Hs as [Hb Ht Hq|Hb Ht Hq|p Hb Ht Hp Hd|Hb Ht Hd]; rewrite Hb, Ht.
    + now rewrite Hq.
    + split; [discriminate|intros [? _]; discriminate].
    + split; [discriminate|intros [? _]; discriminate].
    + apply delivering_nonempty in Hd.
      split; [discriminate|intros [_ ?]; contradiction].
  - intros Hb. cbn. now rewrite Hb.
  - intros ev Hb Hn. destruct ev as [|now fault|i h|i|]; cbn [step] in Hn.
    + rewrite Hb in Hn. congruence.
    + exfalso. revert Hn. unfold export_to_text.
      destruct fault; cbv zeta; cbn; congruence.
    + exfalso. destruct (nth_error _ _) as [[|]|]; cbn in Hn; congruence.
    + exfalso. destruct (nth_error _ _) as [[|[|]]|]; cbn in Hn; congruence.
    + split; [reflexivity|].
      destruct (after_queue (gui w)) as [|cb rest]; [congruence|].
      exists rest. destruct cb as [n c| | |st]; cbn in Hn.
      * exfalso. unfold update_tab in Hn.
        destruct (dict_get n _); cbn in Hn; congruence.
      * now left.
      * congruence.
      * right. now subst.
Qed.

(** C3: whenever the main loop runs [scan_complete] (the session reaches
    Done), each of the nine tabs then holds non-empty text, the status
    reads "Scan complete!" and the button is enabled again. *)
Theorem slots_filled_when_done fs (evs : list (event F)) rest :
  after_queue (gui (run fs evs)) = CallScanComplete :: rest ->
  let w' := step (run fs evs) MainloopIdle in
  Forall (fun name => slot_filled name (gui w')) tab_names
  /\ status_label (gui w') = ("Scan complete!", "green")
  /\ scan_button (gui w') = NORMAL.
Proof.
  intros Hq w'. pose proof (run_session fs evs) as Hs.
  assert (Hfilled : forall n, In n tab_names -> slot_filled n (gui (run fs evs))).
  { assert (Hd : exists q, delivering (gui (run fs evs)) (CallScanComplete :: q)).
    { destruct Hs as [Hb Ht Hq'|Hb Ht Hq'|p Hb Ht Hp Hd|Hb Ht Hd];
        try congruence; rewrite Hq in Hd; cbn in Hd; eauto. }
    destruct Hd as [q Hd].
    remember (CallScanComplete :: q) as l eqn:El.
    destruct Hd as [todo H1 H2| |]; try discriminate.
    destruct todo as [|[? ?] ?]; [|discriminate].
    intros n Hn. destruct (H2 n Hn) as [[]|Hf]. exact Hf. }
  unfold w'. cbn [step]. rewrite Hq. cbn.
  split; [|split; reflexivity].
  apply Forall_forall. intros n Hn. apply Hfilled in Hn.
  exact Hn.
Qed.

End Final.

Lemma slots_filled_when_done_witness :
  Forall (fun name =>
            slot_filled name
              (gui (step (L:=toy_lib)
                     (run (L:=toy_lib) [] trace_to_done) MainloopIdle)))
    tab_names.
Proof.
  exact (proj1 (slots_filled_when_done (L:=toy_lib) [] trace_to_done []
                  ltac:(vm_compute; reflexivity))).
Defined.

(** A click while the scan thread runs changes nothing. *)
Example click_while_scanning :
  run (L:=toy_lib) [] [ClickScan; ClickScan; ThreadScans 0 linux_box; ClickScan]
  = run (L:=toy_lib) [] [ClickScan; ThreadScans 0 linux_box].
Proof. vm_compute. reflexivity. Qed.

(** A scan that fails re-enables the button and shows the error. *)
Example failed_scan :
  let g := gui (run (L:=toy_lib) []
                  [ClickScan; ThreadScans 0 linux_box_no_cpu_freq;
                   ThreadPosts 0; ThreadPosts 0; MainloopIdle; MainloopIdle]) in
  scan_button g = NORMAL
  /\ status_label g
     = ("Error during scan: can't find current frequency file", "red")
  /\ threads g = [] /\ after_queue g = [].
Proof. vm_compute. repeat split. Qed.

(** * Further properties of the code *)

(** ** [get_size] outside its range *)

Lemma rnd53_lower n : 2 ^ 53 <= n -> 2 ^ Z.log2 n <= rnd53 n.
Proof.
  intros Hn. unfold rnd53. cbv zeta.
  assert (Hlo : 53 <= Z.log2 n) by (apply Z.log2_le_pow2; lia).
  destruct (Z.log2_spec n ltac:(lia)) as [Hl _].
  destruct (Z.leb_spec (Z.log2 n + 1) 53) as [?|_]; [lia|].
  set (s := Z.log2 n + 1 - 53) in *.
  assert (Hs : 0 < s) by (unfold s; lia).
  assert (Hp : 0 < 2 ^ s) by (apply Z.pow_pos_nonneg; lia).
  assert (Hsplit : 2 ^ Z.log2 n = 2 ^ 52 * 2 ^ s).
  { rewrite <- Z.pow_add_r by lia. f_equal. unfold s. lia. }
  assert (Hq : 2 ^ 52 <= n / 2 ^ s).
  { apply Z.div_le_lower_bound; [exact Hp|]. lia. }
  rewrite Hsplit.
  apply Z.mul_le_mono_nonneg_r; [lia|].
  repeat match goal with
         | |- context [if ?c then _ else _] => destruct c
         end; lia.
Qed.

Lemma rnd53_top n : 2 ^ 60 - 64 <= n -> 2 ^ 60 <= rnd53 n.
Proof.
  intros Hn. destruct (Z.lt_ge_cases n (2 ^ 60)) as [Hlt|Hge].
  - unfold rnd53. cbv zeta.
    assert (Hlog : Z.log2 n = 59).
    { apply Z.log2_unique; [lia|]. eval_pows. cbn. lia. }
    rewrite Hlog. cbn [Z.add Z.sub Z.leb Z.compare Pos.compare Pos.compare_cont
                       Pos.add Pos.succ Z.opp Z.pos_sub Pos.pred_double].
    eval_pows. change (2 ^ 7) with 128. change (2 ^ 6) with 64.
    pose proof (Z.div_mod n 128 ltac:(lia)) as Hdm.
    pose proof (Z.mod_pos_bound n 128 ltac:(lia)) as Hmb.
    assert (Hq : n / 128 = 9007199254740991) by lia.
    rewrite Hq.
    repeat match goal with
           | |- context [if ?c then _ else _] => destruct c eqn:?
           end;
      rewrite ?Z.ltb_lt, ?Z.ltb_ge in *; try lia.
    discriminate.
  - transitivity (2 ^ Z.log2 n); [|apply rnd53_lower; eval_pows; lia].
    apply Z.pow_le_mono_r; [lia|]. apply Z.log2_le_pow2; lia.
Qed.

Lemma render_whole n : 0 <= n -> render_hundredths (100 * n) = str_int n ++ ".00".
Proof.
  intros Hn. unfold render_hundredths.
  rewrite Z.mul_comm, Z.div_mul, Z.mod_mul by lia. reflexivity.
Qed.

(** X9: a negative count is never scaled: it is below 1024, so the loop
    returns at its first turn and the count is printed in bytes, as the
    double nearest to it with two zero decimals, whatever its magnitude. *)
Theorem get_size_negative b suffix :
  b < 0 -> - b < 2 ^ 1023 ->
  get_size b suffix = Ok (Some (("-" ++ str_int (rnd53 (- b)) ++ ".00") ++ suffix)).
Proof.
  intros Hneg Hup. unfold get_size, units.
  rewrite size_loop_hit by (cbn [lt_factor]; unfold factor; apply Z.ltb_lt; lia).
  cbn [res_bind format_2f hundredths].
  rewrite Z.abs_neq by lia.
  pose proof (rnd53_le_double (- b) ltac:(lia)) as Hr.
  assert (Hlt : rnd53 (- b) < 2 ^ 1024).
  { apply Z.le_lt_trans with (2 * - b); [lia|].
    change (2 ^ 1024) with (2 * 2 ^ 1023). lia. }
  destruct (Z.leb_spec (2 ^ 1024) (rnd53 (- b))); [lia|].
  destruct (Z.ltb_spec b 0); [|lia].
  cbn [res_bind]. rewrite render_whole by lia. reflexivity.
Qed.

Lemma get_size_negative_witness : get_size (-2048) "B" = Ok (Some "-2048.00B").
Proof.
  exact (get_size_negative (-2048) "B" ltac:(lia) ltac:(vm_compute; reflexivity)).
Defined.

(** X10: from [2^60 - 64] bytes on (the first count whose quotient by 1024
    rounds to [2^50] as a double) and as long as the division does not
    overflow, the loop runs through all six units and [get_size] returns
    [None]; the collectors print it as the text "None". *)
Theorem get_size_none_above_range b suffix :
  2 ^ 60 - 64 <= b -> b < 2 ^ 1033 ->
  get_size b suffix = Ok None /\ size_text b = Ok "None".
Proof.
  intros Hlo Hhi.
  assert (Hg : forall sfx, get_size b sfx = Ok None).
  { intros sfx.
    pose proof (rnd53_top b Hlo) as Hr.
    pose proof (rnd53_le_double b ltac:(eval_pows; lia)) as Hd.
    assert (Hov : rnd53 b < 2 ^ 1034).
    { apply Z.le_lt_trans with (2 * b); [lia|].
      change (2 ^ 1034) with (2 * 2 ^ 1033). lia. }
    unfold get_size, units.
    rewrite size_loop_int_next by (eval_pows; lia).
    do 5 (rewrite size_loop_float_next by (eval_pows; lia);
          cbn [Z.add Pos.add Pos.succ Pos.add_carry]).
    reflexivity. }
  split; [apply Hg|]. unfold size_text. now rewrite Hg.
Qed.

Lemma get_size_none_above_range_witness :
  get_size (2 ^ 64) "B" = Ok None /\ size_text (2 ^ 64) = Ok "None".
Proof.
  apply (get_size_none_above_range (2 ^ 64) "B"); vm_compute; congruence.
Defined.

(** X11: from [2^1034] bytes on the first division, of an [int] by 1024,
    has no double to return and [get_size] raises [OverflowError]. *)
Theorem get_size_overflow b suffix :
  2 ^ 1034 <= b ->
  get_size b suffix
  = Raise (OverflowError "integer division result too large for a float").
Proof.
  intros Hlo.
  assert (Hr : 2 ^ 1034 <= rnd53 b).
  { transitivity (2 ^ Z.log2 b).
    - apply Z.pow_le_mono_r; [lia|]. apply Z.log2_le_pow2; [|exact Hlo].
      assert (0 < 2 ^ 1034) by (apply Z.pow_pos_nonneg; lia). lia.
    - apply rnd53_lower. transitivity (2 ^ 1034); [|exact Hlo].
      apply Z.pow_le_mono_r; lia. }
  unfold get_size, units. cbn [size_loop lt_factor div_factor]. unfold factor.
  assert (0 < 2 ^ 1034) by (apply Z.pow_pos_nonneg; lia).
  destruct (Z.ltb_spec b 1024) as [Hlt|_].
  { exfalso. assert (2 ^ 10 <= 2 ^ 1034) by (apply Z.pow_le_mono_r; lia).
    change (2 ^ 10) with 1024 in *. lia. }
  destruct (Z.leb_spec (2 ^ 1034) (rnd53 b)); [reflexivity|lia].
Qed.

Lemma get_size_overflow_witness :
  get_size (2 ^ 1034) "B"
  = Raise (OverflowError "integer division result too large for a float").
Proof.
  apply (get_size_overflow (2 ^ 1034) "B"). apply Z.le_refl.
Defined.

(** ** [get_size]: the printed figure *)

Lemma round_half_even_nearest num den :
  0 < den -> 2 * Z.abs (num - round_half_even num den * den) <= den.
Proof.
  intros Hd. unfold round_half_even. cbv zeta.
  pose proof (Z.div_mod num den ltac:(lia)) as Hdm.
  pose proof (Z.mod_pos_bound num den Hd) as Hmb.
  repeat match goal with
         | |- context [if ?c then _ else _] => destruct c eqn:?
         end;
    rewrite ?Z.ltb_lt, ?Z.ltb_ge in *; nia.
Qed.

Lemma size_loop_scaled b :
  0 <= b < 2 ^ 60 - 64 ->
  size_loop units (SInt b) = Ok (Some (scaled b, nth (unit_index b) units "")).
Proof.
  intros Hb.
  assert (HR : b < 2 ^ 53 /\ rnd53 b = b \/
               2 ^ 53 <= b /\ 2 ^ 53 <= rnd53 b < 2 ^ 60).
  { destruct (Z.lt_ge_cases b (2 ^ 53)) as [Hs|Hl].
    - left. split; [exact Hs | apply rnd53_small; lia].
    - right. split; [exact Hl | apply rnd53_large; lia]. }
  unfold scaled, unit_index, units.
  repeat match goal with
         | |- context [?a <? ?c] => destruct (Z.ltb_spec a c)
         end;
    cbn [nth Z.of_nat Pos.of_succ_nat Pos.succ Z.mul Pos.mul];
    eval_pows.
  all: try (rewrite size_loop_hit
              by (cbn [lt_factor]; unfold factor; apply Z.ltb_lt; lia);
            reflexivity).
  all: rewrite size_loop_int_next by lia.
  all: repeat (first
         [ rewrite size_loop_hit
             by (cbn [lt_factor]; unfold factor; eval_pows; apply Z.ltb_lt; lia)
         | rewrite size_loop_float_next by (eval_pows; lia);
           cbn [Z.add Pos.add Pos.succ Pos.add_carry] ]).
  all: reflexivity.
Qed.

(** X12: in its range [get_size] prints the hundredth nearest to the value
    it has scaled: with [k] the unit's index and [cents] the printed figure
    times one hundred, [cents / 100] differs from the double nearest to [b],
    divided by [1024^k], by at most half a hundredth; below [2^53] that
    double is [b] itself, and below 1024 the figure is exact. *)
Theorem get_size_nearest_hundredth b suffix :
  0 <= b < 2 ^ 60 - 64 ->
  let k := unit_index b in
  exists cents,
    get_size b suffix
    = Ok (Some (render_hundredths cents ++ nth k units "" ++ suffix))
    /\ 2 * Z.abs (100 * rnd53 b - cents * 1024 ^ Z.of_nat k)
       <= 1024 ^ Z.of_nat k
    /\ (b < 2 ^ 53 -> rnd53 b = b)
    /\ (b < 1024 -> cents = 100 * b).
Proof.
  intros Hb k. exists (hundredths (scaled b)).
  assert (Hsmall : b < 2 ^ 53 -> rnd53 b = b)
    by (intros; apply rnd53_small; lia).
  split; [|split; [|split; [exact Hsmall|]]].
  - unfold get_size. rewrite size_loop_scaled by exact Hb. cbn [res_bind].
    unfold scaled. fold k. destruct k eqn:Hk.
    + assert (Hlt : b < 1024).
      { unfold k, unit_index in Hk.
        destruct (Z.ltb_spec b 1024); [assumption|].
        repeat match type of Hk with
               | context [if ?c then _ else _] => destruct c
               end; discriminate. }
      cbn [format_2f]. rewrite Z.abs_eq by lia.
      rewrite Hsmall by (eval_pows; lia).
      destruct (Z.leb_spec (2 ^ 1024) b) as [Hbig|_].
      { exfalso. assert (2 ^ 10 <= 2 ^ 1024) by (apply Z.pow_le_mono_r; lia).
        change (2 ^ 10) with 1024 in *. lia. }
      destruct (Z.ltb_spec b 0); [lia|]. reflexivity.
    + reflexivity.
  - unfold scaled. fold k. destruct k eqn:Hk.
    + cbn [hundredths]. rewrite (Z.abs_eq b) by lia.
      change (1024 ^ Z.of_nat 0) with 1. lia.
    + cbn [hundredths].
      replace (1024 ^ Z.of_nat (S n)) with (2 ^ (10 * Z.of_nat (S n))).
      * apply round_half_even_nearest. apply Z.pow_pos_nonneg; lia.
      * rewrite Z.pow_mul_r by lia. reflexivity.
  - intros Hlt. unfold scaled, unit_index.
    destruct (Z.ltb_spec b 1024); [|lia].
    cbn [hundredths]. rewrite (Z.abs_eq b) by lia.
    rewrite Hsmall by (eval_pows; lia). reflexivity.
Qed.

Lemma get_size_nearest_hundredth_witness :
  exists cents,
    get_size 1536 "B" = Ok (Some (render_hundredths cents ++ "K" ++ "B"))
    /\ 2 * Z.abs (100 * rnd53 1536 - cents * 1024) <= 1024.
Proof.
  destruct (get_size_nearest_hundredth 1536 "B" ltac:(vm_compute; split; congruence))
    as (cents & Hg & Hc & _).
  exists cents. split; [exact Hg|exact Hc].
Defined.

(** ** The window: what the tabs hold *)

Lemma all_empty_ext g g' :
  text_widgets g' = text_widgets g -> all_empty g -> all_empty g'.
Proof. intros He H n Hn. unfold slot_text. rewrite He. exact (H n Hn). Qed.

Lemma all_filled_ext g g' :
  text_widgets g' = text_widgets g -> all_filled g -> all_filled g'.
Proof.
  intros He H n Hn. destruct (H n Hn) as (t & Ht & Hne).
  exists t. split; [|exact Hne]. unfold slot_text in *. now rewrite He.
Qed.

Lemma read_only_ext g g' :
  text_widgets g' = text_widgets g -> read_only g -> read_only g'.
Proof. unfold read_only. now intros ->. Qed.

Lemma read_only_start_scan g : read_only (start_scan g).
Proof.
  unfold read_only, start_scan. cbn.
  induction (text_widgets g) as [|kv l IH]; constructor; [reflexivity|exact IH].
Qed.

Lemma all_empty_start_scan g :
  slot_names g = tab_names -> all_empty (start_scan g).
Proof.
  intros Hn n Hin. unfold slot_text.
  change (text_widgets (start_scan g))
    with (map (fun kv => (fst kv,
                 (fun w => config_state DISABLED
                             (delete_all (config_state NORMAL w))) (snd kv)))
            (text_widgets g)).
  rewrite dict_get_map_snd.
  rewrite <- Hn in Hin. destruct (dict_get_in n (text_widgets g) Hin) as [w ->].
  cbn. unfold delete_all. cbn. reflexivity.
Qed.

Lemma Forall_dict_set {V} (P : string * V -> Prop) k v d :
  P (k, v) -> Forall P d -> Forall P (dict_set k v d).
Proof.
  intros Hk. induction 1 as [|[k' v'] d Hx Hd IH]; cbn.
  - now constructor.
  - destruct (String.eqb k k'); constructor; auto.
Qed.

Lemma read_only_update_tab n c g : read_only g -> read_only (update_tab n c g).
Proof.
  unfold read_only, update_tab. intros H.
  destruct (dict_get n (text_widgets g)); [|exact H].
  cbn. apply Forall_dict_set; [reflexivity|exact H].
Qed.

Lemma update_tab_rest n c g :
  scan_button (update_tab n c g) = scan_button g
  /\ status_label (update_tab n c g) = status_label g
  /\ after_queue (update_tab n c g) = after_queue g
  /\ threads (update_tab n c g) = threads g.
Proof. unfold update_tab. destruct (dict_get n _); cbn; auto. Qed.

Lemma export_rest now fault g fs :
  let g' := fst (export_to_text now fault g fs) in
  text_widgets g' = text_widgets g
  /\ scan_button g' = scan_button g
  /\ threads g' = threads g
  /\ after_queue g' = after_queue g
  /\ not_complete g'.
Proof.
  unfold export_to_text, not_complete.
  destruct fault; cbv beta zeta; cbn; repeat split; discriminate.
Qed.

Lemma init_gui_empty : all_empty init_gui.
Proof.
  intros n Hn. cbn in Hn.
  repeat (destruct Hn as [<-|Hn]; [reflexivity|]). contradiction.
Qed.

Lemma tab_names_nodup : NoDup tab_names.
Proof.
  unfold tab_names.
  repeat (constructor; [cbn; intuition discriminate|]). constructor.
Qed.

Section Phases.
Context {F : Type} {L : PyLib F}.

(** What [scan_system] posts: the nine updates, in tab order and none with
    an empty text, then [scan_complete]; or the error report alone. *)
Lemma scan_system_cases (h : Host F) :
  (exists todo,
     scan_system h = (update_calls todo ++ [CallScanComplete])%list
     /\ map fst todo = tab_names
     /\ forall n c, In (n, c) todo -> c <> "")
  \/ (exists e,
        scan_texts h = Raise e
        /\ scan_system h
           = [CallStatusConfig ("Error during scan: " ++ exn_msg e) "red";
              CallButtonConfig NORMAL]).
Proof.
  unfold scan_system.
  destruct (scan_texts h) as [[[[[[[[[s1 s2] s3] s4] s5] s6] s7] s8] s9]|e] eqn:Hs;
    [left|right; eauto].
  unfold scan_texts in Hs.
  destruct (get_os_info h) eqn:E1; [|discriminate]; cbn [res_bind] in Hs.
  destruct (get_cpu_info h) eqn:E2; [|discriminate]; cbn [res_bind] in Hs.
  destruct (get_memory_info h) eqn:E3; [|discriminate]; cbn [res_bind] in Hs.
  destruct (get_gpu_info h) eqn:E4; [|discriminate]; cbn [res_bind] in Hs.
  destruct (get_disk_info h) eqn:E5; [|discriminate]; cbn [res_bind] in Hs.
  destruct (get_motherboard_info h) eqn:E6; [|discriminate]; cbn [res_bind] in Hs.
  destruct (get_network_info h) eqn:E7; [|discriminate]; cbn [res_bind] in Hs.
  destruct (get_components_summary h) eqn:E8; [|discriminate]; cbn [res_bind] in Hs.
  destruct (psutil_cpu_count h false); [|discriminate]; cbn [res_bind] in Hs.
  destruct (psutil_cpu_count h true); [|discriminate]; cbn [res_bind] in Hs.
  destruct (psutil_virtual_memory h); [|discriminate]; cbn [res_bind] in Hs.
  destruct (size_text _); [|discriminate]; cbn [res_bind] in Hs.
  destruct (psutil_disk_partitions h); [|discriminate]; cbn [res_bind] in Hs.
  injection Hs as <- <- <- <- <- <- <- <- <-.
  apply get_os_info_header in E1. apply get_cpu_info_header in E2.
  apply get_memory_info_header in E3. apply get_gpu_info_header in E4.
  apply get_disk_info_header in E5. apply get_motherboard_info_header in E6.
  apply get_network_info_header in E7. apply get_components_summary_header in E8.
  destruct E1 as [? E1], E2 as [? E2], E3 as [? E3], E4 as [? E4], E5 as [? E5],
    E6 as [? E6], E7 as [? E7], E8 as [? E8].
  apply header_nonempty in E1, E2, E3, E4, E5, E6, E7, E8.
  match goal with
  | |- exists _, [CallUpdateTab ?n1 ?c1; CallUpdateTab ?n2 ?c2;
                  CallUpdateTab ?n3 ?c3; CallUpdateTab ?n4 ?c4;
                  CallUpdateTab ?n5 ?c5; CallUpdateTab ?n6 ?c6;
                  CallUpdateTab ?n7 ?c7; CallUpdateTab ?n8 ?c8;
                  CallUpdateTab ?n9 ?c9; CallScanComplete] = _ /\ _ =>
      exists [(n1, c1); (n2, c2); (n3, c3); (n4, c4); (n5, c5);
              (n6, c6); (n7, c7); (n8, c8); (n9, c9)]
  end.
  split; [reflexivity|split; [reflexivity|]].
  intros n c Hin. cbn in Hin.
  repeat (destruct Hin as [Hin|Hin];
          [injection Hin as <- <-; first [assumption | discriminate]|]).
  contradiction.
Qed.

Lemma step_tabs_phase (w : world) (ev : event F) :
  slot_names (gui w) = tab_names ->
  tabs_phase (gui w) -> tabs_phase (gui (step w ev)).
Proof.
  intros Hn Hs. destruct ev as [|now fault|i h|i|]; cbn [step].
  - (* ClickScan *)
    destruct Hs as [Hb Ht Hq Hw Hc|Hb Ht Hq Hr He Hst
                   |p todo Hb Ht Hq Hr Hst Hnd H1 H2|p Hb Ht Hq Hr He Hst];
      rewrite Hb; cbn [gui];
      [|now apply phase_scanning|now apply (phase_filling _ p todo)
       |now apply (phase_failing _ p)].
    apply phase_scanning.
    + reflexivity.
    + cbn. now rewrite Ht.
    + exact Hq.
    + apply read_only_start_scan.
    + now apply all_empty_start_scan.
    + unfold not_complete. cbn. discriminate.
  - (* ClickExport *)
    pose proof (export_rest now fault (gui w) (disk w)) as He.
    destruct (export_to_text now fault (gui w) (disk w)) as [g' fs'].
    cbn in He. cbn [gui]. destruct He as (Ew & Eb & Et & Eq & Hst').
    destruct Hs as [Hb Ht Hq Hw Hc|Hb Ht Hq Hr He Hst
                   |p todo Hb Ht Hq Hr Hst Hnd H1 H2|p Hb Ht Hq Hr He Hst].
    + apply phase_idle; try congruence.
      * destruct Hw as [Hw|Hw]; [left; congruence|right].
        now apply (read_only_ext (gui w)).
      * destruct Hc as [[Hc _]|Hc]; [left; split; [|exact Hst']|right].
        -- now apply (all_empty_ext (gui w)).
        -- now apply (all_filled_ext (gui w)).
    + apply phase_scanning; try congruence.
      * now apply (read_only_ext (gui w)).
      * now apply (all_empty_ext (gui w)).
    + apply (phase_filling _ p todo); try congruence; try assumption.
      * now apply (read_only_ext (gui w)).
      * intros n Hin. destruct (H2 n Hin) as [Ha Hb'].
        split; intros Hx.
        -- unfold slot_text. rewrite Ew. now apply Ha.
        -- destruct (Hb' Hx) as (t & Htx & Hne). exists t.
           split; [|exact Hne]. unfold slot_text in *. now rewrite Ew.
    + apply (phase_failing _ p); try congruence.
      * now apply (read_only_ext (gui w)).
      * now apply (all_empty_ext (gui w)).
  - (* ThreadScans *)
    destruct Hs as [Hb Ht Hq Hw Hc|Hb Ht Hq Hr He Hst
                   |p todo Hb Ht Hq Hr Hst Hnd H1 H2|p Hb Ht Hq Hr He Hst];
      rewrite Ht.
    + destruct i; cbn; now apply phase_idle.
    + destruct i as [|i]; cbn [nth_error];
        [|destruct i; cbn; now apply phase_scanning].
      cbn [gui splice app].
      destruct (scan_system_cases h)
        as [(todo & Hsys & Hnames & Hne)|(e & _ & Hsys)].
      * apply (phase_filling _ (scan_system h) todo).
        -- exact Hb.
        -- cbn. rewrite Hsys. now destruct (update_calls todo).
        -- cbn. rewrite Hq. exact Hsys.
        -- exact Hr.
        -- exact Hst.
        -- rewrite Hnames. apply tab_names_nodup.
        -- intros n c Hin. split; [|now apply (Hne n c)].
           rewrite <- Hnames. apply (in_map fst) in Hin. exact Hin.
        -- intros n Hin. split; [intros _; now apply He|].
           rewrite Hnames. intros Hx. contradiction.
      * apply (phase_failing _ (scan_system h)).
        -- exact Hb.
        -- cbn. now rewrite Hsys.
        -- cbn. rewrite Hq, Hsys. left. now exists (exn_msg e).
        -- exact Hr.
        -- exact He.
        -- exact Hst.
    + destruct p as [|cb rest]; cbn [thread_posting].
      * destruct i; cbn; now apply (phase_filling _ [] todo).
      * destruct i as [|i]; cbn [nth_error];
          [|destruct i; cbn]; now apply (phase_filling _ (cb :: rest) todo).
    + destruct p as [|cb rest]; cbn [thread_posting].
      * destruct i; cbn; now apply (phase_failing _ []).
      * destruct i as [|i]; cbn [nth_error];
          [|destruct i; cbn]; now apply (phase_failing _ (cb :: rest)).
  - (* ThreadPosts *)
    destruct Hs as [Hb Ht Hq Hw Hc|Hb Ht Hq Hr He Hst
                   |p todo Hb Ht Hq Hr Hst Hnd H1 H2|p Hb Ht Hq Hr He Hst];
      rewrite Ht.
    + destruct i; cbn; now apply phase_idle.
    + destruct i as [|i]; cbn [nth_error];
        [|destruct i; cbn]; now apply phase_scanning.
    + destruct p as [|cb rest]; cbn [thread_posting].
      * destruct i; cbn; now apply (phase_filling _ [] todo).
      * destruct i as [|i]; cbn [nth_error];
          [|destruct i; cbn; now apply (phase_filling _ (cb :: rest) todo)].
        apply (phase_filling _ rest todo); cbn; auto.
        -- rewrite Ht. now destruct rest.
        -- rewrite <- app_assoc. exact Hq.
    + destruct p as [|cb rest]; cbn [thread_posting].
      * destruct i; cbn; now apply (phase_failing _ []).
      * destruct i as [|i]; cbn [nth_error];
          [|destruct i; cbn; now apply (phase_failing _ (cb :: rest))].
        apply (phase_failing _ rest); cbn; auto.
        -- rewrite Ht. now destruct rest.
        -- rewrite <- app_assoc. exact Hq.
  - (* MainloopIdle *)
    destruct (after_queue (gui w)) as [|cb rest] eqn:Hq0; [exact Hs|]. cbn [gui].
    destruct Hs as [Hb Ht Hq Hw Hc|Hb Ht Hq Hr He Hst
                   |p todo Hb Ht Hq Hr Hst Hnd H1 H2|p Hb Ht Hq Hr He Hst];
      try congruence.
    + (* filling *)
      rewrite Hq0 in Hq. destruct todo as [|[n c] todo]; cbn in Hq.
      * injection Hq as -> Hnil. apply app_eq_nil in Hnil as [-> ->].
        cbn. apply phase_idle; cbn; auto.
        right. intros n Hin. destruct (H2 n Hin) as [_ Hf].
        destruct (Hf (fun x => x)) as (t & Hx & Hne). exists t. split; auto.
      * injection Hq as -> Hrest. cbn [run_callback].
        destruct (update_tab_rest n c (set_after_queue rest (gui w)))
          as (Eb & Es & Eq & Et).
        inversion Hnd as [|? ? Hnotin Hnd']; subst.
        apply (phase_filling _ p todo).
        -- now rewrite Eb.
        -- now rewrite Et.
        -- now rewrite Eq.
        -- apply read_only_update_tab. exact Hr.
        -- unfold not_complete. now rewrite Es.
        -- exact Hnd'.
        -- intros n' c' Hin. apply H1. now right.
        -- intros m Hm. destruct (H2 m Hm) as [Ha Hf]. split.
           ++ intros Hin. rewrite slot_text_update_other.
              ** apply Ha. now right.
              ** intros ->. contradiction.
           ++ intros Hnin. destruct (string_dec m n) as [->|Hne].
              ** exists c. split.
                 --- apply slot_text_update_same.
                     change (slot_names (set_after_queue rest (gui w)))
                       with (slot_names (gui w)).
                     now rewrite Hn.
                 --- apply (H1 n c). now left.
              ** destruct Hf as (t & Hx & Hne').
                 { cbn. intros [Heq|Hin]; [congruence|contradiction]. }
                 exists t. split; [|exact Hne'].
                 now rewrite slot_text_update_other.
    + (* failing *)
      rewrite Hq0 in Hq. cbn in Hq. destruct Hq as [[msg Hq]|Hq].
      * injection Hq as -> Hrest. cbn [run_callback].
        apply (phase_failing _ p); cbn; auto.
        -- right. exact Hrest.
        -- unfold not_complete. cbn. discriminate.
      * injection Hq as -> Hnil. apply app_eq_nil in Hnil as [-> ->].
        cbn. apply phase_idle; cbn; auto.
Qed.

Lemma run_tabs_phase fs (evs : list (event F)) : tabs_phase (gui (run fs evs)).
Proof.
  induction evs as [|ev evs IH] using rev_ind.
  - apply phase_idle; auto. left. split; [exact init_gui_empty|].
    unfold not_complete. cbn. discriminate.
  - rewrite run_snoc. apply step_tabs_phase; [apply run_names|exact IH].
Qed.

End Phases.

(** X6: [scan_system] posts all or nothing: when every collector and the
    summary's own queries return, the nine [update_tab] calls, one per tab
    in tab order and none with an empty text, followed by
    [scan_complete]; when anything raises, only the error status and the
    call that re-enables the button, and no [update_tab] call at all. *)
Theorem scan_system_all_or_nothing {F : Type} {L : PyLib F} (h : Host F) :
  (exists todo,
     scan_system h = (update_calls todo ++ [CallScanComplete])%list
     /\ map fst todo = tab_names
     /\ forall n c, In (n, c) todo -> c <> "")
  \/ (exists e,
        scan_texts h = Raise e
        /\ scan_system h
           = [CallStatusConfig ("Error during scan: " ++ exn_msg e) "red";
              CallButtonConfig NORMAL]).
Proof. apply scan_system_cases. Qed.

Section Contents.
Context {F : Type} {L : PyLib F}.

(** X2: whenever the scan button is enabled (no session is running), the
    nine tabs are either all empty or all hold text: a tab is filled only
    inside a session whose [scan_system] returned all nine texts, and the
    button comes back only after the last of them is in place. *)
Theorem idle_tabs_empty_or_filled fs (evs : list (event F)) :
  scan_button (gui (run fs evs)) = NORMAL ->
  all_empty (gui (run fs evs)) \/ all_filled (gui (run fs evs)).
Proof.
  intros Hb.
  destruct (run_tabs_phase fs evs) as [_ _ _ _ Hc| | |]; try congruence.
  destruct Hc as [[He _]|Hf]; [now left|now right].
Qed.

(** X3: from the first click on "Scan System" on, every tab widget is
    disabled in every state: [start_scan] and [update_tab] both end with
    [config(state=DISABLED)], and nothing else touches a widget's state.
    (Before that click the widgets are as [create_tab] made them,
    editable.) *)
Theorem tabs_read_only_after_first_scan fs (evs : list (event F)) :
  In ClickScan evs -> read_only (gui (run fs evs)).
Proof.
  induction evs as [|ev evs IH] using rev_ind; [intros []|].
  intros Hin. rewrite run_snoc.
  assert (Hcase : ev = ClickScan /\ scan_button (gui (run fs evs)) = NORMAL
                  \/ read_only (gui (run fs evs))).
  { apply in_app_or in Hin as [Hin|[<-|[]]]; [right; now apply IH|].
    destruct (run_tabs_phase fs evs) as [Hb| | |]; auto. }
  destruct Hcase as [[-> Hb]|Hr].
  - cbn [step]. rewrite Hb. apply read_only_start_scan.
  - destruct ev as [|now fault|i h|i|]; cbn [step].
    + destruct (scan_button _); [apply read_only_start_scan|exact Hr].
    + pose proof (export_rest now fault (gui (run fs evs)) (disk (run fs evs))) as He.
      destruct (export_to_text _ _ _ _) as [g' fs']. cbn in He |- *.
      now apply (read_only_ext (gui (run fs evs))).
    + destruct (nth_error _ _) as [[|]|]; exact Hr.
    + destruct (nth_error _ _) as [[|[|]]|]; exact Hr.
    + destruct (after_queue _) as [|cb rest]; [exact Hr|]. cbn [gui].
      destruct cb; cbn [run_callback]; try exact Hr.
      now apply read_only_update_tab.
Qed.

(** X4: the status line reads "Scan complete!" only between sessions and
    with all nine tabs filled. *)
Theorem complete_status_means_filled fs (evs : list (event F)) :
  fst (status_label (gui (run fs evs))) = "Scan complete!" ->
  let g := gui (run fs evs) in
  all_filled g /\ scan_button g = NORMAL /\ threads g = [] /\ after_queue g = [].
Proof.
  intros Hst g. unfold g.
  destruct (run_tabs_phase fs evs) as [Hb Ht Hq _ Hc|? ? ? ? ? Hn|? ? ? ? ? ? Hn|? ? ? ? ? ? Hn];
    try (exfalso; exact (Hn Hst)).
  destruct Hc as [[_ Hn]|Hf]; [exfalso; exact (Hn Hst)|auto].
Qed.

(** X5: when the main loop runs the button call of the error path (the
    session reaches Failed), the nine tabs are all empty, as [start_scan]
    left them, and the button is enabled again. *)
Theorem failed_scan_leaves_tabs_empty fs (evs : list (event F)) rest :
  after_queue (gui (run fs evs)) = CallButtonConfig NORMAL :: rest ->
  let w' := step (run fs evs) MainloopIdle in
  all_empty (gui w') /\ scan_button (gui w') = NORMAL
  /\ text_widgets (gui w') = text_widgets (gui (run fs evs)).
Proof.
  intros Hq w'. unfold w'. cbn [step]. rewrite Hq. cbn.
  split; [|split; reflexivity].
  destruct (run_tabs_phase fs evs) as [? ? Hq'| ? ? Hq'|p todo ? ? Hq'|p ? ? Hq' ? He];
    try congruence.
  - rewrite Hq in Hq'. destruct todo as [|[? ?] ?]; discriminate.
  - apply (all_empty_ext (gui (run fs evs))); [reflexivity|exact He].
Qed.

End Contents.

Lemma dict_set_set {V} k (v v' : V) d :
  dict_set k v (dict_set k v' d) = dict_set k v d.
Proof.
  induction d as [|[k0 v0] d IH]; cbn.
  - now rewrite String.eqb_refl.
  - destruct (String.eqb_spec k k0) as [->|Hne]; cbn.
    + now rewrite String.eqb_refl.
    + destruct (String.eqb_spec k k0); [contradiction|]. now rewrite IH.
Qed.

(** X7: [update_tab] on one of the window's tabs replaces the tab's text
    wholesale: whatever the widget held and whether it was editable or
    disabled, it then holds exactly [content] and is disabled; no other
    tab changes, the tabs keep their order, and of two updates of a tab the
    later one wins. *)
Theorem update_tab_overwrites n content earlier g :
  In n (slot_names g) ->
  dict_get n (text_widgets (update_tab n content g)) = Some (mkText content DISABLED)
  /\ (forall m, m <> n ->
        dict_get m (text_widgets (update_tab n content g))
        = dict_get m (text_widgets g))
  /\ slot_names (update_tab n content g) = slot_names g
  /\ update_tab n content (update_tab n earlier g) = update_tab n content g.
Proof.
  intros Hin. destruct (dict_get_in n (text_widgets g) Hin) as [w Hw].
  split; [|split; [|split]].
  - unfold update_tab. rewrite Hw. cbn. rewrite dict_get_set_same.
    now rewrite append_nil_r.
  - intros m Hne. unfold update_tab. rewrite Hw. cbn.
    now apply dict_get_set_other.
  - apply update_tab_names.
  - unfold update_tab at 2. rewrite Hw. unfold update_tab.
    cbn [text_widgets set_text_widgets]. rewrite dict_get_set_same, Hw.
    cbn. now rewrite dict_set_set.
Qed.

Lemma update_tab_overwrites_witness :
  dict_get "GPU"
    (text_widgets (update_tab "GPU" "new" (update_tab "GPU" "old" init_gui)))
  = Some (mkText "new" DISABLED).
Proof.
  exact (proj1 (update_tab_overwrites "GPU" "new" "old"
                  (update_tab "GPU" "old" init_gui)
                  ltac:(cbn; tauto))).
Defined.

(** X8: what an export does to the files of the working directory.  Files
    of other names are untouched.  When [open] raises, nothing is created
    or changed.  Otherwise the file [system_info_<now>.txt] is created, or
    replaces an older one of that name.  It holds the full report when
    nothing raises.  When a write, or the flush on closing, raises, it
    holds a prefix of the report, the characters the system accepted: the
    file is left in place, cut short anywhere (not at the end of a write
    call: the file is buffered), or complete when all was accepted. *)
Theorem export_file_effects now fault g fs :
  let fs' := snd (export_to_text now fault g fs) in
  (forall name, name <> export_filename now ->
     dict_get name fs' = dict_get name fs)
  /\ match fault with
     | OpenFails _ => fs' = fs
     | NoFault =>
         dict_get (export_filename now) fs' = Some (report (slot_contents g))
     | WriteFails accepted _ =>
         exists kept lost,
           dict_get (export_filename now) fs' = Some kept
           /\ report (slot_contents g) = kept ++ lost
           /\ String.length kept
              = Nat.min accepted (String.length (report (slot_contents g)))
     end.
Proof.
  unfold export_to_text, export_filename. cbv zeta.
  destruct fault as [|e|accepted e]; cbn [snd].
  - split; [intros name Hne; now apply dict_get_set_other|].
    rewrite dict_get_set_same. now rewrite written_export.
  - split; reflexivity.
  - split; [intros name Hne; now apply dict_get_set_other|].
    rewrite written_export.
    exists (substring 0 accepted (report (slot_contents g))),
           (drop accepted (report (slot_contents g))).
    split; [apply dict_get_set_same|].
    split; [apply substring_drop|apply substring_length].
Qed.

Lemma idle_tabs_empty_or_filled_witness :
  all_empty (gui (run (L:=toy_lib) [] (trace_to_done ++ [MainloopIdle])))
  \/ all_filled (gui (run (L:=toy_lib) [] (trace_to_done ++ [MainloopIdle]))).
Proof.
  apply (idle_tabs_empty_or_filled (L:=toy_lib) [] (trace_to_done ++ [MainloopIdle])).
  vm_compute. reflexivity.
Defined.

Lemma tabs_read_only_after_first_scan_witness :
  read_only (gui (run (L:=toy_lib) [] trace_to_done)).
Proof.
  apply (tabs_read_only_after_first_scan (L:=toy_lib) [] trace_to_done).
  left. reflexivity.
Defined.

(** Until the first scan the tabs are as [create_tab] made them: empty,
    and in Tk's default state, editable. *)
Example fresh_tabs_editable :
  Forall (fun kv => st_text (snd kv) = "" /\ st_state (snd kv) = NORMAL)
    (text_widgets init_gui).
Proof. repeat constructor. Qed.

(** While the results of a scan are delivered the button is disabled and
    the tabs are partly filled: here the first update has run. *)
Example tabs_partly_filled_during_delivery :
  let g := gui (run (L:=toy_lib) []
                  ([ClickScan; ThreadScans 0 linux_box]
                   ++ repeat (ThreadPosts 0) 10 ++ [MainloopIdle])) in
  scan_button g = DISABLED
  /\ slot_filled "Summary" g
  /\ slot_text "OS" g = Some "".
Proof.
  split; [reflexivity|]. split; [|reflexivity].
  eexists. split; [vm_compute; reflexivity|discriminate].
Qed.

Lemma complete_status_means_filled_witness :
  scan_button (gui (run (L:=toy_lib) [] (trace_to_done ++ [MainloopIdle]))) = NORMAL
  /\ slot_filled "GPU" (gui (run (L:=toy_lib) [] (trace_to_done ++ [MainloopIdle]))).
Proof.
  destruct (complete_status_means_filled (L:=toy_lib) []
              (trace_to_done ++ [MainloopIdle]) ltac:(vm_compute; reflexivity))
    as (Hf & Hb & _).
  split; [exact Hb|]. apply Hf. cbn. tauto.
Defined.

Lemma failed_scan_leaves_tabs_empty_witness :
  scan_button (gui (step (L:=toy_lib) (run (L:=toy_lib) [] trace_to_failed)
                      MainloopIdle)) = NORMAL
  /\ slot_text "CPU" (gui (step (L:=toy_lib) (run (L:=toy_lib) [] trace_to_failed)
                             MainloopIdle)) = Some "".
Proof.
  destruct (failed_scan_leaves_tabs_empty (L:=toy_lib) [] trace_to_failed []
              ltac:(vm_compute; reflexivity)) as (He & Hb & _).
  split; [exact Hb|]. apply He. cbn. tauto.
Defined.

Section Threads.
Context {F : Type} {L : PyLib F}.

(** X22: a click on the enabled scan button, in any state the program can
    be in, starts a session with all nine tabs emptied at once, whatever
    they held: after [start_scan] every tab is empty and disabled, the
    button is disabled, the status reads "Scanning system...", exactly one
    thread exists and has posted nothing yet, and the files are
    untouched. *)
Theorem click_starts_session fs (evs : list (event F)) :
  scan_button (gui (run fs evs)) = NORMAL ->
  let w' := step (run fs evs) ClickScan in
  all_empty (gui w') /\ read_only (gui w')
  /\ scan_button (gui w') = DISABLED
  /\ status_label (gui w') = ("Scanning system...", "orange")
  /\ threads (gui w') = [Scanning]
  /\ after_queue (gui w') = []
  /\ disk w' = disk (run fs evs).
Proof.
  intros Hb w'. unfold w'. cbn [step]. rewrite Hb. cbn [gui disk].
  split; [apply all_empty_start_scan, run_names|].
  split; [apply read_only_start_scan|].
  destruct (run_session fs evs) as [_ Ht Hq|Hb'|p Hb'|Hb']; try congruence.
  unfold start_scan.
  cbn [scan_button status_label threads after_queue set_threads
       set_text_widgets set_status_label set_scan_button].
  rewrite Ht, Hq. repeat split; reflexivity.
Qed.

End Threads.

Lemma click_starts_session_witness :
  scan_button
    (gui (step (L:=toy_lib)
            (run (L:=toy_lib) [] (trace_to_done ++ [MainloopIdle])) ClickScan))
  = DISABLED
  /\ slot_text "CPU"
       (gui (step (L:=toy_lib)
               (run (L:=toy_lib) [] (trace_to_done ++ [MainloopIdle])) ClickScan))
     = Some "".
Proof.
  destruct (click_starts_session (L:=toy_lib) []
              (trace_to_done ++ [MainloopIdle]) ltac:(vm_compute; reflexivity))
    as (He & _ & Hb & _).
  split; [exact Hb|]. apply He. cbn. tauto.
Defined.

(** ** The collectors: sources and fallbacks *)

Section Independence.
Context {F : Type} {L : PyLib F}.
Variable h : Host F.
Variables (open_key close_key : res unit) (query : res string).
Variable run : list string -> res CompletedProcess.
Hypothesis Hw : is_windows h = false.
Hypothesis Hrun :
  forall argv, program argv = "nvidia-smi" -> run argv = subprocess_run h argv.

Let h' := with_windows_sources h open_key query close_key run.

Lemma off_windows_os : get_os_info h' = get_os_info h.
Proof. unfold get_os_info, get_os_info_body. reflexivity. Qed.

Lemma off_windows_network : get_network_info h' = get_network_info h.
Proof. unfold get_network_info, get_network_info_body. reflexivity. Qed.

Lemma off_windows_cpu : get_cpu_info h' = get_cpu_info h.
Proof.
  unfold get_cpu_info, get_cpu_info_body, cpu_name_body.
  change (is_windows h') with (is_windows h). rewrite Hw. reflexivity.
Qed.

Lemma off_windows_memory : get_memory_info h' = get_memory_info h.
Proof.
  unfold get_memory_info, get_memory_info_body.
  change (is_windows h') with (is_windows h). rewrite Hw. reflexivity.
Qed.

Lemma off_windows_gpu : get_gpu_info h' = get_gpu_info h.
Proof.
  unfold get_gpu_info, get_gpu_info_body, gpu_nvidia.
  change (is_windows h') with (is_windows h). rewrite Hw.
  change (subprocess_run h') with run. rewrite Hrun by reflexivity.
  reflexivity.
Qed.

Lemma off_windows_disk : get_disk_info h' = get_disk_info h.
Proof.
  unfold get_disk_info, get_disk_info_body.
  change (is_windows h') with (is_windows h). rewrite Hw. reflexivity.
Qed.

Lemma off_windows_motherboard : get_motherboard_info h' = get_motherboard_info h.
Proof.
  unfold get_motherboard_info, get_motherboard_info_body, mobo_platform_block,
    temperature_section.
  change (is_windows h') with (is_windows h). rewrite Hw. reflexivity.
Qed.

Lemma off_windows_summary :
  get_components_summary h' = get_components_summary h.
Proof.
  unfold get_components_summary, get_components_summary_body.
  change (is_windows h') with (is_windows h). rewrite Hw.
  change (subprocess_run h') with run. rewrite Hrun by reflexivity.
  reflexivity.
Qed.

End Independence.

(** X13: on a host that is not Windows, no collector consults the registry or
    runs an external command other than [nvidia-smi]: with other answers
    from those sources every collector returns the same result, and
    [scan_system] posts the same calls. *)
Theorem windows_sources_unused_elsewhere {F : Type} {L : PyLib F} (h : Host F)
  (open_key close_key : res unit) (query : res string)
  (run : list string -> res CompletedProcess) :
  is_windows h = false ->
  (forall argv, program argv = "nvidia-smi" -> run argv = subprocess_run h argv) ->
  let h' := with_windows_sources h open_key query close_key run in
  get_os_info h' = get_os_info h
  /\ get_cpu_info h' = get_cpu_info h
  /\ get_memory_info h' = get_memory_info h
  /\ get_gpu_info h' = get_gpu_info h
  /\ get_disk_info h' = get_disk_info h
  /\ get_motherboard_info h' = get_motherboard_info h
  /\ get_network_info h' = get_network_info h
  /\ get_components_summary h' = get_components_summary h
  /\ scan_system h' = scan_system h.
Proof.
  intros Hw Hrun h'.
  pose proof (off_windows_os h open_key close_key query run) as E1.
  pose proof (off_windows_cpu h open_key close_key query run Hw) as E2.
  pose proof (off_windows_memory h open_key close_key query run Hw) as E3.
  pose proof (off_windows_gpu h open_key close_key query run Hw Hrun) as E4.
  pose proof (off_windows_disk h open_key close_key query run Hw) as E5.
  pose proof (off_windows_motherboard h open_key close_key query run Hw) as E6.
  pose proof (off_windows_network h open_key close_key query run) as E7.
  pose proof (off_windows_summary h open_key close_key query run Hw Hrun) as E8.
  split; [exact E1|]. split; [exact E2|]. split; [exact E3|].
  split; [exact E4|]. split; [exact E5|]. split; [exact E6|].
  split; [exact E7|]. split; [exact E8|].
  unfold scan_system, scan_texts.
  fold h' in E1, E2, E3, E4, E5, E6, E7, E8.
  rewrite E1, E2, E3, E4, E5, E6, E7, E8. reflexivity.
Qed.

Lemma windows_sources_unused_elsewhere_witness :
  get_cpu_info (L:=toy_lib)
    (with_windows_sources linux_box (Ok tt) (Ok "Intel Core") (Ok tt) chatty_tools)
  = get_cpu_info (L:=toy_lib) linux_box.
Proof.
  refine (proj1 (proj2 (windows_sources_unused_elsewhere (L:=toy_lib) linux_box
            (Ok tt) (Ok tt) (Ok "Intel Core") chatty_tools _ _))).
  - reflexivity.
  - intros argv Hp. unfold chatty_tools. rewrite Hp. reflexivity.
Defined.

Section NetworkCounters.
Context {F : Type} {L : PyLib F}.
Variable h : Host F.

Lemma safe_network_interfaces (ifs : list (string * list snicaddr)) :
  safe (for_each ifs (fun item =>
          emit (fst item ++ ":" ++ nl) ;;
          for_each (snd item) network_addr ;;
          emit nl)).
Proof. unfold network_addr. unfold_setters. safe_tac. Qed.

Lemma get_network_info_without_counters :
  psutil_net_io_counters h = Ok None -> exists e, get_network_info h = Raise e.
Proof.
  intros Hc. unfold get_network_info, returning_info, get_network_info_body.
  unfold bind at 1 2 3. unfold emit at 1 2, modify, lift at 1. cbn [fst snd].
  destruct (psutil_net_if_addrs h) as [ifs|e]; [|eauto].
  unfold bind at 1.
  match goal with
  | |- context [for_each ifs ?body ?st] =>
      destruct (safe_network_interfaces ifs st) as (a & s' & ->)
  end.
  rewrite Hc. unfold bind, lift, emit, modify, raise. cbn. eauto.
Qed.

(** X14: on a host where [psutil.net_io_counters()] is [None] (a machine
    without network interfaces) [get_network_info] raises, at
    [net_io.bytes_sent] or before; and since [scan_system] calls it inside
    its one [try], the whole scan fails: no tab is updated, whatever the
    other collectors returned. *)
Theorem scan_fails_without_network_counters :
  psutil_net_io_counters h = Ok None ->
  (exists e, get_network_info h = Raise e)
  /\ exists msg,
       scan_system h
       = [CallStatusConfig ("Error during scan: " ++ msg) "red";
          CallButtonConfig NORMAL].
Proof.
  intros Hc. destruct (get_network_info_without_counters Hc) as [e He].
  split; [eauto|].
  assert (Hs : exists e', scan_texts h = Raise e').
  { unfold scan_texts.
    destruct (get_os_info h); cbn [res_bind]; [|eauto].
    destruct (get_cpu_info h); cbn [res_bind]; [|eauto].
    destruct (get_memory_info h); cbn [res_bind]; [|eauto].
    destruct (get_gpu_info h); cbn [res_bind]; [|eauto].
    destruct (get_disk_info h); cbn [res_bind]; [|eauto].
    destruct (get_motherboard_info h); cbn [res_bind]; [|eauto].
    rewrite He. cbn [res_bind]. eauto. }
  destruct Hs as [e' Hs]. exists (exn_msg e').
  unfold scan_system. rewrite Hs. reflexivity.
Qed.

Lemma safe_sensors : safe (temperature_section h ;; battery_section h).
Proof.
  unfold temperature_section, battery_section, temps_psutil, temps_windows,
    battery_block.
  unfold_setters. safe_tac.
Qed.

Lemma sensors_run s :
  exists s' t,
    (temperature_section h ;; battery_section h) s = (Ok tt, s')
    /\ info s' = info s ++ ((nl ++ str_mul "=" 50 ++ nl)
                            ++ ("TEMPERATURE SENSORS" ++ nl)) ++ t.
Proof.
  destruct (safe_sensors s) as ([] & s' & E).
  enough (Hi : exists t, info s' = info s ++ ((nl ++ str_mul "=" 50 ++ nl)
                                              ++ ("TEMPERATURE SENSORS" ++ nl)) ++ t).
  { destruct Hi as [t Hi]. exists s', t. split; [exact E|exact Hi]. }
  revert E. unfold temperature_section.
  unfold bind at 1 2 3. unfold emit at 1 2, modify. cbn [fst snd info].
  match goal with
  | |- (let (_, _) := ?tail ?st in _) = _ -> _ =>
      assert (Hg : grows tail)
        by (unfold temps_psutil, temps_windows, temp_entry; unfold_locals;
            grows_tac);
      destruct (Hg st) as [t1 Ht1]; destruct (tail st) as [[[]|e] s1];
        [|discriminate]
  end.
  intros E.
  assert (Hb : grows (battery_section h))
    by (unfold battery_section, battery_block; unfold_locals; grows_tac).
  destruct (Hb s1) as [t2 Ht2]. rewrite E in Ht2. cbn [snd info] in Ht1, Ht2.
  exists (t1 ++ t2).
  rewrite Ht2, Ht1, !append_assoc. reflexivity.
Qed.

End NetworkCounters.

Lemma scan_fails_without_network_counters_witness :
  exists msg,
    scan_system (L:=toy_lib) bare_laptop
    = [CallStatusConfig ("Error during scan: " ++ msg) "red";
       CallButtonConfig NORMAL].
Proof.
  exact (proj2 (scan_fails_without_network_counters (L:=toy_lib) bare_laptop
                  eq_refl)).
Defined.

Section Bios.
Context {F : Type} {L : PyLib F}.
Variable h : Host F.

Lemma mobo_windows_unbound board bios s :
  powershell h
    "Get-CimInstance Win32_BaseBoard | Select-Object Manufacturer, Product, Version, SerialNumber | ConvertTo-Json"
  = Ok board ->
  has_output board = false ->
  powershell h
    "Get-CimInstance Win32_BIOS | Select-Object Manufacturer, Name, Version, ReleaseDate | ConvertTo-Json"
  = Ok bios ->
  has_output bios = true ->
  json_bound s = false ->
  exists s' msg,
    mobo_windows h s = (Ok tt, s')
    /\ info s' = info s ++ ("Motherboard information unavailable" ++ nl)
                 ++ (nl ++ str_mul "-" 50 ++ nl) ++ ("BIOS Information:" ++ nl)
                 ++ (str_mul "-" 50 ++ nl ++ nl)
                 ++ ("Unavailable: " ++ msg ++ nl).
Proof.
  intros Hboard Hno Hbios Hyes Hj. unfold powershell in Hboard, Hbios.
  unfold mobo_windows, powershell. run_monad.
  rewrite Hboard. run_monad. rewrite Hno. run_monad.
  rewrite Hbios. run_monad. rewrite Hyes, Hj. run_monad.
  eexists.
  exists "cannot access local variable 'json' where it is not associated with a value".
  split; [reflexivity|]. cbn [info].
  rewrite !append_assoc. reflexivity.
Qed.

(** X15: in [get_motherboard_info], [json] is a local name bound only by the
    [import json] of the board branch.  On a Windows host whose board query
    returns without output while the BIOS query returns with output, the
    BIOS answer is never parsed: [json.loads] raises on the unbound name,
    and the tab shows "Unavailable: " and that error's message where the
    BIOS fields would be, directly followed by the sensors section. *)
Theorem bios_block_needs_board_output board bios :
  is_windows h = true ->
  powershell h
    "Get-CimInstance Win32_BaseBoard | Select-Object Manufacturer, Product, Version, SerialNumber | ConvertTo-Json"
  = Ok board ->
  has_output board = false ->
  powershell h
    "Get-CimInstance Win32_BIOS | Select-Object Manufacturer, Name, Version, ReleaseDate | ConvertTo-Json"
  = Ok bios ->
  has_output bios = true ->
  exists msg rest,
    get_motherboard_info h
    = Ok (("MOTHERBOARD INFORMATION" ++ nl) ++ (str_mul "=" 50 ++ nl ++ nl)
          ++ ("Motherboard information unavailable" ++ nl)
          ++ (nl ++ str_mul "-" 50 ++ nl) ++ ("BIOS Information:" ++ nl)
          ++ (str_mul "-" 50 ++ nl ++ nl)
          ++ ("Unavailable: " ++ msg ++ nl)
          ++ ((nl ++ str_mul "=" 50 ++ nl) ++ ("TEMPERATURE SENSORS" ++ nl))
          ++ rest).
Proof.
  intros Hw Hboard Hno Hbios Hyes.
  unfold get_motherboard_info, returning_info, get_motherboard_info_body,
    mobo_platform_block.
  rewrite Hw.
  unfold bind at 1 2 3. unfold emit at 1 2, modify. cbn [fst snd].
  match goal with
  | |- context [mobo_windows h ?st] =>
      destruct (mobo_windows_unbound board bios st Hboard Hno Hbios Hyes
                  eq_refl) as (s1 & msg & -> & H1)
  end.
  destruct (sensors_run h s1) as (s2 & rest & E & H2).
  cbv beta iota. rewrite E.
  exists msg, rest. rewrite H2, H1. cbn [info frame0].
  rewrite !append_assoc. reflexivity.
Qed.

End Bios.

Lemma bios_block_needs_board_output_witness :
  exists msg rest,
    get_motherboard_info (L:=toy_lib) windows_box_bios_only
    = Ok (("MOTHERBOARD INFORMATION" ++ nl) ++ (str_mul "=" 50 ++ nl ++ nl)
          ++ ("Motherboard information unavailable" ++ nl)
          ++ (nl ++ str_mul "-" 50 ++ nl) ++ ("BIOS Information:" ++ nl)
          ++ (str_mul "-" 50 ++ nl ++ nl)
          ++ ("Unavailable: " ++ msg ++ nl)
          ++ ((nl ++ str_mul "=" 50 ++ nl) ++ ("TEMPERATURE SENSORS" ++ nl))
          ++ rest).
Proof.
  apply (bios_block_needs_board_output (L:=toy_lib) windows_box_bios_only
           {| returncode := 1; stdout := "" |}
           {| returncode := 0; stdout := "{}" |});
    vm_compute; reflexivity.
Defined.

Section Blocks.
Context {F : Type} {L : PyLib F}.
Variable h : Host F.

(** X16: the RAM module block of [get_memory_info] (Windows only).  When the
    PowerShell call raises, its handler prints "Detailed RAM info
    unavailable: <error>" and WMIC is not run; WMIC is the fallback only
    of a PowerShell that returned without output, and it prints "RAM
    module details unavailable", with the error when the WMIC call
    raised. *)
Theorem ram_modules_fallback text :
  ram_modules_failure h = Some text ->
  appends (memory_windows h) (fun t => t = ram_modules_title ++ text).
Proof.
  unfold ram_modules_failure, powershell. intros Hf s.
  unfold memory_windows, memory_wmic, powershell, ram_modules_title. run_monad.
  destruct (subprocess_run h ["powershell"; _; _]) as [r|e]; run_monad.
  - destruct (has_output r); [discriminate|]. run_monad.
    destruct (subprocess_run h ("wmic" :: _)) as [r'|e']; run_monad.
    + destruct (has_output r'); [discriminate|]. run_monad.
      injection Hf as <-.
      do 2 eexists. split; [reflexivity|]. cbn [info].
      rewrite !append_assoc. split; reflexivity.
    + injection Hf as <-.
      do 2 eexists. split; [reflexivity|]. cbn [info].
      rewrite !append_assoc. split; reflexivity.
  - injection Hf as <-.
    do 2 eexists. split; [reflexivity|]. cbn [info].
    rewrite !append_assoc. split; reflexivity.
Qed.

Lemma appends_for_each {A} (xs : list A) (body : A -> M unit)
  (mark : A -> string) :
  (forall x, appends (body x) (fun t => contains (mark x) t = true)) ->
  appends (for_each xs body)
    (fun t => forall x, In x xs -> contains (mark x) t = true).
Proof.
  intros Hb. induction xs as [|x xs IH]; intros s; cbn [for_each].
  - exists s, "". unfold ret. rewrite append_nil_r.
    repeat split. intros x [].
  - unfold bind.
    destruct (Hb x s) as (s1 & t1 & -> & I1 & P1).
    destruct (IH s1) as (s2 & t2 & -> & I2 & P2).
    exists s2, (t1 ++ t2). split; [reflexivity|]. split.
    + now rewrite I2, I1, append_assoc.
    + intros y [<-|Hy].
      * now apply contains_app_l.
      * apply contains_app_r. now apply P2.
Qed.

Lemma appends_any (m : M unit) :
  safe m -> grows m -> appends m (fun _ => True).
Proof.
  intros Hs Hg s. destruct (Hs s) as ([] & s' & E). destruct (Hg s) as [t Ht].
  rewrite E in Ht. exists s', t. auto.
Qed.

Lemma disk_partition_lines p :
  appends (disk_partition h p) (fun t => contains (partition_lines h p) t = true).
Proof.
  intros s. unfold disk_partition, partition_lines.
  destruct (psutil_disk_usage h (mountpoint p)) as [u|e] eqn:Hu.
  - assert (Htry : appends
      (try_except
         (usage <- lift (Ok u) ;;
          emit_size "  Total: " (du_total usage) nl ;;
          emit_size "  Used: " (du_used usage)
            (" (" ++ float_str (du_percent usage) ++ "%)" ++ nl) ;;
          emit_size "  Free: " (du_free usage) nl)
         (fun _ => emit ("  (Permission denied)" ++ nl)))
      (fun _ => True)).
    { apply appends_any; [safe_tac|unfold_locals; grows_tac]. }
    destruct (appends_bind _ _ _ _ (appends_emit ("Device: " ++ device p ++ nl))
               (appends_bind _ _ _ _
                  (appends_emit ("  Mountpoint: " ++ mountpoint p ++ nl))
                  (appends_bind _ _ _ _
                     (appends_emit ("  File System: " ++ fstype p ++ nl))
                     (appends_bind _ _ _ _ Htry (appends_emit nl)))) s)
      as (s' & t & E & I & t1 & r1 & -> & -> & t2 & r2 & -> & -> & t3 & r3 & ->
          & -> & t4 & r4 & -> & _ & ->).
    exists s'. eexists. split; [exact E|]. split; [exact I|].
    rewrite append_nil_r.
    replace (("Device: " ++ device p ++ nl)
             ++ ("  Mountpoint: " ++ mountpoint p ++ nl)
             ++ ("  File System: " ++ fstype p ++ nl) ++ t4 ++ nl)
      with ((("Device: " ++ device p ++ nl)
             ++ ("  Mountpoint: " ++ mountpoint p ++ nl)
             ++ ("  File System: " ++ fstype p ++ nl)) ++ t4 ++ nl)
      by (rewrite !append_assoc; reflexivity).
    apply contains_here.
  - assert (Htry : appends
      (try_except
         (usage <- lift (Raise e) ;;
          emit_size "  Total: " (du_total usage) nl ;;
          emit_size "  Used: " (du_used usage)
            (" (" ++ float_str (du_percent usage) ++ "%)" ++ nl) ;;
          emit_size "  Free: " (du_free usage) nl)
         (fun _ => emit ("  (Permission denied)" ++ nl)))
      (fun t => t = "  (Permission denied)" ++ nl)).
    { intros s0. unfold try_except, bind, lift, emit, modify.
      do 2 eexists. repeat split. }
    destruct (appends_bind _ _ _ _ (appends_emit ("Device: " ++ device p ++ nl))
               (appends_bind _ _ _ _
                  (appends_emit ("  Mountpoint: " ++ mountpoint p ++ nl))
                  (appends_bind _ _ _ _
                     (appends_emit ("  File System: " ++ fstype p ++ nl))
                     (appends_bind _ _ _ _ Htry (appends_emit nl)))) s)
      as (s' & t & E & I & t1 & r1 & -> & -> & t2 & r2 & -> & -> & t3 & r3 & ->
          & -> & t4 & r4 & -> & -> & ->).
    exists s'. eexists. split; [exact E|]. split; [exact I|].
    rewrite <- (append_nil_r (_ ++ _ ++ _ ++ (_ ++ nl) ++ nl)) at 2.
    apply contains_here.
Qed.

(** X17: every partition [psutil.disk_partitions()] lists gets its block in
    the Storage tab, whether or not its usage can be read: the text holds,
    for each, its device, mount point and file system lines, directly
    followed by "(Permission denied)" when the usage query raises; a
    failing partition does not stop the loop. *)
Theorem disk_partitions_all_listed partitions text :
  psutil_disk_partitions h = Ok partitions ->
  get_disk_info h = Ok text ->
  forall p, In p partitions -> contains (partition_lines h p) text = true.
Proof.
  intros Hp. unfold get_disk_info, returning_info, get_disk_info_body.
  rewrite Hp.
  unfold bind at 1 2 3 4. unfold emit at 1 2, modify, lift at 1. cbn [fst snd].
  match goal with
  | |- context [for_each partitions (disk_partition h) ?st] =>
      destruct (appends_for_each partitions (disk_partition h)
                  (partition_lines h) disk_partition_lines st)
        as (s1 & t1 & -> & I1 & P1)
  end.
  match goal with
  | |- (let (_, _) := ?tail s1 in _) = _ -> _ =>
      assert (Hg : grows tail)
        by (unfold disk_windows, disk_wmic_line; unfold_locals; grows_tac);
      destruct (Hg s1) as [t2 Ht2]; destruct (tail s1) as [[[]|e] s2];
        [|discriminate]
  end.
  intros [= <-] p Hin. cbn [snd] in Ht2. rewrite Ht2, I1.
  apply contains_app_l, contains_app_r. now apply P1.
Qed.

(** X18: the board block on Linux keeps what it printed before a file could
    not be read: the three files are read in order inside one [try], each
    line is appended as soon as its file is read, and the handler adds
    "Unavailable (may need root)" after the lines already there. *)
Theorem linux_board_block :
  is_windows h = false -> is_linux h = true ->
  appends (mobo_platform_block h) (fun t => t = linux_board_text h).
Proof.
  intros Hw Hl s. unfold mobo_platform_block, mobo_linux, linux_board_text.
  rewrite Hw, Hl. run_monad.
  destruct (read_file h "/sys/devices/virtual/dmi/id/board_vendor"); run_monad.
  2: { do 2 eexists. split; [reflexivity|]. cbn [info]. split; reflexivity. }
  destruct (read_file h "/sys/devices/virtual/dmi/id/board_name"); run_monad.
  2: { do 2 eexists. split; [reflexivity|]. cbn [info].
       rewrite !append_assoc. split; reflexivity. }
  destruct (read_file h "/sys/devices/virtual/dmi/id/board_version"); run_monad.
  2: { do 2 eexists. split; [reflexivity|]. cbn [info].
       rewrite !append_assoc. split; reflexivity. }
  do 2 eexists. split; [reflexivity|]. cbn [info].
  rewrite !append_assoc. split; reflexivity.
Qed.

(** X19: the time the battery block prints.  For a battery that is not
    plugged in and reports [secs >= 0] seconds left, the line is "Time
    Remaining: <hh>h <mm>m" with [hh] whole hours and [mm] whole minutes,
    [0 <= mm < 60], and less than a minute lost:
    [3600 hh + 60 mm <= secs < 3600 hh + 60 mm + 60]. *)
Theorem battery_time_remaining b :
  psutil_sensors_battery h = Ok (Some b) ->
  bat_power_plugged b <> Some true ->
  0 <= bat_secsleft b ->
  exists hh mm,
    appends (battery_block h)
      (fun t => t = ("Battery: " ++ num_str (bat_percent b) ++ "%" ++ nl)
                    ++ ("Power Plugged: No" ++ nl)
                    ++ ("Time Remaining: " ++ str_int hh ++ "h "
                          ++ str_int mm ++ "m" ++ nl))
    /\ 0 <= hh /\ 0 <= mm < 60
    /\ 3600 * hh + 60 * mm <= bat_secsleft b < 3600 * hh + 60 * mm + 60.
Proof.
  intros Hb Hp Hs.
  exists (bat_secsleft b / 3600), (bat_secsleft b mod 3600 / 60).
  split; [|split; [|split]].
  - intros s. unfold battery_block. run_monad. rewrite Hb. run_monad.
    assert (Hplug : match bat_power_plugged b with
                    | Some true => true
                    | _ => false
                    end = false).
    { destruct (bat_power_plugged b) as [[|]|]; [contradiction| |]; reflexivity. }
    rewrite Hplug. run_monad.
    unfold POWER_TIME_UNLIMITED, POWER_TIME_UNKNOWN.
    destruct (Z.eqb_spec (bat_secsleft b) (-2)); [lia|].
    destruct (Z.eqb_spec (bat_secsleft b) (-1)); [lia|].
    run_monad.
    do 2 eexists. split; [reflexivity|]. cbn [info].
    rewrite !append_assoc. split; reflexivity.
  - apply Z.div_pos; lia.
  - pose proof (Z.mod_pos_bound (bat_secsleft b) 3600 ltac:(lia)).
    split; [apply Z.div_pos; lia|apply Z.div_lt_upper_bound; lia].
  - pose proof (Z.div_mod (bat_secsleft b) 3600 ltac:(lia)).
    pose proof (Z.mod_pos_bound (bat_secsleft b) 3600 ltac:(lia)).
    pose proof (Z.div_mod (bat_secsleft b mod 3600) 60 ltac:(lia)).
    pose proof (Z.mod_pos_bound (bat_secsleft b mod 3600) 60 ltac:(lia)).
    lia.
Qed.

End Blocks.

Lemma ram_modules_fallback_witness :
  exists t,
    returning_info (memory_windows (L:=toy_lib) windows_box) = Ok t
    /\ t = ram_modules_title ++ ("RAM module details unavailable" ++ nl ++ nl).
Proof.
  apply returning_info_appends.
  apply (ram_modules_fallback (L:=toy_lib) windows_box).
  vm_compute. reflexivity.
Defined.

Lemma disk_partitions_all_listed_witness :
  exists text,
    get_disk_info (L:=toy_lib) linux_box = Ok text
    /\ contains
         (partition_lines linux_box
            {| device := "/dev/sda1"; mountpoint := "/"; fstype := "ext4" |})
         text = true.
Proof.
  destruct (get_disk_info (L:=toy_lib) linux_box) as [text|e] eqn:E;
    [|vm_compute in E; discriminate].
  exists text. split; [reflexivity|].
  apply (disk_partitions_all_listed (L:=toy_lib) linux_box _ text eq_refl E).
  left. reflexivity.
Defined.

Lemma linux_board_block_witness :
  exists t,
    returning_info (mobo_platform_block (L:=toy_lib) linux_box) = Ok t
    /\ t = "Unavailable (may need root)" ++ nl.
Proof.
  apply returning_info_appends.
  apply (linux_board_block (L:=toy_lib) linux_box); reflexivity.
Defined.

Lemma battery_time_remaining_witness :
  exists hh mm,
    0 <= mm < 60 /\ 3600 * hh + 60 * mm <= 5025 < 3600 * hh + 60 * mm + 60.
Proof.
  destruct (battery_time_remaining (L:=toy_lib) bare_laptop sample_battery
              eq_refl ltac:(discriminate) ltac:(cbn; lia))
    as (hh & mm & _ & _ & Hm & Hs).
  exists hh, mm. split; [exact Hm|exact Hs].
Defined.

Section Summary.
Context {F : Type} {L : PyLib F}.
Variable h : Host F.

Lemma summary_name_run s :
  (if is_windows h
   then try_except (registry_cpu_name h)
          (fun _ => set_cpu_name (platform_processor h))
   else set_cpu_name (platform_processor h)) s
  = (Ok tt, mkFrame (info s) (summary_cpu_name h) (gpu_found s) (temp_found s)
              (json_bound s) (current s) (module_num s)).
Proof.
  unfold summary_cpu_name, registry_outcome, registry_cpu_name.
  unfold bind, try_except, lift, set_cpu_name, modify. cbn.
  destruct (is_windows h); [|reflexivity].
  destruct (winreg_OpenKey h) as [[]|?]; cbn; [|reflexivity].
  destruct (winreg_QueryValueEx h) as [v|?]; cbn; [|reflexivity].
  destruct (winreg_CloseKey h) as [[]|?]; reflexivity.
Qed.

Lemma summary_prefix (k : M unit) text :
  grows k ->
  returning_info
    (emit ("ALL COMPONENTS - QUICK OVERVIEW" ++ nl) ;;
     emit (str_mul "=" 60 ++ nl ++ nl) ;;
     emit ("┌─ PROCESSOR" ++ nl) ;;
     emit ("│" ++ nl) ;;
     set_cpu_name "Unknown" ;;
     (if is_windows h
      then try_except (registry_cpu_name h)
             (fun _ => set_cpu_name (platform_processor h))
      else set_cpu_name (platform_processor h)) ;;
     name <- gets cpu_name ;;
     emit ("└─ " ++ name ++ nl) ;;
     k) = Ok text ->
  exists rest,
    text = ("ALL COMPONENTS - QUICK OVERVIEW" ++ nl)
           ++ (str_mul "=" 60 ++ nl ++ nl)
           ++ ("┌─ PROCESSOR" ++ nl) ++ ("│" ++ nl)
           ++ ("└─ " ++ summary_cpu_name h ++ nl) ++ rest.
Proof.
  intros Hg. unfold returning_info.
  unfold bind at 1 2 3 4 5 6 7 8.
  unfold emit at 1 2 3 4, set_cpu_name at 1, modify.
  cbn [fst snd info cpu_name gpu_found temp_found json_bound current module_num].
  rewrite summary_name_run. unfold gets, emit, modify.
  cbn [fst snd info cpu_name gpu_found temp_found json_bound current module_num].
  match goal with
  | |- context [k ?st] => destruct (Hg st) as [t Ht]; destruct (k st) as [[[]|e] s']
  end; [|discriminate].
  intros [= <-]. exists t. cbn [snd info frame0] in Ht. rewrite Ht.
  rewrite !append_assoc. reflexivity.
Qed.

(** X20: the processor line of the overview tab.  Its name comes from the
    registry on Windows and from [platform.processor()] whenever the
    registry read raises, or off Windows: [get_components_summary] has no
    WMIC step, so the overview and the CPU tab can name the processor
    differently. *)
Theorem summary_processor_line text :
  get_components_summary h = Ok text ->
  exists rest,
    text = ("ALL COMPONENTS - QUICK OVERVIEW" ++ nl)
           ++ (str_mul "=" 60 ++ nl ++ nl)
           ++ ("┌─ PROCESSOR" ++ nl) ++ ("│" ++ nl)
           ++ ("└─ " ++ summary_cpu_name h ++ nl) ++ rest.
Proof.
  apply summary_prefix.
  unfold summary_gpu_windows, summary_ram_windows,
    summary_mobo_windows, summary_storage_windows, summary_ram_module, summary_disk.
  unfold_locals. grows_tac.
Qed.

End Summary.

Lemma summary_processor_line_witness :
  exists text rest,
    get_components_summary (L:=toy_lib) windows_box = Ok text
    /\ text = ("ALL COMPONENTS - QUICK OVERVIEW" ++ nl)
              ++ (str_mul "=" 60 ++ nl ++ nl)
              ++ ("┌─ PROCESSOR" ++ nl) ++ ("│" ++ nl)
              ++ ("└─ " ++ platform_processor windows_box ++ nl) ++ rest.
Proof.
  destruct (get_components_summary (L:=toy_lib) windows_box) as [text|e] eqn:E;
    [|vm_compute in E; discriminate].
  destruct (summary_processor_line (L:=toy_lib) windows_box text E) as [rest H].
  exists text, rest. split; [reflexivity|exact H].
Defined.

(** The overview and the CPU tab name the processor of [windows_box]
    differently. *)
Example summary_and_cpu_tab_differ :
  summary_cpu_name windows_box
  = "Intel64 Family 6 Model 158 Stepping 10, GenuineIntel"
  /\ cpu_model_name windows_box = "Unknown CPU".
Proof. split; vm_compute; reflexivity. Qed.
